(** * plumx-citation-extraction: a shallow embedding of the Elsevier client

    The development follows [scripts/utils.py] and
    [scripts/elsevier_api_client.py].  Python values that travel through the
    client (decoded JSON documents, entries, counters) are values of [json];
    exceptions are values of [exn] carried by [result]; the network, the
    inter-page pause and the files written are events of a log threaded
    through every call that performs them. *)

From Stdlib Require Import ZArith List String Ascii Bool Lia Permutation Sorted.
From Stdlib Require Import DecimalString.
From Stdlib Require Decimal DecimalZ.
Import ListNotations.

Set Warnings "-register-all".

Local Open Scope string_scope.
Local Open Scope Z_scope.

(** ** Python values and exceptions *)

(** A decoded JSON document.  Numbers are integers: the counters and the
    paging fields of the provider are. *)
Inductive json : Type :=
  | JNull
  | JBool (b : bool)
  | JNum (n : Z)
  | JStr (s : string)
  | JArr (l : list json)
  | JObj (kv : list (string * json)).

Inductive exn : Type :=
  | ValueError (msg : string)
  | KeyError (key : string)
  | TypeError
  | AttributeError
  | IndexError
  | UnboundLocalError (var : string).

Inductive result (A : Type) : Type :=
  | Ok (a : A)
  | Raise (e : exn).

Arguments Ok {A} a.
Arguments Raise {A} e.

Definition bind {A B : Type} (m : result A) (k : A -> result B) : result B :=
  match m with
  | Ok a => k a
  | Raise e => Raise e
  end.

Notation "x <- m ;; k" := (bind m (fun x => k))
  (at level 61, m at next level, right associativity).

(** ** Strings

    A character is a code point below 256. *)
Module Str.

(** [sub in s] on two [str] values. *)
Fixpoint contains (sub s : string) : bool :=
  String.prefix sub s
  || match s with
     | EmptyString => false
     | String _ s' => contains sub s'
     end.

Definition lower_char (c : ascii) : ascii :=
  let n := N_of_ascii c in
  if ((65 <=? n) && (n <=? 90)
      || (192 <=? n) && (n <=? 222) && negb (n =? 215))%N
  then ascii_of_N (n + 32)
  else c.

(** [s.lower()] *)
Fixpoint lower (s : string) : string :=
  match s with
  | EmptyString => EmptyString
  | String c s' => String (lower_char c) (lower s')
  end.

Definition is_space (c : ascii) : bool :=
  let n := N_of_ascii c in
  ((9 <=? n) && (n <=? 13) || (28 <=? n) && (n <=? 32)
   || (n =? 133) || (n =? 160))%N.

Fixpoint lstrip (s : string) : string :=
  match s with
  | EmptyString => EmptyString
  | String c s' => if is_space c then lstrip s' else s
  end.

Fixpoint rstrip (s : string) : string :=
  match s with
  | EmptyString => EmptyString
  | String c s' =>
      match rstrip s' with
      | EmptyString => if is_space c then EmptyString else String c EmptyString
      | r => String c r
      end
  end.

(** [s.strip()] *)
Definition strip (s : string) : string := rstrip (lstrip s).

(** [str(n)] for an integer. *)
Definition of_Z (n : Z) : string := NilZero.string_of_int (Z.to_int n).

End Str.

(** Truth value of an optional list argument: [None] and [[]] are false. *)
Definition truthy {A : Type} (o : option (list A)) : bool :=
  match o with
  | Some (_ :: _) => true
  | _ => false
  end.

Definition items {A : Type} (o : option (list A)) : list A :=
  match o with
  | Some l => l
  | None => []
  end.

(** [l.append (x)] *)
Definition append_item {A : Type} (l : list A) (x : A) : list A :=
  List.app l [x].

(** ** utils.py *)

(** [join_with_operator (search_terms, operator)] *)
Definition join_with_operator (search_terms : list string) (operator : string)
  : result string :=
  if negb (existsb (String.eqb operator) ["AND"; "OR"])
  then Raise (ValueError "Operator must be 'AND' or 'OR'.")
  else Ok (String.concat (" " ++ operator ++ " ") search_terms).

(** [write_headers (api_key, inst_token, accept)]; the key read from the
    environment may be absent. *)
Definition write_headers (api_key : option string) (inst_token accept : string)
  : list (string * option string) :=
  let headers := [("X-ELS-APIKey", api_key); ("Accept", Some accept)] in
  if negb (inst_token =? EmptyString)%string
  then append_item headers ("X-ELS-Insttoken", Some inst_token)
  else headers.

(** ** Query Builder *)

(** An author identifier is given as text or as a number; [str(id)] renders
    it. *)
Inductive author_id : Type :=
  | IdStr (s : string)
  | IdInt (n : Z).

Definition str_of_id (id : author_id) : string :=
  match id with
  | IdStr s => s
  | IdInt n => Str.of_Z n
  end.

(** The parameter dictionary of [write_query].  Its keys are fixed, so it is
    a record; ["date"] is present only when a date range was given. *)
Record params : Type := mkParams {
  start : Z;
  count : Z;
  field : string;
  date : option string;
  query : string
}.

Definition set_start (p : params) (s : Z) : params :=
  mkParams s (count p) (field p) (date p) (query p).

Definition write_query
    (keywords subjs : option (list string))
    (author_ids : option (list author_id))
    (authors : option (list string))
    (date_range : option string) : result params :=
  let date :=
    match date_range with
    | Some d => if (d =? EmptyString)%string then None else Some d
    | None => None
    end in
  let query_list : list string := [] in
  query_list <-
    (if truthy keywords then
       let keywords := map (fun keyword => "'" ++ keyword ++ "'") (items keywords) in
       keywords <- join_with_operator keywords "AND" ;;
       Ok (append_item query_list ("TITLE(" ++ keywords ++ ")"))
     else Ok query_list) ;;
  query_list <-
    (if truthy subjs then
       subjs <- join_with_operator (items subjs) "OR" ;;
       Ok (append_item query_list ("SUBJAREA(" ++ subjs ++ ")"))
     else Ok query_list) ;;
  query_list <-
    (if truthy author_ids then
       let author_ids :=
         map (fun id => "AU-ID(" ++ str_of_id id ++ ")") (items author_ids) in
       author_ids <- join_with_operator author_ids "OR" ;;
       Ok (append_item query_list author_ids)
     else Ok query_list) ;;
  query_list <-
    (if truthy authors then
       authors <- join_with_operator (items authors) "OR" ;;
       Ok (append_item query_list ("AUTHOR-NAME(" ++ authors ++ ")"))
     else Ok query_list) ;;
  query <- join_with_operator query_list "AND" ;;
  if (query =? EmptyString)%string
  then Raise (ValueError "Query parameter cannot be empty.")
  else Ok (mkParams 0 50
             "prism:doi,dc:title,prism:publicationName,prism:coverDate,dc:creator"
             date query).

(** ** Operations on decoded documents *)

Fixpoint dict_get (kv : list (string * json)) (key : string) : option json :=
  match kv with
  | [] => None
  | (k, v) :: rest => if (k =? key)%string then Some v else dict_get rest key
  end.

(** [d[key] = v] on a dict: an existing key keeps its place, a new one goes
    last. *)
Fixpoint dict_set (kv : list (string * json)) (key : string) (v : json)
  : list (string * json) :=
  match kv with
  | [] => [(key, v)]
  | (k, w) :: rest =>
      if (k =? key)%string then (k, v) :: rest else (k, w) :: dict_set rest key v
  end.

(** [v[key]] with a string key. *)
Definition subscript (v : json) (key : string) : result json :=
  match v with
  | JObj kv =>
      match dict_get kv key with
      | Some x => Ok x
      | None => Raise (KeyError key)
      end
  | _ => Raise TypeError
  end.

(** [v[key] = x] with a string key. *)
Definition set_item (v : json) (key : string) (x : json) : result json :=
  match v with
  | JObj kv => Ok (JObj (dict_set kv key x))
  | _ => Raise TypeError
  end.

(** [v.get (key)] *)
Definition get_method (v : json) (key : string) : result json :=
  match v with
  | JObj kv =>
      match dict_get kv key with
      | Some x => Ok x
      | None => Ok JNull
      end
  | _ => Raise AttributeError
  end.

Fixpoint chars (s : string) : list json :=
  match s with
  | EmptyString => []
  | String c s' => JStr (String c EmptyString) :: chars s'
  end.

(** The elements a [for] loop, [extend] or [len] sees. *)
Definition py_iter (v : json) : result (list json) :=
  match v with
  | JArr l => Ok l
  | JObj kv => Ok (map (fun p => JStr (fst p)) kv)
  | JStr s => Ok (chars s)
  | _ => Raise TypeError
  end.

(** [v.lower ()] *)
Definition lower_method (v : json) : result string :=
  match v with
  | JStr s => Ok (Str.lower s)
  | _ => Raise AttributeError
  end.

(** [v == s] for a string [s]. *)
Definition eq_str (v : json) (s : string) : bool :=
  match v with
  | JStr t => (t =? s)%string
  | _ => false
  end.

Definition num_of (v : json) : option Z :=
  match v with
  | JNum n => Some n
  | JBool b => Some (if b then 1 else 0)
  | _ => None
  end.

(** [a == b] *)
Fixpoint py_eq (a b : json) {struct a} : bool :=
  match a, b with
  | JNull, JNull => true
  | JStr s, JStr t => (s =? t)%string
  | JArr la, JArr lb =>
      (fix go (la lb : list json) {struct la} : bool :=
         match la, lb with
         | [], [] => true
         | x :: xs, y :: ys => py_eq x y && go xs ys
         | _, _ => false
         end) la lb
  | JObj ka, JObj kb =>
      (List.length ka =? List.length kb)%nat
      && (fix all (ka : list (string * json)) : bool :=
            match ka with
            | [] => true
            | (k, v) :: rest =>
                match dict_get kb k with
                | Some w => py_eq v w
                | None => false
                end && all rest
            end) ka
  | _, _ =>
      match num_of a, num_of b with
      | Some x, Some y => x =? y
      | _, _ => false
      end
  end.

(** [a < b] *)
Fixpoint py_lt (a b : json) {struct a} : result bool :=
  match a, b with
  | JStr s, JStr t => Ok (String.ltb s t)
  | JArr la, JArr lb =>
      (fix go (la lb : list json) {struct la} : result bool :=
         match la, lb with
         | [], [] => Ok false
         | [], _ :: _ => Ok true
         | _ :: _, [] => Ok false
         | x :: xs, y :: ys => if py_eq x y then go xs ys else py_lt x y
         end) la lb
  | _, _ =>
      match num_of a, num_of b with
      | Some x, Some y => Ok (x <? y)
      | _, _ => Raise TypeError
      end
  end.

(** [int (v)]: an integer, or its decimal text with an optional sign, blanks
    around it and single underscores between digits.  A character stands
    for the code point of its number.  The blanks [int] skips are tab to
    carriage return and the space, and, of the characters above 127, the
    two that are white space (133 and 160); the separators 28 to 31, which
    [str.strip] removes, are refused.  The digits, leading zeros counted,
    may not be more than 4300, the limit the interpreter sets by default. *)
Definition digit_of (c : ascii) : option Z :=
  let n := N_of_ascii c in
  if ((48 <=? n) && (n <=? 57))%N then Some (Z.of_N n - 48) else None.

Fixpoint digits_value (s : string) (acc : Z) (after_digit : bool) : option Z :=
  match s with
  | EmptyString => if after_digit then Some acc else None
  | String c rest =>
      match digit_of c with
      | Some d => digits_value rest (10 * acc + d) true
      | None =>
          if (Ascii.eqb c "_" && after_digit)%bool
          then digits_value rest acc false
          else None
      end
  end.

Definition int_space (c : ascii) : bool :=
  let n := N_of_ascii c in
  ((9 <=? n) && (n <=? 13) || (n =? 32) || (n =? 133) || (n =? 160))%N.

Fixpoint int_lstrip (s : string) : string :=
  match s with
  | EmptyString => EmptyString
  | String c s' => if int_space c then int_lstrip s' else s
  end.

Fixpoint int_rstrip (s : string) : string :=
  match s with
  | EmptyString => EmptyString
  | String c s' =>
      match int_rstrip s' with
      | EmptyString => if int_space c then EmptyString else String c EmptyString
      | r => String c r
      end
  end.

Definition int_max_str_digits : nat := 4300.

Fixpoint count_digits (s : string) : nat :=
  match s with
  | EmptyString => O
  | String c rest =>
      match digit_of c with
      | Some _ => S (count_digits rest)
      | None => count_digits rest
      end
  end.

(** The digits after the sign: well formed, and not over the limit. *)
Definition digits_within_limit (s : string) : option Z :=
  match digits_value s 0 false with
  | Some n =>
      if (int_max_str_digits <? count_digits s)%nat then None else Some n
  | None => None
  end.

Definition int_of_string (s : string) : option Z :=
  match int_rstrip (int_lstrip s) with
  | String "-" rest => option_map Z.opp (digits_within_limit rest)
  | String "+" rest => digits_within_limit rest
  | t => digits_within_limit t
  end.

Definition py_int (v : json) : result Z :=
  match v with
  | JNum n => Ok n
  | JBool b => Ok (if b then 1 else 0)
  | JStr s =>
      match int_of_string s with
      | Some n => Ok n
      | None => Raise (ValueError "invalid literal for int()")
      end
  | _ => Raise TypeError
  end.

(** [key in v] *)
Definition contains_key (v : json) (key : string) : result bool :=
  match v with
  | JObj kv => Ok (existsb (fun p => (fst p =? key)%string) kv)
  | JArr l => Ok (existsb (fun x => eq_str x key) l)
  | JStr s => Ok (Str.contains key s)
  | _ => Raise TypeError
  end.

(** [v.keys ()] and [v.values ()] *)
Definition keys_method (v : json) : result (list json) :=
  match v with
  | JObj kv => Ok (map (fun p => JStr (fst p)) kv)
  | _ => Raise AttributeError
  end.

Definition values_method (v : json) : result (list json) :=
  match v with
  | JObj kv => Ok (map snd kv)
  | _ => Raise AttributeError
  end.

Fixpoint map_result {A B : Type} (f : A -> result B) (l : list A)
  : result (list B) :=
  match l with
  | [] => Ok []
  | x :: rest => y <- f x ;; ys <- map_result f rest ;; Ok (y :: ys)
  end.

Fixpoint filter_result {A : Type} (f : A -> result bool) (l : list A)
  : result (list A) :=
  match l with
  | [] => Ok []
  | x :: rest =>
      b <- f x ;; ys <- filter_result f rest ;; Ok (if b then x :: ys else ys)
  end.

(** [l[i] = x] for an index in range. *)
Fixpoint set_nth {A : Type} (i : nat) (x : A) (l : list A) : list A :=
  match l, i with
  | [], _ => []
  | _ :: rest, O => x :: rest
  | y :: rest, S j => y :: set_nth j x rest
  end.

(** ** The outside world

    A request is what [requests.get] is given.  The address of an analytics
    document keeps the value formatted into it apart from the fixed prefix
    [https://api.elsevier.com/analytics/plumx/doi/]. *)

Inductive url : Type :=
  | Url (s : string)
  | PlumxUrl (article_doi : json).

Record request : Type := mkRequest {
  rq_url : url;
  rq_headers : list (string * option string);
  rq_params : option params
}.

(** What the client reads of a [requests.Response]: the declared content
    type, if the header is there, and what [response.json ()] gives.  The
    status code is part of the object. *)
Record response : Type := mkResponse {
  status_code : Z;
  content_type : option string;
  json_method : result json
}.

(** What the client does to the outside: a request, the pause between two
    pages, a directory made, a file opened for writing (created, or emptied
    if it was there), and what is written to an open file: a list as JSON,
    one CSV row, several CSV rows.  The file system is taken to allow
    each. *)
Inductive event : Type :=
  | Get (rq : request)
  | Sleep
  | MakeOutputDir (path : string)
  | OpenFile (path : string)
  | WriteJson (path : string) (entries : list json)
  | WriteRow (path : string) (row : list json)
  | WriteRows (path : string) (rows : list (list json)).

(** A computation that may raise and extends the log of events. *)
Definition io (A : Type) : Type := list event -> result A * list event.

Definition ret {A : Type} (a : A) : io A := fun log => (Ok a, log).
Definition raise {A : Type} (e : exn) : io A := fun log => (Raise e, log).
Definition lift {A : Type} (r : result A) : io A := fun log => (r, log).
Definition emit (e : event) : io unit := fun log => (Ok tt, append_item log e).

Definition bind_io {A B : Type} (m : io A) (k : A -> io B) : io B :=
  fun log =>
    match m log with
    | (Ok a, log') => k a log'
    | (Raise e, log') => (Raise e, log')
    end.

Notation "x <~ m ;; k" := (bind_io m (fun x => k))
  (at level 61, m at next level, right associativity).

(** What [fetch_data] hands back: the response object, a decoded body, or
    [None]. *)
Inductive fetched : Type :=
  | Raw (r : response)
  | Parsed (j : json)
  | Nothing.

(** [data[key]]: neither a response object nor [None] can be subscripted. *)
Definition fetched_subscript (data : fetched) (key : string) : result json :=
  match data with
  | Parsed j => subscript j key
  | Raw _ | Nothing => Raise TypeError
  end.

(** ** Metrics lookup *)

Fixpoint scan_types (types : list json) (citation_type : string)
  : result (option json) :=
  match types with
  | [] => Ok None
  | t :: rest =>
      name <- subscript t "name" ;;
      name <- lower_method name ;;
      if Str.contains citation_type name
      then total <- subscript t "total" ;; Ok (Some total)
      else scan_types rest citation_type
  end.

Fixpoint scan_categories (categories : list json) (citation_type kind : string)
  : result json :=
  match categories with
  | [] => Ok (JNum 0)
  | c :: rest =>
      name <- subscript c "name" ;;
      if eq_str name kind then
        types <- subscript c "count_types" ;;
        types <- py_iter types ;;
        found <- scan_types types citation_type ;;
        match found with
        | Some total => Ok total
        | None => scan_categories rest citation_type kind
        end
      else scan_categories rest citation_type kind
  end.

Definition extract_count (categories : json) (citation_type kind : string)
  : result json :=
  categories <- py_iter categories ;;
  scan_categories categories citation_type kind.

Definition access_citation_counts (plumx_response : fetched)
    (citation_type : string) : result (list (string * json)) :=
  let citation_type := Str.strip (Str.lower citation_type) in
  match fetched_subscript plumx_response "count_categories" with
  | Raise _ =>
      match fetched_subscript plumx_response "id_value" with
      | Ok _ =>
          if (citation_type =? "both")%string
          then Ok [("news", JNull); ("policy", JNull)]
          else Ok [(citation_type, JNull)]
      | Raise _ =>
          if (citation_type =? "both")%string
          then Ok [("news", JNull); ("policy", JNull)]
          else Ok [(citation_type, JNull)]
      end
  | Ok categories =>
      if (citation_type =? "both")%string then
        news_count <- extract_count categories "news" "mention" ;;
        policy_count <- extract_count categories "policy" "citation" ;;
        Ok [("news", news_count); ("policy", policy_count)]
      else
        kind <-
          (if (citation_type =? "news")%string then Ok "mention"
           else if (citation_type =? "policy")%string then Ok "citation"
           else Raise (ValueError
                         "Citation type must be 'news', 'policy', or 'both'.")) ;;
        count <- extract_count categories citation_type kind ;;
        Ok [(citation_type, count)]
  end.

(** ** Paging information *)

Definition iterate_search_info (data : fetched)
  : option (json * Z * Z * Z) :=
  match
    (search_results <- fetched_subscript data "search-results" ;;
     entries <- get_method search_results "entry" ;;
     total <- get_method search_results "opensearch:totalResults" ;;
     total <- py_int total ;;
     start <- get_method search_results "opensearch:startIndex" ;;
     start <- py_int start ;;
     per_page <- get_method search_results "opensearch:itemsPerPage" ;;
     per_page <- py_int per_page ;;
     Ok (entries, total, start, per_page))
  with
  | Ok t => Some t
  | Raise _ => None
  end.

(** ** Sorting by counters *)

Inductive sort_key : Type :=
  | NegInf
  | Val (v : json).

Definition key_eq (a b : sort_key) : bool :=
  match a, b with
  | NegInf, NegInf => true
  | Val x, Val y => py_eq x y
  | _, _ => false
  end.

Definition key_lt (a b : sort_key) : result bool :=
  match a, b with
  | NegInf, NegInf => Ok false
  | NegInf, Val v =>
      match num_of v with Some _ => Ok true | None => Raise TypeError end
  | Val v, NegInf =>
      match num_of v with Some _ => Ok false | None => Raise TypeError end
  | Val x, Val y => py_lt x y
  end.

(** [a < b] on two pairs: the first components that differ decide. *)
Definition tuple_lt (a b : sort_key * sort_key) : result bool :=
  if key_eq (fst a) (fst b) then
    if key_eq (snd a) (snd b) then Ok false else key_lt (snd a) (snd b)
  else key_lt (fst a) (fst b).

Definition is_none (v : json) : bool :=
  match v with
  | JNull => true
  | _ => false
  end.

Definition entry_sorter (item : json) : result (sort_key * sort_key) :=
  policy <- subscript item "policy_citation_count" ;;
  first <- Ok (if negb (is_none policy) then Val policy else NegInf) ;;
  policy <- subscript item "policy_citation_count" ;;
  second <-
    (if negb (is_none policy)
     then news <- subscript item "news_mentions" ;; Ok (Val news)
     else Ok NegInf) ;;
  Ok (first, second).

(** [sorted (l, key=..., reverse=True)]: a stable sort, largest key first,
    that only asks whether one key is below another.  The keys are computed
    once, in order.  Where two keys cannot be compared the call raises; which
    pairs the library compares is its own matter, so the model is exact on
    lists whose keys can all be compared. *)
Fixpoint insert_desc {A : Type} (x : (sort_key * sort_key) * A)
    (l : list ((sort_key * sort_key) * A))
  : result (list ((sort_key * sort_key) * A)) :=
  match l with
  | [] => Ok [x]
  | y :: rest =>
      below <- tuple_lt (fst x) (fst y) ;;
      if below
      then r <- insert_desc x rest ;; Ok (y :: r)
      else Ok (x :: y :: rest)
  end.

Fixpoint sort_desc {A : Type} (l : list ((sort_key * sort_key) * A))
  : result (list ((sort_key * sort_key) * A)) :=
  match l with
  | [] => Ok []
  | x :: rest => s <- sort_desc rest ;; insert_desc x s
  end.

Definition sorted_reverse (key : json -> result (sort_key * sort_key))
    (l : list json) : result (list json) :=
  keys <- map_result key l ;;
  s <- sort_desc (combine keys l) ;;
  Ok (map snd s).

(** ** Output directory *)

Fixpoint ends_with (c : ascii) (s : string) : bool :=
  match s with
  | EmptyString => false
  | String x EmptyString => Ascii.eqb x c
  | String _ s' => ends_with c s'
  end.

(** [os.path.join (a, b)] *)
Definition path_join (a b : string) : string :=
  if String.prefix "/" b then b
  else if (a =? EmptyString)%string || ends_with "/" a then a ++ b
  else a ++ "/" ++ b.

(** [filepath_to_output (output_name)], given whether the code runs under
    IPython and the working directory.  [__file__] is assigned in the
    IPython branch only, which makes it a local name of the function: in
    the other branch it is read unbound.  Under IPython the placeholder
    name resolves against the working directory. *)
Definition filepath_to_output (ipython : bool) (cwd : string)
    (output_name : string) : result string :=
  file <- (if ipython
           then Ok "placeholder_for_jupyter.will_not_run_in_py"
           else Raise (UnboundLocalError "__file__")) ;;
  let current_dir := cwd in
  Ok (path_join (path_join (path_join current_dir "..") "results")
        output_name).

(** ** The client, against a provider *)

Section Client.

(** The provider answers every request; the credentials come from the
    environment. *)
Variable http : request -> response.
Variable api_key : option string.
Variable inst_token : string.

(** Whether the code runs under IPython, the working directory, and what
    [datetime.datetime.now ().strftime (format)] gives at a moment. *)
Variable ipython : bool.
Variable cwd : string.
Variable clock : list event -> string -> string.

Definition timestamp_now (format : string) : io string :=
  fun log => (Ok (clock log format), log).

(** [with open (path, "w") as f:] and the two writes of the CSV: the header
    from the keys of the first entry, then the values of every entry. *)
Definition write_csv (path : string) (entries : list json) : io unit :=
  _ <~ emit (OpenFile path) ;;
  first <~ lift (match entries with
                 | e :: _ => Ok e
                 | [] => Raise IndexError
                 end) ;;
  header <~ lift (keys_method first) ;;
  _ <~ emit (WriteRow path header) ;;
  rows <~ lift (map_result values_method entries) ;;
  emit (WriteRows path rows).

Definition requests_get (rq : request) : io response :=
  _ <~ emit (Get rq) ;; ret (http rq).

Definition fetch_data (url : url) (headers : list (string * option string))
    (params : option params) : io fetched :=
  response <~
    match params with
    | Some p => requests_get (mkRequest url headers (Some p))
    | None => requests_get (mkRequest url headers None)
    end ;;
  let content_type :=
    match content_type response with
    | Some c => c
    | None => EmptyString
    end in
  if Str.contains "image" content_type || Str.contains "pdf" content_type
  then ret (Raw response)
  else if Str.contains "json" content_type
  then lift (j <- json_method response ;; Ok (Parsed j))
  else if Str.contains "xml" content_type
  then raise (ValueError
                "Output is in XML. Specify 'application/json' in headers.")
  else ret Nothing.

(** *** Search Orchestrator *)

(** The endpoint chosen from the normalised name; no branch assigns it
    for any other name. *)
Definition search_url_of (database_name : string) : option string :=
  if (database_name =? "scopus")%string
  then Some "https://api.elsevier.com/content/search/scopus"
  else if (database_name =? "sciencedirect")%string
          || (database_name =? "scidir")%string
  then Some "https://api.elsevier.com/content/search/sciencedirect"
  else None.

(** [if filter and "sciencedirect" in search_url : raise ValueError (msg)] *)
Definition reject_for_scidir {A : Type} (filter : option (list A))
    (search_url : option string) (msg : string) : result unit :=
  if truthy filter then
    match search_url with
    | None => Raise (UnboundLocalError "search_url")
    | Some u =>
        if Str.contains "sciencedirect" u
        then Raise (ValueError msg)
        else Ok tt
    end
  else Ok tt.

(** [max_results and len (all_entries) >= max_results] *)
Definition cap_reached (max_results : option Z) (all_entries : list json)
  : bool :=
  match max_results with
  | Some m => negb (m =? 0) && (Z.of_nat (List.length all_entries) >=? m)
  | None => false
  end.

(** The [while True] loop.  [None]: the loop is still running when the
    fuel is spent. *)
Fixpoint search_loop (fuel : nat) (search_url : string)
    (headers : list (string * option string)) (params : params)
    (max_results : option Z) (all_entries : list json) (log : list event)
  : option (result (list json) * list event) :=
  match fuel with
  | O => None
  | S fuel =>
      match fetch_data (Url search_url) headers (Some params) log with
      | (Raise e, log) => Some (Raise e, log)
      | (Ok my_request, log) =>
          match iterate_search_info my_request with
          | None => Some (Raise TypeError, log)
          | Some (entries, total, start, per_page) =>
              match py_iter entries with
              | Raise e => Some (Raise e, log)
              | Ok page =>
                  let all_entries := List.app all_entries page in
                  let next_start := start + Z.of_nat (List.length page) in
                  if next_start >=? total then Some (Ok all_entries, log)
                  else if cap_reached max_results all_entries
                  then Some (Ok all_entries, log)
                  else
                    search_loop fuel search_url headers
                      (set_start params next_start) max_results all_entries
                      (append_item log Sleep)
              end
          end
      end
  end.

(** What [search_database] does once the loop is over: the output
    directory, the JSON file and, if asked for, the CSV file. *)
Definition save_search (database_name : string) (save_to_csv : bool)
    (all_entries : list json) : io (list json) :=
  output_dir <~ lift (filepath_to_output ipython cwd "search_queries") ;;
  _ <~ emit (MakeOutputDir output_dir) ;;
  timestamp <~ timestamp_now "%Y%m%d_%H%M%S" ;;
  let json_path :=
    output_dir ++ "/" ++ database_name ++ "_search_" ++ timestamp ++ ".json" in
  _ <~ emit (OpenFile json_path) ;;
  _ <~ emit (WriteJson json_path all_entries) ;;
  if save_to_csv then
    let csv_path :=
      output_dir ++ "/" ++ database_name ++ "_search_" ++ timestamp ++ ".csv" in
    _ <~ write_csv csv_path all_entries ;;
    ret all_entries
  else ret all_entries.

(** Provider selection, the two provider checks and the query: all that
    [search_database] does before its first request. *)
Definition prepare_search
    (keywords : option (list string)) (date_range : option string)
    (authors subjs : option (list string))
    (author_ids : option (list author_id))
    (database_name : string) : result (string * params) :=
  let search_url := search_url_of database_name in
  _ <- reject_for_scidir author_ids search_url
         "SciDir does not accept subject or author ID. Provide author name or use Scopus." ;;
  _ <- reject_for_scidir subjs search_url
         "SciDir does not accept the subject query parameter. Use Scopus." ;;
  params <- write_query keywords subjs author_ids authors date_range ;;
  match search_url with
  | Some u => Ok (u, params)
  | None => Raise (UnboundLocalError "search_url")
  end.

Definition search_database (fuel : nat)
    (keywords : option (list string)) (date_range : option string)
    (authors subjs : option (list string))
    (author_ids : option (list author_id))
    (database_name : string) (max_results : option Z) (save_to_csv : bool)
    (log : list event) : option (result (list json) * list event) :=
  let database_name := Str.strip (Str.lower database_name) in
  match
    prepare_search keywords date_range authors subjs author_ids database_name
  with
  | Raise e => Some (Raise e, log)
  | Ok (search_url, params) =>
      let headers := write_headers api_key inst_token "application/json" in
      match search_loop fuel search_url headers params max_results [] log with
      | None => None
      | Some (Raise e, log) => Some (Raise e, log)
      | Some (Ok all_entries, log) =>
          Some (save_search database_name save_to_csv all_entries log)
      end
  end.

(** *** Metrics Enricher *)

(** One turn of the loop over [range (len (entries))].  The local
    [article_doi] is unbound until a record with the key has been seen. *)
Definition metrics_step (i : nat) (st : list json * option json)
  : io (list json * option json) :=
  let '(entries, article_doi) := st in
  entry <~ lift (match nth_error entries i with
                 | Some e => Ok e
                 | None => Raise IndexError
                 end) ;;
  st <~
    match subscript entry "prism:doi" with
    | Ok doi => ret (entries, Some doi)
    | Raise _ =>
        lift (entry <- set_item entry "policy_citation_count" JNull ;;
              let entries := set_nth i entry entries in
              entry <- set_item entry "news_mentions" JNull ;;
              Ok (set_nth i entry entries, article_doi))
    end ;;
  let '(entries, article_doi) := st in
  article_doi <~ lift (match article_doi with
                       | Some doi => Ok doi
                       | None => Raise (UnboundLocalError "article_doi")
                       end) ;;
  let headers := write_headers api_key inst_token "application/json" in
  my_request <~ fetch_data (PlumxUrl article_doi) headers None ;;
  citation_counts <~ lift (access_citation_counts my_request "both") ;;
  policy <~ lift (subscript (JObj citation_counts) "policy") ;;
  entry <~ lift (match nth_error entries i with
                 | Some e => set_item e "policy_citation_count" policy
                 | None => Raise IndexError
                 end) ;;
  let entries := set_nth i entry entries in
  news <~ lift (subscript (JObj citation_counts) "news") ;;
  entry <~ lift (set_item entry "news_mentions" news) ;;
  ret (set_nth i entry entries, Some article_doi).

Fixpoint metrics_loop (indices : list nat) (st : list json * option json)
  : io (list json * option json) :=
  match indices with
  | [] => ret st
  | i :: rest => st <~ metrics_step i st ;; metrics_loop rest st
  end.

Definition has_both_counters (entry : json) : result bool :=
  a <- contains_key entry "policy_citation_count" ;;
  if a then contains_key entry "news_mentions" else Ok false.

Definition save_metrics (save_to_file : bool) (entries : list json)
  : io (list json) :=
  if save_to_file then
    output_dir <~ lift (filepath_to_output ipython cwd "search_queries") ;;
    _ <~ emit (MakeOutputDir output_dir) ;;
    timestamp <~ timestamp_now "%Y%m%d_%H%M%S" ;;
    let csv_path := output_dir ++ "/plumx_output_" ++ timestamp ++ ".csv" in
    _ <~ write_csv csv_path entries ;;
    ret entries
  else ret entries.

Definition get_plumx_metrics (entries : list json) (save_to_file : bool)
  : io (list json) :=
  st <~ metrics_loop (seq 0 (List.length entries)) (entries, None) ;;
  let entries := fst st in
  entries <~ lift (filter_result has_both_counters entries) ;;
  entries <~ lift (sorted_reverse entry_sorter entries) ;;
  save_metrics save_to_file entries.

End Client.

Arguments fetch_data http url headers params log : simpl never.

(** ** Reading the log *)

Definition is_get (e : event) : bool :=
  match e with
  | Get _ => true
  | _ => false
  end.

(** The number of HTTP requests issued. *)
Definition fetches (log : list event) : nat :=
  List.length (filter is_get log).

(** ** Vocabulary of the specification *)

(** The four clause shapes of the Query Builder, in the words of its
    contract. *)
Module Clause.

Definition quoted (keyword : string) : string := "'" ++ keyword ++ "'".

Definition title (keywords : list string) : string :=
  "TITLE(" ++ String.concat " AND " (map quoted keywords) ++ ")".

Definition subject_area (subjs : list string) : string :=
  "SUBJAREA(" ++ String.concat " OR " subjs ++ ")".

Definition identifier (id : author_id) : string :=
  "AU-ID(" ++ str_of_id id ++ ")".

Definition identifiers (ids : list author_id) : string :=
  String.concat " OR " (map identifier ids).

Definition author_name (authors : list string) : string :=
  "AUTHOR-NAME(" ++ String.concat " OR " authors ++ ")".

(** One clause for a filter that is given and not empty, none otherwise. *)
Definition of_filter {A : Type} (shape : list A -> string)
    (filter : option (list A)) : list string :=
  match filter with
  | Some (x :: rest) => [shape (x :: rest)]
  | _ => []
  end.

Definition all (keywords subjs : option (list string))
    (author_ids : option (list author_id)) (authors : option (list string))
  : list string :=
  List.app (of_filter title keywords)
    (List.app (of_filter subject_area subjs)
       (List.app (of_filter identifiers author_ids)
          (of_filter author_name authors))).

Definition given {A : Type} (filter : option (list A)) : nat :=
  if truthy filter then 1%nat else 0%nat.

End Clause.

(** [ceil_div a b] is the least number of pages of [b] items that hold [a]
    items. *)
Definition ceil_div (a b : nat) : nat := ((a + b - 1) / b)%nat.

(** A provider that pages through [hits], [per_page] at a time, from the
    offset it is asked for. *)
Definition search_page (hits : list json) (per_page : nat) (offset : Z)
  : json :=
  JObj [("search-results",
         JObj [("opensearch:totalResults", JNum (Z.of_nat (List.length hits)));
               ("opensearch:startIndex", JNum offset);
               ("opensearch:itemsPerPage", JNum (Z.of_nat per_page));
               ("entry",
                JArr (firstn per_page (skipn (Z.to_nat offset) hits)))])].

Definition paging_provider (hits : list json) (per_page : nat)
    (rq : request) : response :=
  let offset :=
    match rq_params rq with
    | Some p => start p
    | None => 0
    end in
  mkResponse 200 (Some "application/json;charset=UTF-8")
    (Ok (search_page hits per_page offset)).

(** [serves http u h hits per_page]: asked for offset [s], the provider
    answers with the hits from [s] on, at most [per_page] of them, and
    reports the total, the offset and the page size. *)
Definition serves (http : request -> response) (search_url : string)
    (headers : list (string * option string)) (hits : list json)
    (per_page : nat) : Prop :=
  forall q : params,
    0 <= start q ->
    exists data,
      fst (fetch_data http (Url search_url) headers (Some q) []) = Ok data
      /\ iterate_search_info data
         = Some (JArr (firstn per_page (skipn (Z.to_nat (start q)) hits)),
                 Z.of_nat (List.length hits), start q, Z.of_nat per_page).

(** The two counters of an enriched record, when both are whole numbers or
    the first is null. *)
Definition counters (entry : json) : option (option (Z * Z)) :=
  match subscript entry "policy_citation_count",
        subscript entry "news_mentions" with
  | Ok JNull, Ok _ => Some None
  | Ok (JNum p), Ok (JNum n) => Some (Some (p, n))
  | _, _ => None
  end.

(** The rank the sort is meant to follow: a null policy count ranks below
    every number; otherwise the policy count decides, then the news count. *)
Definition rank_below (a b : option (Z * Z)) : bool :=
  match a, b with
  | None, None => false
  | None, Some _ => true
  | Some _, None => false
  | Some (p, n), Some (p', n') => (p <? p') || ((p =? p') && (n <? n'))
  end.

Definition rank (entry : json) : option (Z * Z) :=
  match counters entry with
  | Some r => r
  | None => None
  end.



(** The key [entry_sorter] computes for a record of a given rank. *)
Definition key_of_rank (r : option (Z * Z)) : sort_key * sort_key :=
  match r with
  | None => (NegInf, NegInf)
  | Some (p, n) => (Val (JNum p), Val (JNum n))
  end.

Definition keyed (entry : json) : (sort_key * sort_key) * json :=
  (key_of_rank (rank entry), entry).

(** Sample documents. *)
Definition count_type (name : string) (total : Z) : json :=
  JObj [("name", JStr name); ("total", JNum total)].

Definition category (name : string) (count_types : list json) : json :=
  JObj [("name", JStr name); ("count_types", JArr count_types)].

Definition plumx_document (categories : list json) : fetched :=
  Parsed (JObj [("id_value", JStr "10.1016/j.x.2020.01.001");
                ("count_categories", JArr categories)]).

Definition counted (policy news : json) : json :=
  JObj [("policy_citation_count", policy); ("news_mentions", news)].

(** An analytics provider with the same document for every article: 4 news
    mentions and 3 policy citations. *)
Definition plumx_provider (rq : request) : response :=
  mkResponse 200 (Some "application/json;charset=UTF-8")
    (Ok (JObj [("id_type", JStr "doi");
               ("count_categories",
                JArr [JObj [("name", JStr "mention"); ("total", JNum 9);
                            ("count_types",
                             JArr [count_type "BLOG_COUNT" 5;
                                   count_type "NEWS_COUNT" 4])];
                      JObj [("name", JStr "citation"); ("total", JNum 3);
                            ("count_types",
                             JArr [count_type "POLICY_CITED_BY_COUNT" 3])]])])).

(** [n] search hits, numbered. *)
Definition sample_hits (n : nat) : list json :=
  map (fun i => JObj [("dc:title", JStr "On sleep");
                      ("article-number", JNum (Z.of_nat i))])
      (seq 0 n).

Definition scopus_url : string :=
  "https://api.elsevier.com/content/search/scopus".

Definition sample_headers : list (string * option string) :=
  write_headers (Some "key") EmptyString "application/json".

Definition sample_params : params :=
  mkParams 0 50
    "prism:doi,dc:title,prism:publicationName,prism:coverDate,dc:creator"
    None "TITLE('sleep')".

(** ** Further vocabulary *)

(** The number of inter-page pauses. *)
Definition is_sleep (e : event) : bool :=
  match e with
  | Sleep => true
  | _ => false
  end.

Definition sleeps (log : list event) : nat :=
  List.length (filter is_sleep log).

(** [same_search p q]: [q] asks the question [p] asks; only the offset may
    differ. *)
Definition same_search (p q : params) : Prop :=
  count q = count p /\ field q = field p /\ date q = date p
  /\ query q = query p.

(** [page_request u h p e]: [e] is a request or a pause of the search for
    [p] at [u]. *)
Definition page_request (search_url : string)
    (headers : list (string * option string)) (p : params) (e : event)
  : Prop :=
  match e with
  | Get rq =>
      rq_url rq = Url search_url /\ rq_headers rq = headers
      /\ exists q, rq_params rq = Some q /\ same_search p q
  | Sleep => True
  | _ => False
  end.

(** A count type that [scan_types] reads and passes over. *)
Definition other_type (citation_type : string) (t : json) : Prop :=
  exists name,
    subscript t "name" = Ok (JStr name)
    /\ Str.contains citation_type (Str.lower name) = false.

(** A category that [scan_categories] reads and passes over: it bears
    another name, or the name looked for with no count type that matches. *)
Definition passed_over (citation_type kind : string) (c : json) : Prop :=
  exists name,
    subscript c "name" = Ok name
    /\ (eq_str name kind = false
        \/ eq_str name kind = true
           /\ exists types,
               subscript c "count_types" = Ok (JArr types)
               /\ Forall (other_type citation_type) types).

(** The page of [search_page] with its three numbers sent as decimal text,
    the way the search endpoints send them. *)
Definition search_page_text (total offset per_page : Z) (entries : json)
  : json :=
  JObj [("search-results",
         JObj [("opensearch:totalResults", JStr (Str.of_Z total));
               ("opensearch:startIndex", JStr (Str.of_Z offset));
               ("opensearch:itemsPerPage", JStr (Str.of_Z per_page));
               ("entry", entries)])].

(** A provider that refuses every request with an error document. *)
Definition error_document : json :=
  JObj [("service-error",
         JObj [("status",
                JObj [("statusCode", JStr "AUTHORIZATION_ERROR");
                      ("statusText", JStr "Invalid API key")])])].

Definition refusing_provider (rq : request) : response :=
  mkResponse 401 (Some "application/json") (Ok error_document).

(** The DOI of a record, when it is a mapping that has one. *)
Definition doi_of (entry : json) : option json :=
  match entry with
  | JObj kv => dict_get kv "prism:doi"
  | _ => None
  end.

(** The request for the analytics document of [doi]. *)
Definition plumx_request (api_key : option string) (inst_token : string)
    (doi : json) : request :=
  mkRequest (PlumxUrl doi) (write_headers api_key inst_token "application/json")
    None.

(** The two counters (policy, news) the provider's document for [doi]
    yields, or the exception raised on the way. *)
Definition plumx_lookup (http : request -> response)
    (api_key : option string) (inst_token : string) (doi : json)
  : result (json * json) :=
  my_request <-
    fst (fetch_data http (PlumxUrl doi)
           (write_headers api_key inst_token "application/json") None []) ;;
  citation_counts <- access_citation_counts my_request "both" ;;
  policy <- subscript (JObj citation_counts) "policy" ;;
  news <- subscript (JObj citation_counts) "news" ;;
  Ok (policy, news).

(** A record with the two counters set: the other keys keep their values
    and their places. *)
Definition with_counters (kv : list (string * json)) (policy news : json)
  : json :=
  JObj (dict_set (dict_set kv "policy_citation_count" policy)
          "news_mentions" news).

(** [enriched http k t e e']: [e'] is the record [e], which has a DOI, with
    the counters of that DOI. *)
Definition enriched (http : request -> response) (api_key : option string)
    (inst_token : string) (e e' : json) : Prop :=
  exists kv doi policy news,
    e = JObj kv /\ dict_get kv "prism:doi" = Some doi
    /\ plumx_lookup http api_key inst_token doi = Ok (policy, news)
    /\ e' = with_counters kv policy news.

(** The requests for the DOIs of [entries], in order. *)
Definition plumx_requests (api_key : option string) (inst_token : string)
    (entries : list json) : list event :=
  map (fun e =>
         Get (plumx_request api_key inst_token
                match doi_of e with
                | Some doi => doi
                | None => JNull
                end))
      entries.

(** A record marked with two null counters. *)
Definition null_marked (entry : json) : json :=
  match entry with
  | JObj kv => with_counters kv JNull JNull
  | _ => entry
  end.

(** [no_data http k t e]: [e] has a DOI, and the provider's answer for it
    has no readable "count_categories". *)
Definition no_data (http : request -> response) (api_key : option string)
    (inst_token : string) (e : json) : Prop :=
  exists doi data err,
    doi_of e = Some doi
    /\ fst (fetch_data http (PlumxUrl doi)
              (write_headers api_key inst_token "application/json") None [])
       = Ok data
    /\ fetched_subscript data "count_categories" = Raise err.

(** ** Object Retrieval *)

(** Truth value of a decoded value. *)
Definition py_truthy (v : json) : bool :=
  match v with
  | JNull => false
  | JBool b => b
  | JNum n => negb (n =? 0)
  | JStr s => negb (s =? EmptyString)%string
  | JArr l => match l with [] => false | _ :: _ => true end
  | JObj kv => match kv with [] => false | _ :: _ => true end
  end.

(** [s.replace (a, b)] for two characters. *)
Fixpoint replace_char (a b : ascii) (s : string) : string :=
  match s with
  | EmptyString => EmptyString
  | String c s' =>
      String (if Ascii.eqb c a then b else c) (replace_char a b s')
  end.

(** [v.replace (a, b)] *)
Definition replace_method (v : json) (a b : ascii) : result string :=
  match v with
  | JStr s => Ok (replace_char a b s)
  | _ => Raise AttributeError
  end.

(** [headers[key] = value] *)
Fixpoint headers_set (headers : list (string * option string))
    (key : string) (value : option string) : list (string * option string) :=
  match headers with
  | [] => [(key, value)]
  | (k, w) :: rest =>
      if (k =? key)%string then (k, value) :: rest
      else (k, w) :: headers_set rest key value
  end.

(** [sorted (list (set (l)))] on strings: each string once, in increasing
    order. *)
Fixpoint insert_unique (x : string) (l : list string) : list string :=
  match l with
  | [] => [x]
  | y :: rest =>
      if (x =? y)%string then y :: rest
      else if String.ltb x y then x :: y :: rest
      else y :: insert_unique x rest
  end.

Definition sorted_set (l : list string) : list string :=
  fold_right insert_unique [] l.

(** The element one object adds to the set of graphics, if any:
    [obj["@ref"]] when ["gr" in obj["@ref"]].  Only a string can both pass
    the test and be put in a set. *)
Definition graphic_ref (obj : json) : result (option string) :=
  ref <- subscript obj "@ref" ;;
  found <- contains_key ref "gr" ;;
  if found then
    ref <- subscript obj "@ref" ;;
    match ref with
    | JStr s => Ok (Some s)
    | _ => Raise TypeError
    end
  else Ok None.

Fixpoint somes {A : Type} (l : list (option A)) : list A :=
  match l with
  | [] => []
  | Some x :: rest => x :: somes rest
  | None :: rest => somes rest
  end.

Definition select_graphics (object_data : json) : result (list string) :=
  objects <- py_iter object_data ;;
  refs <- map_result graphic_ref objects ;;
  Ok (sorted_set (somes refs)).

(** The element one object adds to the set of manuscript addresses. *)
Definition manuscript_url (obj : json) : result (option json) :=
  ref <- subscript obj "@ref" ;;
  ref <- lower_method ref ;;
  if Str.contains "am" ref then
    type <- subscript obj "@type" ;;
    type <- lower_method type ;;
    if Str.contains "pdf" type then
      address <- subscript obj "$" ;;
      match address with
      | JArr _ | JObj _ => Raise TypeError
      | _ => Ok (Some address)
      end
    else Ok None
  else Ok None.

(** What object retrieval does to the outside: the requests of the client,
    directories made, files opened for writing and the content written. *)
Inductive object_event : Type :=
  | Net (e : event)
  | MakeDirs (path : string)
  | CreateFile (path : string)
  | WriteBytes (path : string) (data : response).

Definition oio (A : Type) : Type :=
  list object_event -> result A * list object_event.

Definition oret {A : Type} (a : A) : oio A := fun log => (Ok a, log).
Definition oraise {A : Type} (e : exn) : oio A := fun log => (Raise e, log).
Definition olift {A : Type} (r : result A) : oio A := fun log => (r, log).
Definition oemit (e : object_event) : oio unit :=
  fun log => (Ok tt, append_item log e).

Definition obind {A B : Type} (m : oio A) (k : A -> oio B) : oio B :=
  fun log =>
    match m log with
    | (Ok a, log') => k a log'
    | (Raise e, log') => (Raise e, log')
    end.

Notation "x <~~ m ;; k" := (obind m (fun x => k))
  (at level 61, m at next level, right associativity).

(** [try: m / except: handler] *)
Definition otry {A : Type} (m : oio A) (handler : oio A) : oio A :=
  fun log =>
    match m log with
    | (Ok a, log') => (Ok a, log')
    | (Raise _, log') => handler log'
    end.

(** [save_binary_file (filepath, data)]: the file is opened, then
    [data.content] is read, which only a response object has. *)
Definition save_binary_file (filepath : string) (data : fetched) : oio unit :=
  _ <~~ oemit (CreateFile filepath) ;;
  match data with
  | Raw r => oemit (WriteBytes filepath r)
  | Parsed _ | Nothing => oraise AttributeError
  end.

Section Retrieval.

Variable http : request -> response.
Variable api_key : option string.
Variable inst_token : string.

(** The text a value leaves inside an f-string; a string leaves itself. *)
Variable render : json -> string.

(** [datetime.datetime.now ().strftime (format)] at a given moment. *)
Variable clock : list object_event -> string -> string.

(** Whether the code runs under IPython, and the working directory. *)
Variable ipython : bool.
Variable cwd : string.

(** The order in which a set lists the values put into it. *)
Variable listing : list json -> list json.

Definition now (format : string) : oio string :=
  fun log => (Ok (clock log format), log).

Definition fetch (url : url) (headers : list (string * option string))
  : oio fetched :=
  fun log =>
    let '(r, events) := fetch_data http url headers None [] in
    (r, List.app log (map Net events)).

(** One turn of the loop over the graphics. *)
Definition retrieve_graphic (article_doi : json)
    (object_retrieval_url graphic_renderings_dir : string)
    (headers : list (string * option string)) (gr : string) : oio unit :=
  otry
    (let object_specified_url :=
       object_retrieval_url ++ "/ref/" ++ gr ++ "/high" in
     object_request <~~ fetch (Url object_specified_url) headers ;;
     timestamp <~~ now "%Y%m%d" ;;
     doi <~~ olift (replace_method article_doi "/" ".") ;;
     let a_filepath :=
       path_join graphic_renderings_dir
         (doi ++ "_" ++ gr ++ "_" ++ timestamp ++ ".jpg") in
     save_binary_file a_filepath object_request)
    (oret tt).

Fixpoint retrieve_graphics (article_doi : json)
    (object_retrieval_url graphic_renderings_dir : string)
    (headers : list (string * option string)) (graphics : list string)
  : oio unit :=
  match graphics with
  | [] => oret tt
  | gr :: rest =>
      _ <~~ retrieve_graphic article_doi object_retrieval_url
              graphic_renderings_dir headers gr ;;
      retrieve_graphics article_doi object_retrieval_url
        graphic_renderings_dir headers rest
  end.

(** One turn of the loop over the manuscripts; [false]: the turn failed and
    the function returns. *)
Definition retrieve_manuscript (author_manuscripts_dir : string)
    (headers : list (string * option string)) (man_url : json) : oio bool :=
  otry
    (pdf_request <~~
       match man_url with
       | JStr address => fetch (Url address) headers
       | _ => oraise (ValueError "Invalid URL")
       end ;;
     timestamp <~~ now "%Y%m%d_%H%M%S" ;;
     let a_filepath :=
       path_join author_manuscripts_dir
         ("manuscript_" ++ timestamp ++ ".pdf") in
     _ <~~ save_binary_file a_filepath pdf_request ;;
     oret true)
    (oret false).

Fixpoint retrieve_manuscripts (author_manuscripts_dir : string)
    (headers : list (string * option string)) (man_urls : list json)
  : oio unit :=
  match man_urls with
  | [] => oret tt
  | man_url :: rest =>
      done <~~ retrieve_manuscript author_manuscripts_dir headers man_url ;;
      if done
      then retrieve_manuscripts author_manuscripts_dir headers rest
      else oret tt
  end.

(** The objects a [for] loop over [object_data] has to offer: those of the
    decoded choices, or of the first answer when the choices could not be
    read.  A response object offers chunks of bytes, which have no ["@ref"],
    and [None] nothing to loop over: no address comes of either. *)
Definition objects_of (object_data : fetched) : result (list json) :=
  match object_data with
  | Parsed j => py_iter j
  | Raw _ | Nothing => Raise TypeError
  end.

Definition retrieve_article_graphics (article_dictionary : json)
    (save_manuscript : bool) : oio unit :=
  article_doi <~~ olift (get_method article_dictionary "prism:doi") ;;
  if negb (py_truthy article_doi) then oret tt
  else
    let object_retrieval_url :=
      "https://api.elsevier.com/content/object/doi/" ++ render article_doi in
    let headers := write_headers api_key inst_token "application/json" in
    answer <~~
      otry (object_data <~~ fetch (Url object_retrieval_url) headers ;;
            oret (Some object_data))
           (oret None) ;;
    match answer with
    | None => oret tt
    | Some object_data =>
        let '(object_data, graphics) :=
          match (choices <- fetched_subscript object_data "choices" ;;
                 subscript choices "choice") with
          | Ok choice =>
              (Parsed choice,
               match select_graphics choice with
               | Ok graphics => Some graphics
               | Raise _ => None
               end)
          | Raise _ => (object_data, None)
          end in
        output_dir <~~
          olift (filepath_to_output ipython cwd "object_requests") ;;
        let graphic_renderings_dir :=
          path_join output_dir "graphic_renderings" in
        let author_manuscripts_dir :=
          path_join output_dir "author_manuscripts" in
        _ <~~ oemit (MakeDirs graphic_renderings_dir) ;;
        _ <~~ (if save_manuscript
               then oemit (MakeDirs author_manuscripts_dir)
               else oret tt) ;;
        let headers := headers_set headers "Accept" (Some "*/*") in
        _ <~~ (if truthy graphics
               then retrieve_graphics article_doi object_retrieval_url
                      graphic_renderings_dir headers (items graphics)
               else oret tt) ;;
        if save_manuscript then
          let man_urls :=
            match (objects <- objects_of object_data ;;
                   addresses <- map_result manuscript_url objects ;;
                   Ok (listing (somes addresses))) with
            | Ok man_urls => Some man_urls
            | Raise _ => None
            end in
          if truthy man_urls
          then retrieve_manuscripts author_manuscripts_dir headers
                 (items man_urls)
          else oret tt
        else oret tt
    end.

End Retrieval.

(** ** Reading the log of object retrieval *)

Fixpoint net_requests (log : list object_event) : list request :=
  match log with
  | [] => []
  | Net (Get rq) :: rest => rq :: net_requests rest
  | _ :: rest => net_requests rest
  end.

(** The events that touch the file system. *)
Definition touches_files (e : object_event) : bool :=
  match e with
  | Net _ => false
  | _ => true
  end.

(** A response declared as an image or a PDF. *)
Definition is_binary (r : response) : bool :=
  let content_type :=
    match content_type r with
    | Some c => c
    | None => EmptyString
    end in
  Str.contains "image" content_type || Str.contains "pdf" content_type.

(** [sound_writes opened log]: every content written in [log] goes to the
    file opened just before it and is that of an image or PDF response;
    [opened] is the file opened just before [log], if one was. *)
Fixpoint sound_writes (opened : option string) (log : list object_event)
  : bool :=
  match log with
  | [] => true
  | WriteBytes path r :: rest =>
      match opened with
      | Some p => (p =? path)%string
      | None => false
      end && is_binary r && sound_writes None rest
  | CreateFile path :: rest => sound_writes (Some path) rest
  | _ :: rest => sound_writes None rest
  end.

Definition object_url (render : json -> string) (article_doi : json)
  : string :=
  "https://api.elsevier.com/content/object/doi/" ++ render article_doi.

(** The request for the index of the objects of an article, and the request
    for one of its graphics at high resolution. *)
Definition index_request (api_key : option string) (inst_token : string)
    (object_retrieval_url : string) : request :=
  mkRequest (Url object_retrieval_url)
    (write_headers api_key inst_token "application/json") None.

Definition graphic_request (api_key : option string) (inst_token : string)
    (object_retrieval_url gr : string) : request :=
  mkRequest (Url (object_retrieval_url ++ "/ref/" ++ gr ++ "/high"))
    (headers_set (write_headers api_key inst_token "application/json")
       "Accept" (Some "*/*"))
    None.

(** Strictly increasing. *)
Definition increasing (l : list string) : Prop :=
  Sorted (fun a b => String.ltb a b = true) l.

(** An object index with four references, and a provider that serves it and
    a JPEG for each reference asked at high resolution, except for "gr2",
    for which it answers with an error document. *)
Definition object_reference (ref type address : string) : json :=
  JObj [("@ref", JStr ref); ("@type", JStr type); ("$", JStr address)].

Definition object_index : json :=
  JObj [("choices",
         JObj [("choice",
                JArr [object_reference "gr2" "IMAGE-HIGH-RES" "https://x/gr2";
                      object_reference "fig1" "IMAGE-HIGH-RES" "https://x/f1";
                      object_reference "gr1" "IMAGE-THUMBNAIL" "https://x/t1";
                      object_reference "gr1" "IMAGE-HIGH-RES" "https://x/gr1";
                      object_reference "am" "AAM-PDF" "https://x/am.pdf"])])].

Definition object_provider (rq : request) : response :=
  match rq_url rq with
  | Url address =>
      if Str.contains "/ref/gr2/" address
      then mkResponse 404 (Some "application/json") (Ok error_document)
      else if Str.contains "/ref/" address
      then mkResponse 200 (Some "image/jpeg") (Raise (ValueError "no JSON"))
      else if Str.contains "am.pdf" address
      then mkResponse 200 (Some "application/pdf")
             (Raise (ValueError "no JSON"))
      else mkResponse 200 (Some "application/json") (Ok object_index)
  | PlumxUrl _ => mkResponse 404 (Some "text/html") (Raise (ValueError "no JSON"))
  end.

Definition sample_clock (log : list object_event) (format : string) : string :=
  if (format =? "%Y%m%d")%string then "20250301" else "20250301_120000".

Definition sample_render (v : json) : string :=
  match v with
  | JStr s => s
  | _ => "?"
  end.

Definition sample_article : json :=
  JObj [("prism:doi", JStr "10.1016/j.x.2020.01.001");
        ("dc:title", JStr "On sleep")].

Definition star_headers : list (string * option string) :=
  headers_set (write_headers (Some "key") EmptyString "application/json")
    "Accept" (Some "*/*").

Definition sample_object_url : string :=
  "https://api.elsevier.com/content/object/doi/10.1016/j.x.2020.01.001".

(** Whether a record has the rank [r]. *)
Definition same_rank (r : option (Z * Z)) (entry : json) : bool :=
  match r, rank entry with
  | None, None => true
  | Some (p, n), Some (p', n') => (p =? p') && (n =? n')
  | _, _ => false
  end.

(** [stalling http u h]: below the total it reports, the provider answers
    every request with an empty page. *)
Definition stalling (http : request -> response) (search_url : string)
    (headers : list (string * option string)) : Prop :=
  forall q : params,
    exists data entries total offset per_page,
      fst (fetch_data http (Url search_url) headers (Some q) []) = Ok data
      /\ iterate_search_info data = Some (entries, total, offset, per_page)
      /\ py_iter entries = Ok []
      /\ offset < total.

(** A provider that reports 7 hits and hands out none. *)
Definition stalling_provider (rq : request) : response :=
  mkResponse 200 (Some "application/json")
    (Ok (JObj [("search-results",
                JObj [("opensearch:totalResults", JStr "7");
                      ("opensearch:startIndex", JStr "0");
                      ("opensearch:itemsPerPage", JStr "0");
                      ("entry", JArr [])])])).

(** A working directory and a clock that stands still, for examples. *)
Definition sample_cwd : string := "/home/u/scripts".

Definition sample_time (log : list event) (format : string) : string :=
  "20250301_120000".

(** * Properties *)

(** ** Query Builder *)

Lemma concat_head (sep : string) (c : ascii) (s : string) (l : list string) :
  exists t, String.concat sep (String c s :: l) = String c t.
Proof.
  destruct l as [|y l]; simpl; eauto.
Qed.

(** The query list built by [write_query] is the list of clauses of the
    contract; the rest of the function only joins it and tests the result. *)
Lemma write_query_unfold keywords subjs author_ids authors date_range :
  write_query keywords subjs author_ids authors date_range
  = let query :=
      String.concat " AND " (Clause.all keywords subjs author_ids authors) in
    if (query =? EmptyString)%string
    then Raise (ValueError "Query parameter cannot be empty.")
    else Ok (mkParams 0 50
               "prism:doi,dc:title,prism:publicationName,prism:coverDate,dc:creator"
               match date_range with
               | Some d => if (d =? EmptyString)%string then None else Some d
               | None => None
               end
               query).
Proof.
  destruct keywords as [[|k ks]|], subjs as [[|s ss]|],
    author_ids as [[|i ids]|], authors as [[|n ns]|]; reflexivity.
Qed.

Lemma title_head ks : exists t, Clause.title ks = String "T" t.
Proof. unfold Clause.title. simpl. eauto. Qed.

Lemma subject_area_head ss : exists t, Clause.subject_area ss = String "S" t.
Proof. unfold Clause.subject_area. simpl. eauto. Qed.

Lemma identifiers_head i ids :
  exists t, Clause.identifiers (i :: ids) = String "A" t.
Proof.
  unfold Clause.identifiers, Clause.identifier. cbn [map append].
  apply concat_head.
Qed.

Lemma author_name_head ns : exists t, Clause.author_name ns = String "A" t.
Proof. unfold Clause.author_name. simpl. eauto. Qed.

Ltac first_clause H :=
  destruct H as [? ->]; do 3 eexists; reflexivity.

Lemma clauses_joined_nonempty keywords subjs author_ids authors :
  truthy keywords || truthy subjs || truthy author_ids || truthy authors = true ->
  (String.concat " AND " (Clause.all keywords subjs author_ids authors) =? EmptyString)%string
  = false.
Proof.
  intros H.
  assert (exists c s l,
             Clause.all keywords subjs author_ids authors = String c s :: l)
    as (c & s & l & E).
  { unfold Clause.all.
    destruct keywords as [[|k ks]|]; cbn [Clause.of_filter List.app];
      try (first_clause (title_head (k :: ks)));
    destruct subjs as [[|x ss]|]; cbn [Clause.of_filter List.app];
      try (first_clause (subject_area_head (x :: ss)));
    destruct author_ids as [[|i ids]|]; cbn [Clause.of_filter List.app];
      try (first_clause (identifiers_head i ids));
    destruct authors as [[|n ns]|]; cbn [Clause.of_filter List.app];
      try (first_clause (author_name_head (n :: ns)));
    discriminate H. }
  rewrite E. destruct (concat_head " AND " c s l) as [t ->]. reflexivity.
Qed.

Lemma write_query_ok keywords subjs author_ids authors date_range :
  truthy keywords || truthy subjs || truthy author_ids || truthy authors = true ->
  exists p,
    write_query keywords subjs author_ids authors date_range = Ok p
    /\ query p
       = String.concat " AND " (Clause.all keywords subjs author_ids authors).
Proof.
  intros H.
  rewrite write_query_unfold. cbv zeta.
  rewrite (clauses_joined_nonempty _ _ _ _ H).
  eexists. split; reflexivity.
Qed.

(** C3.  When at least one of the four filters is non-empty, [write_query]
    returns parameters whose query string is the clauses of the non-empty
    filters joined by " AND ", in the order keywords, subjects, author
    identifiers, author names, one clause per non-empty filter: the keywords
    each in single quotes and AND-joined inside TITLE(...), the subjects
    OR-joined inside SUBJAREA(...), the author identifiers each inside
    AU-ID(...) and OR-joined with no outer wrapper, the author names
    OR-joined inside AUTHOR-NAME(...). *)
Theorem write_query_one_clause_per_filter
    keywords subjs author_ids authors date_range :
  truthy keywords || truthy subjs || truthy author_ids || truthy authors = true ->
  exists p,
    write_query keywords subjs author_ids authors date_range = Ok p
    /\ query p
       = String.concat " AND "
           (List.app (Clause.of_filter Clause.title keywords)
              (List.app (Clause.of_filter Clause.subject_area subjs)
                 (List.app (Clause.of_filter Clause.identifiers author_ids)
                    (Clause.of_filter Clause.author_name authors))))
    /\ List.length (Clause.all keywords subjs author_ids authors)
       = (Clause.given keywords + Clause.given subjs
          + Clause.given author_ids + Clause.given authors)%nat.
Proof.
  intros H.
  destruct (write_query_ok keywords subjs author_ids authors date_range H)
    as (p & Hp & Hq).
  exists p. split; [exact Hp|]. split; [exact Hq|].
  destruct keywords as [[|k ks]|], subjs as [[|s ss]|],
    author_ids as [[|i ids]|], authors as [[|n ns]|]; reflexivity.
Qed.

Lemma write_query_one_clause_per_filter_witness :
  exists p,
    write_query (Some ["meta-analysis"; "depression"]) (Some ["MEDI"; "PSYC"])
      (Some [IdInt 7004212771; IdStr "57"]) (Some ["Fujii"]) (Some "2020-2025")
    = Ok p
    /\ query p
       = "TITLE('meta-analysis' AND 'depression') AND SUBJAREA(MEDI OR PSYC) AND AU-ID(7004212771) OR AU-ID(57) AND AUTHOR-NAME(Fujii)".
Proof.
  destruct (write_query_one_clause_per_filter
              (Some ["meta-analysis"; "depression"]) (Some ["MEDI"; "PSYC"])
              (Some [IdInt 7004212771; IdStr "57"]) (Some ["Fujii"])
              (Some "2020-2025") eq_refl) as (p & Hp & Hq & _).
  exists p. split; [exact Hp|]. rewrite Hq. reflexivity.
Defined.

(** C9.  When every filter is absent or empty, [write_query] raises the
    "Query parameter cannot be empty." ValueError and returns no
    parameters, whatever the date range. *)
Theorem write_query_empty_raises
    keywords subjs author_ids authors date_range :
  truthy keywords = false -> truthy subjs = false ->
  truthy author_ids = false -> truthy authors = false ->
  write_query keywords subjs author_ids authors date_range
  = Raise (ValueError "Query parameter cannot be empty.").
Proof.
  intros Hk Hs Hi Hn.
  destruct keywords as [[|k ks]|]; try discriminate Hk;
  destruct subjs as [[|s ss]|]; try discriminate Hs;
  destruct author_ids as [[|i ids]|]; try discriminate Hi;
  destruct authors as [[|n ns]|]; try discriminate Hn;
  reflexivity.
Qed.

Lemma write_query_empty_raises_witness :
  write_query (Some []) None (Some []) None (Some "2020-2025")
  = Raise (ValueError "Query parameter cannot be empty.").
Proof.
  apply (write_query_empty_raises (Some []) None (Some []) None
           (Some "2020-2025")); reflexivity.
Defined.

(** ** HTTP Fetcher *)

Lemma fetch_data_unfold http url headers params log :
  fetch_data http url headers params log
  = let rq := mkRequest url headers params in
    let r := http rq in
    let ct := match content_type r with Some c => c | None => EmptyString end in
    (if Str.contains "image" ct || Str.contains "pdf" ct then Ok (Raw r)
     else if Str.contains "json" ct
          then j <- json_method r ;; Ok (Parsed j)
          else if Str.contains "xml" ct
               then Raise (ValueError
                             "Output is in XML. Specify 'application/json' in headers.")
               else Ok Nothing,
     append_item log (Get rq)).
Proof.
  unfold fetch_data, requests_get, bind_io, emit, ret, lift, raise.
  destruct params as [p|]; cbv zeta;
    repeat match goal with
           | |- context [if ?b then _ else _] => destruct b
           end; reflexivity.
Qed.

(** C7, as stated, fails: a response declared as "image/svg+xml" contains
    "xml", and the response object comes back; nothing is raised. *)
Lemma fetch_data_xml_counterexample :
  let r := mkResponse 200 (Some "image/svg+xml") (Raise (ValueError "no JSON")) in
  Str.contains "xml" "image/svg+xml" = true
  /\ fst (fetch_data (fun _ => r) (Url "https://api.elsevier.com/content/object")
            [("Accept", Some "*/*")] None [])
     = Ok (Raw r)
  /\ fst (fetch_data (fun _ => r) (Url "https://api.elsevier.com/content/object")
            [("Accept", Some "*/*")] None [])
     <> Raise (ValueError
                 "Output is in XML. Specify 'application/json' in headers.").
Proof.
  cbv zeta. rewrite fetch_data_unfold. repeat split. discriminate.
Qed.

(** C7, amended.  [fetch_data] issues one GET and decides on the declared
    content type alone (the empty string when the header is absent), the
    tests being made in this order, the first that holds deciding: it
    contains "image" or "pdf": the response object is returned; otherwise it
    contains "json": what decoding the body as JSON gives is returned;
    otherwise it contains "xml": the ValueError is raised; otherwise [None]
    is returned.  This holds for every response, whatever its status
    code. *)
Theorem fetch_data_first_match http url headers params log :
  let rq := mkRequest url headers params in
  let r := http rq in
  let ct := match content_type r with Some c => c | None => EmptyString end in
  let out := fetch_data http url headers params log in
  snd out = append_item log (Get rq)
  /\ (Str.contains "image" ct || Str.contains "pdf" ct = true ->
      fst out = Ok (Raw r))
  /\ (Str.contains "image" ct || Str.contains "pdf" ct = false ->
      Str.contains "json" ct = true ->
      fst out = (j <- json_method r ;; Ok (Parsed j)))
  /\ (Str.contains "image" ct || Str.contains "pdf" ct = false ->
      Str.contains "json" ct = false ->
      Str.contains "xml" ct = true ->
      fst out
      = Raise (ValueError
                 "Output is in XML. Specify 'application/json' in headers."))
  /\ (Str.contains "image" ct || Str.contains "pdf" ct = false ->
      Str.contains "json" ct = false ->
      Str.contains "xml" ct = false ->
      fst out = Ok Nothing).
Proof.
  cbv zeta. rewrite fetch_data_unfold. cbv zeta. cbn [fst snd].
  split; [reflexivity|].
  repeat split; intros; repeat match goal with H : _ = _ |- _ => rewrite H end;
    reflexivity.
Qed.

Lemma fetch_data_first_match_witness :
  let answer ct st :=
    fun _ : request => mkResponse st (Some ct) (Ok (JObj [("ok", JBool true)])) in
  let fetch ct st :=
    fst (fetch_data (answer ct st) (Url "https://api.elsevier.com/x") [] None []) in
  fetch "application/pdf" 200
  = Ok (Raw (mkResponse 200 (Some "application/pdf") (Ok (JObj [("ok", JBool true)]))))
  /\ fetch "application/json" 404 = Ok (Parsed (JObj [("ok", JBool true)]))
  /\ fetch "text/xml" 200
     = Raise (ValueError
                "Output is in XML. Specify 'application/json' in headers.")
  /\ fetch "text/html" 500 = Ok Nothing.
Proof.
  cbv zeta.
  pose (answer := fun ct st (_ : request) =>
          mkResponse st (Some ct) (Ok (JObj [("ok", JBool true)]))).
  split; [|split; [|split]].
  - exact (proj1 (proj2 (fetch_data_first_match
             (answer "application/pdf" 200)
             (Url "https://api.elsevier.com/x") [] None [])) eq_refl).
  - exact (proj1 (proj2 (proj2 (fetch_data_first_match
             (answer "application/json" 404)
             (Url "https://api.elsevier.com/x") [] None []))) eq_refl eq_refl).
  - exact (proj1 (proj2 (proj2 (proj2 (fetch_data_first_match
             (answer "text/xml" 200)
             (Url "https://api.elsevier.com/x") [] None []))))
             eq_refl eq_refl eq_refl).
  - exact (proj2 (proj2 (proj2 (proj2 (fetch_data_first_match
             (answer "text/html" 500)
             (Url "https://api.elsevier.com/x") [] None []))))
             eq_refl eq_refl eq_refl).
Defined.

(** ** Metrics lookup *)

(** C2, as stated, fails: with the one category named "news" holding the
    count type "mention", asking for "news" gives 0, since the category
    looked for is the one named "mention". *)
Lemma access_citation_counts_news_counterexample :
  access_citation_counts
    (plumx_document [category "news" [count_type "mention" 7]]) "news"
  = Ok [("news", JNum 0)]
  /\ access_citation_counts
       (plumx_document [category "news" [count_type "mention" 7]]) "news"
     <> Ok [("news", JNum 7)].
Proof.
  split; [reflexivity|]. vm_compute. discriminate.
Qed.

Lemma scan_categories_absent categories citation_type kind :
  Forall (fun c => exists name,
              subscript c "name" = Ok name /\ eq_str name kind = false)
         categories ->
  scan_categories categories citation_type kind = Ok (JNum 0).
Proof.
  induction 1 as [|c rest (name & Hname & Hkind) _ IH]; [reflexivity|].
  cbn [scan_categories]. rewrite Hname. cbn [bind]. rewrite Hkind. exact IH.
Qed.

(** C2, amended.  The category is looked up by the kind of count ("mention"
    for news, "citation" for policy) and the count type inside it by the
    citation type: given the one category {name:"mention",
    count_types:[{name:"news", total:7}]}, asking for "news" returns
    {"news": 7}; and when no category of the list bears the name looked
    for, the count extracted is 0, not null. *)
Theorem extract_count_by_kind categories citation_type kind :
  Forall (fun c => exists name,
              subscript c "name" = Ok name /\ eq_str name kind = false)
         categories ->
  extract_count (JArr categories) citation_type kind = Ok (JNum 0)
  /\ access_citation_counts
       (plumx_document [category "mention" [count_type "news" 7]]) "news"
     = Ok [("news", JNum 7)].
Proof.
  intros H. split; [|reflexivity].
  unfold extract_count. cbn [py_iter bind].
  apply scan_categories_absent, H.
Qed.

Lemma extract_count_by_kind_witness :
  extract_count
    (JArr [category "citation" [count_type "POLICY_CITED_BY_COUNT" 3];
           category "capture" [count_type "READER_COUNT" 12]])
    "news" "mention"
  = Ok (JNum 0).
Proof.
  refine (proj1 (extract_count_by_kind
                   [category "citation" [count_type "POLICY_CITED_BY_COUNT" 3];
                    category "capture" [count_type "READER_COUNT" 12]]
                   "news" "mention" _)).
  repeat constructor; eexists; split; reflexivity.
Defined.

(** C10.  For a citation type that, lowercased and stripped, is none of
    "news", "policy" and "both": when the response has the key
    "count_categories" the ValueError is raised; when the key cannot be read
    (the key is absent, or the response is no mapping) the call returns
    {citation_type: None} for the normalised type and nothing is raised. *)
Theorem access_citation_counts_invalid_type plumx_response citation_type :
  Str.strip (Str.lower citation_type) <> "news" ->
  Str.strip (Str.lower citation_type) <> "policy" ->
  Str.strip (Str.lower citation_type) <> "both" ->
  access_citation_counts plumx_response citation_type
  = match fetched_subscript plumx_response "count_categories" with
    | Ok _ =>
        Raise (ValueError "Citation type must be 'news', 'policy', or 'both'.")
    | Raise _ => Ok [(Str.strip (Str.lower citation_type), JNull)]
    end.
Proof.
  intros Hn Hp Hb. unfold access_citation_counts.
  apply String.eqb_neq in Hn, Hp, Hb. rewrite Hn, Hp, Hb.
  destruct (fetched_subscript plumx_response "count_categories");
    [reflexivity|].
  destruct (fetched_subscript plumx_response "id_value"); reflexivity.
Qed.

Lemma access_citation_counts_invalid_type_witness :
  access_citation_counts (plumx_document []) " Blogs "
  = Raise (ValueError "Citation type must be 'news', 'policy', or 'both'.")
  /\ access_citation_counts (Parsed (JObj [("id_value", JStr "10.1/a")])) " Blogs "
     = Ok [("blogs", JNull)].
Proof.
  split.
  - apply (access_citation_counts_invalid_type (plumx_document []) " Blogs ");
      vm_compute; discriminate.
  - apply (access_citation_counts_invalid_type
             (Parsed (JObj [("id_value", JStr "10.1/a")])) " Blogs ");
      vm_compute; discriminate.
Defined.

(** ** Files *)

(** The CSV is opened before anything is read from the entries. *)
Lemma write_csv_unfold path entries log :
  write_csv path entries log
  = match entries with
    | [] => (Raise IndexError, List.app log [OpenFile path])
    | first :: _ =>
        match keys_method first with
        | Raise e => (Raise e, List.app log [OpenFile path])
        | Ok header =>
            match map_result values_method entries with
            | Raise e =>
                (Raise e, List.app log [OpenFile path; WriteRow path header])
            | Ok rows =>
                (Ok tt,
                 List.app log
                   [OpenFile path; WriteRow path header; WriteRows path rows])
            end
        end
    end.
Proof.
  unfold write_csv, bind_io, emit, lift, append_item.
  destruct entries as [|first rest]; [reflexivity|].
  destruct (keys_method first) as [header|e]; [|reflexivity].
  destruct (map_result values_method (first :: rest)) as [rows|e];
    rewrite <- !app_assoc; reflexivity.
Qed.

Lemma write_csv_extends path entries log :
  exists rest,
    snd (write_csv path entries log) = List.app log (OpenFile path :: rest)
    /\ Forall (fun e => is_get e = false) rest.
Proof.
  rewrite write_csv_unfold.
  destruct entries as [|first l]; [exists []; split; [reflexivity|constructor]|].
  destruct (keys_method first) as [header|e];
    [|exists []; split; [reflexivity|constructor]].
  destruct (map_result values_method (first :: l)) as [rows|e];
    eexists; (split; [reflexivity|]); repeat constructor.
Qed.

Lemma save_search_unfold ipython cwd clock database_name save_to_csv
    all_entries log :
  save_search ipython cwd clock database_name save_to_csv all_entries log
  = match filepath_to_output ipython cwd "search_queries" with
    | Raise e => (Raise e, log)
    | Ok output_dir =>
        let timestamp :=
          clock (List.app log [MakeOutputDir output_dir]) "%Y%m%d_%H%M%S" in
        let json_path :=
          (output_dir ++ "/" ++ database_name ++ "_search_" ++ timestamp
             ++ ".json")%string in
        let csv_path :=
          (output_dir ++ "/" ++ database_name ++ "_search_" ++ timestamp
             ++ ".csv")%string in
        let log :=
          List.app log
            [MakeOutputDir output_dir; OpenFile json_path;
             WriteJson json_path all_entries] in
        if save_to_csv then
          match write_csv csv_path all_entries log with
          | (Ok _, log) => (Ok all_entries, log)
          | (Raise e, log) => (Raise e, log)
          end
        else (Ok all_entries, log)
    end.
Proof.
  unfold save_search.
  unfold bind_io at 1. unfold lift at 1.
  destruct (filepath_to_output ipython cwd "search_queries") as [dir|e];
    [|reflexivity].
  unfold bind_io, emit, timestamp_now, ret, append_item. cbv zeta.
  rewrite <- !app_assoc. cbn [List.app].
  destruct save_to_csv; [|reflexivity].
  destruct (write_csv _ _ _) as [[u|e] log']; reflexivity.
Qed.

Lemma save_metrics_unfold ipython cwd clock save_to_file entries log :
  save_metrics ipython cwd clock save_to_file entries log
  = if save_to_file then
      match filepath_to_output ipython cwd "search_queries" with
      | Raise e => (Raise e, log)
      | Ok output_dir =>
          let log := List.app log [MakeOutputDir output_dir] in
          let timestamp := clock log "%Y%m%d_%H%M%S" in
          let csv_path :=
            (output_dir ++ "/plumx_output_" ++ timestamp ++ ".csv")%string in
          match write_csv csv_path entries log with
          | (Ok _, log) => (Ok entries, log)
          | (Raise e, log) => (Raise e, log)
          end
      end
    else (Ok entries, log).
Proof.
  unfold save_metrics. destruct save_to_file; [|reflexivity].
  unfold bind_io at 1. unfold lift at 1.
  destruct (filepath_to_output ipython cwd "search_queries") as [dir|e];
    [|reflexivity].
  unfold bind_io, emit, timestamp_now, ret, append_item. cbv zeta.
  destruct (write_csv _ _ _) as [[u|e] log']; reflexivity.
Qed.

Lemma filepath_to_output_ipython cwd output_name :
  filepath_to_output true cwd output_name
  = Ok (path_join (path_join (path_join cwd "..") "results") output_name).
Proof. reflexivity. Qed.

Lemma filepath_to_output_script cwd output_name :
  filepath_to_output false cwd output_name
  = Raise (UnboundLocalError "__file__").
Proof. reflexivity. Qed.

(** ** Search Orchestrator *)

Section Orchestrator.

Variable http : request -> response.
Variable api_key : option string.
Variable inst_token : string.
Variable ipython : bool.
Variable cwd : string.
Variable clock : list event -> string -> string.

Lemma fetch_data_log url headers params log :
  fetch_data http url headers params log
  = (fst (fetch_data http url headers params []),
     append_item log (Get (mkRequest url headers params))).
Proof.
  rewrite !fetch_data_unfold. reflexivity.
Qed.

(** One turn of the loop, with the request already in the log. *)
Lemma search_loop_step fuel search_url headers params max_results
    all_entries log :
  search_loop http (S fuel) search_url headers params max_results
    all_entries log
  = let log :=
      append_item log (Get (mkRequest (Url search_url) headers (Some params))) in
    match fst (fetch_data http (Url search_url) headers (Some params) []) with
    | Raise e => Some (Raise e, log)
    | Ok my_request =>
        match iterate_search_info my_request with
        | None => Some (Raise TypeError, log)
        | Some (entries, total, start, per_page) =>
            match py_iter entries with
            | Raise e => Some (Raise e, log)
            | Ok page =>
                let all_entries := List.app all_entries page in
                let next_start := start + Z.of_nat (List.length page) in
                if next_start >=? total then Some (Ok all_entries, log)
                else if cap_reached max_results all_entries
                then Some (Ok all_entries, log)
                else
                  search_loop http fuel search_url headers
                    (set_start params next_start) max_results all_entries
                    (append_item log Sleep)
            end
        end
    end.
Proof.
  cbn [search_loop]. rewrite fetch_data_log.
  destruct (fst (fetch_data http (Url search_url) headers (Some params) []));
    reflexivity.
Qed.

(** The loop only ever adds to the log. *)
Lemma search_loop_extends fuel :
  forall search_url headers params max_results all_entries log outcome,
    search_loop http fuel search_url headers params max_results
      all_entries log = Some outcome ->
    exists rest, snd outcome = List.app log rest.
Proof.
  induction fuel as [|fuel IH]; intros u h p m all log outcome; [discriminate|].
  rewrite search_loop_step. cbv zeta.
  set (log1 := append_item log (Get (mkRequest (Url u) h (Some p)))).
  assert (Hstop : forall r, Some (r, log1) = Some outcome ->
                            exists rest, snd outcome = List.app log rest).
  { intros r [= <-]. eexists. reflexivity. }
  destruct (fst (fetch_data http (Url u) h (Some p) [])) as [data|e];
    [|apply Hstop].
  destruct (iterate_search_info data) as [[[[entries total] st] per_page]|];
    [|apply Hstop].
  destruct (py_iter entries) as [page|e]; [|apply Hstop].
  destruct (_ >=? _); [apply Hstop|].
  destruct (cap_reached _ _); [apply Hstop|].
  intros H. apply IH in H. destruct H as [rest ->].
  unfold log1, append_item. rewrite <- !app_assoc. eexists. reflexivity.
Qed.

Lemma search_loop_first_get fuel search_url headers params max_results
    all_entries log outcome :
  search_loop http (S fuel) search_url headers params max_results
    all_entries log = Some outcome ->
  exists rest,
    snd outcome
    = List.app log
        (Get (mkRequest (Url search_url) headers (Some params)) :: rest).
Proof.
  rewrite search_loop_step. cbv zeta.
  set (rq := mkRequest (Url search_url) headers (Some params)).
  assert (Hstop : forall r, Some (r, append_item log (Get rq)) = Some outcome ->
                            exists rest, snd outcome = List.app log (Get rq :: rest)).
  { intros r [= <-]. exists []. reflexivity. }
  destruct (fst (fetch_data http (Url search_url) headers (Some params) []))
    as [data|e]; [|apply Hstop].
  destruct (iterate_search_info data) as [[[[entries total] st] per_page]|];
    [|apply Hstop].
  destruct (py_iter entries) as [page|e]; [|apply Hstop].
  destruct (_ >=? _); [apply Hstop|].
  destruct (cap_reached _ _); [apply Hstop|].
  intros H. apply search_loop_extends in H. destruct H as [rest ->].
  unfold append_item. rewrite <- !app_assoc. eexists. reflexivity.
Qed.

Lemma save_search_extends database_name save_to_csv all_entries log :
  exists rest,
    snd (save_search ipython cwd clock database_name save_to_csv all_entries log)
    = List.app log rest.
Proof.
  rewrite save_search_unfold.
  destruct (filepath_to_output ipython cwd "search_queries") as [dir|e];
    [|exists []; symmetry; apply app_nil_r].
  cbv zeta. destruct save_to_csv; [|eexists; reflexivity].
  match goal with
  | |- context [write_csv ?path ?l ?log'] =>
      destruct (write_csv_extends path l log') as (rest & E & _);
      destruct (write_csv path l log') as [[u|e] log'']
  end; cbn [snd] in *; subst; rewrite <- app_assoc; eexists; reflexivity.
Qed.

(** C8.  With a non-empty author-identifier or subject filter: for a
    database name that normalises to "sciencedirect" or "scidir" the call
    raises a ValueError and leaves the log as it was, so no request has
    been issued; for "scopus" the filters pass both checks, the query is
    built from them, and whatever the call yields, its first event is the
    request to the Scopus endpoint with that query. *)
Theorem search_database_provider_filters fuel keywords date_range authors
    subjs author_ids database_name max_results save_to_csv log :
  truthy author_ids || truthy subjs = true ->
  (Str.strip (Str.lower database_name) = "sciencedirect"
   \/ Str.strip (Str.lower database_name) = "scidir" ->
   search_database http api_key inst_token ipython cwd clock fuel keywords date_range authors
     subjs author_ids database_name max_results save_to_csv log
   = Some (Raise (ValueError
                    (if truthy author_ids
                     then "SciDir does not accept subject or author ID. Provide author name or use Scopus."
                     else "SciDir does not accept the subject query parameter. Use Scopus.")),
           log))
  /\ (Str.strip (Str.lower database_name) = "scopus" ->
      exists p,
        write_query keywords subjs author_ids authors date_range = Ok p
        /\ prepare_search keywords date_range authors subjs author_ids "scopus"
           = Ok ("https://api.elsevier.com/content/search/scopus", p)
        /\ forall outcome,
             search_database http api_key inst_token ipython cwd clock (S fuel) keywords
               date_range authors subjs author_ids database_name max_results
               save_to_csv log = Some outcome ->
             exists rest,
               snd outcome
               = List.app log
                   (Get (mkRequest
                           (Url "https://api.elsevier.com/content/search/scopus")
                           (write_headers api_key inst_token "application/json")
                           (Some p)) :: rest)).
Proof.
  intros Hf. split.
  - intros Hname. unfold search_database, prepare_search.
    assert (search_url_of (Str.strip (Str.lower database_name))
            = Some "https://api.elsevier.com/content/search/sciencedirect")
      as ->.
    { destruct Hname as [-> | ->]; reflexivity. }
    unfold reject_for_scidir at 1.
    destruct (truthy author_ids); [reflexivity|].
    cbn [bind orb] in *. unfold reject_for_scidir. rewrite Hf. reflexivity.
  - intros Hname.
    destruct (write_query_ok keywords subjs author_ids
                authors date_range) as (p & Hp & _).
    { destruct (truthy author_ids), (truthy subjs), (truthy keywords);
        try reflexivity; discriminate Hf. }
    assert (Hprep : prepare_search keywords date_range authors subjs
                      author_ids "scopus"
                    = Ok ("https://api.elsevier.com/content/search/scopus", p)).
    { unfold prepare_search, reject_for_scidir.
      destruct (truthy author_ids), (truthy subjs); cbn; rewrite Hp;
        reflexivity. }
    exists p. split; [exact Hp|]. split; [exact Hprep|].
    intros outcome. unfold search_database. rewrite Hname, Hprep.
    destruct (search_loop _ _ _ _ _ _ _ _) as [[[all|e] log']|] eqn:Hloop;
      [| |discriminate].
    + intros [= <-].
      apply search_loop_first_get in Hloop. destruct Hloop as [rest Hrest].
      cbn [snd] in Hrest. subst log'.
      destruct (save_search_extends "scopus" save_to_csv all
                  (List.app log
                     (Get (mkRequest
                             (Url "https://api.elsevier.com/content/search/scopus")
                             (write_headers api_key inst_token "application/json")
                             (Some p)) :: rest))) as [rest' ->].
      rewrite <- app_assoc. eexists. reflexivity.
    + intros [= <-]. apply search_loop_first_get in Hloop. exact Hloop.
Qed.

End Orchestrator.

Lemma search_database_provider_filters_witness :
  search_database (paging_provider [] 50) (Some "key") EmptyString
    true sample_cwd sample_time 3
    (Some ["sleep"]) None None (Some ["MEDI"]) None " SciDir " (Some 50) false []
  = Some (Raise (ValueError
                   "SciDir does not accept the subject query parameter. Use Scopus."),
          []).
Proof.
  apply (proj1 (search_database_provider_filters (paging_provider [] 50)
                  (Some "key") EmptyString
                    true sample_cwd sample_time 3
                    (Some ["sleep"]) None None (Some ["MEDI"])
                  None " SciDir " (Some 50) false [] eq_refl)).
  right. reflexivity.
Defined.

Lemma fetches_app log rest :
  fetches (List.app log rest) = (fetches log + fetches rest)%nat.
Proof.
  unfold fetches. rewrite filter_app, length_app. reflexivity.
Qed.

Lemma firstn_plus {A : Type} (n m : nat) (l : list A) :
  firstn (n + m) l = List.app (firstn n l) (firstn m (skipn n l)).
Proof.
  revert l. induction n as [|n IH]; intros [|x l]; cbn;
    rewrite ?firstn_nil; try reflexivity.
  f_equal. apply IH.
Qed.

Lemma ceil_div_bounds (n per_page : nat) :
  (1 <= per_page)%nat -> (0 < n)%nat ->
  exists k, ceil_div n per_page = S k
            /\ (k * per_page < n)%nat /\ (n <= S k * per_page)%nat.
Proof.
  intros Hp Hn. unfold ceil_div.
  replace (n + per_page - 1)%nat with ((n - 1) + 1 * per_page)%nat by lia.
  rewrite Nat.div_add by lia.
  exists ((n - 1) / per_page)%nat. split; [lia|].
  pose proof (Nat.div_mod_eq (n - 1) per_page) as E.
  pose proof (Nat.mod_upper_bound (n - 1) per_page ltac:(lia)) as B.
  rewrite (Nat.mul_comm per_page) in E. cbn [Nat.mul]. lia.
Qed.

Lemma ceil_div_0 (per_page : nat) :
  (1 <= per_page)%nat -> ceil_div 0 per_page = 0%nat.
Proof.
  intros Hp. unfold ceil_div. apply Nat.div_small. lia.
Qed.

Section Paging.

Variable http : request -> response.
Variable api_key : option string.
Variable inst_token : string.
Variable ipython : bool.
Variable cwd : string.
Variable clock : list event -> string -> string.

(** C6.  With a cap [m] that the first page already reaches (as 10 is by a
    page of 50) and more hits than the page holds, the loop stops after the
    one request with the whole page accumulated, and so does the call: one
    request is all it issues.  Under IPython it then makes the output
    directory, writes the page to the JSON file and returns the page;
    elsewhere [filepath_to_output] raises and the page is lost. *)
Theorem search_database_cap_checked_after_append fuel keywords date_range
    authors subjs author_ids database_name log search_url p data entries
    total offset per_page page m :
  prepare_search keywords date_range authors subjs author_ids
    (Str.strip (Str.lower database_name)) = Ok (search_url, p) ->
  fst (fetch_data http (Url search_url)
         (write_headers api_key inst_token "application/json") (Some p) [])
  = Ok data ->
  iterate_search_info data = Some (entries, total, offset, per_page) ->
  py_iter entries = Ok page ->
  0 < m <= Z.of_nat (List.length page) ->
  offset + Z.of_nat (List.length page) < total ->
  let headers := write_headers api_key inst_token "application/json" in
  let rq := mkRequest (Url search_url) headers (Some p) in
  let output_dir :=
    path_join (path_join (path_join cwd "..") "results") "search_queries" in
  let timestamp :=
    clock (List.app log [Get rq; MakeOutputDir output_dir]) "%Y%m%d_%H%M%S" in
  let json_path :=
    (output_dir ++ "/" ++ Str.strip (Str.lower database_name) ++ "_search_"
       ++ timestamp ++ ".json")%string in
  let outcome :=
    search_database http api_key inst_token ipython cwd clock (S fuel) keywords
      date_range authors subjs author_ids database_name (Some m) false log in
  search_loop http (S fuel) search_url headers p (Some m) [] log
  = Some (Ok page, List.app log [Get rq])
  /\ outcome
     = Some (if ipython
             then (Ok page,
                   List.app log
                     [Get rq; MakeOutputDir output_dir; OpenFile json_path;
                      WriteJson json_path page])
             else (Raise (UnboundLocalError "__file__"),
                   List.app log [Get rq]))
  /\ option_map (fun o => fetches (snd o)) outcome = Some (fetches log + 1)%nat.
Proof.
  intros Hprep Hdata Hinfo Hpage Hm Htotal headers rq output_dir timestamp
    json_path outcome.
  assert (L : search_loop http (S fuel) search_url headers p (Some m) [] log
              = Some (Ok page, List.app log [Get rq])).
  { rewrite search_loop_step. cbv zeta. fold headers.
    unfold headers at 1. rewrite Hdata, Hinfo, Hpage. cbn [List.app].
    destruct (Z.geb_spec (offset + Z.of_nat (List.length page)) total) as [G|G];
      [lia|].
    unfold cap_reached.
    destruct (Z.eqb_spec m 0) as [Z0|Z0]; [lia|].
    destruct (Z.geb_spec (Z.of_nat (List.length page)) m) as [C|C]; [|lia].
    reflexivity. }
  assert (E : outcome
              = Some (if ipython
                      then (Ok page,
                            List.app log
                              [Get rq; MakeOutputDir output_dir;
                               OpenFile json_path; WriteJson json_path page])
                      else (Raise (UnboundLocalError "__file__"),
                            List.app log [Get rq]))).
  { unfold outcome, search_database. rewrite Hprep. cbv zeta.
    fold headers. rewrite L, save_search_unfold.
    destruct ipython.
    - rewrite filepath_to_output_ipython. cbv zeta.
      rewrite <- !app_assoc. reflexivity.
    - rewrite filepath_to_output_script. reflexivity. }
  split; [exact L|]. split; [exact E|]. rewrite E.
  destruct ipython; cbn [option_map snd]; f_equal;
    rewrite fetches_app; reflexivity.
Qed.

(** From offset [s], with the hits before [s] accumulated and [S k] pages
    left to read, the loop reads them all. *)
Lemma search_loop_pages search_url headers hits per_page :
  serves http search_url headers hits per_page ->
  (1 <= per_page)%nat ->
  forall k fuel s q log,
    start q = Z.of_nat s ->
    (k * per_page < List.length hits - s)%nat ->
    (List.length hits - s <= S k * per_page)%nat ->
    (S k <= fuel)%nat ->
    exists log',
      search_loop http fuel search_url headers q None (firstn s hits) log
      = Some (Ok hits, log')
      /\ fetches log' = (fetches log + S k)%nat.
Proof.
  intros Hserves Hpp.
  induction k as [|k IH]; intros fuel s q log Hq Hlo Hhi Hfuel;
    (destruct fuel as [|fuel]; [lia|]);
    rewrite search_loop_step; cbv zeta;
    destruct (Hserves q) as (data & Hd & Hi); try lia;
    rewrite Hd, Hi; cbn [py_iter]; rewrite Hq, Nat2Z.id;
    set (page := firstn per_page (skipn s hits));
    assert (Hlen : List.length page
                   = Nat.min per_page (List.length hits - s))
      by (unfold page; rewrite length_firstn, length_skipn; reflexivity).
  - destruct (Z.geb_spec (Z.of_nat s + Z.of_nat (List.length page))
                (Z.of_nat (List.length hits))) as [G|G]; [|lia].
    assert (Hall : List.app (firstn s hits) page = hits).
    { unfold page. rewrite (firstn_all2 (n := per_page) (skipn s hits)).
      - apply firstn_skipn.
      - rewrite length_skipn. cbn in Hhi. lia. }
    rewrite Hall. eexists. split; [reflexivity|].
    unfold append_item. rewrite fetches_app. reflexivity.
  - destruct (Z.geb_spec (Z.of_nat s + Z.of_nat (List.length page))
                (Z.of_nat (List.length hits))) as [G|G]; [cbn in *; lia|].
    cbn [cap_reached].
    assert (Hnext : List.app (firstn s hits) page = firstn (s + per_page) hits)
      by (symmetry; apply firstn_plus).
    rewrite Hnext.
    destruct (IH fuel (s + per_page)%nat
                (set_start q (Z.of_nat s + Z.of_nat (List.length page)))
                (append_item
                   (append_item log
                      (Get (mkRequest (Url search_url) headers (Some q))))
                   Sleep))
      as (log' & Hrun & Hcount); cbn in *; try lia.
    exists log'. split; [exact Hrun|].
    rewrite Hcount. unfold append_item. rewrite !fetches_app. cbn. lia.
Qed.

(** C5, amended.  With no cap, against a provider that pages through the
    hits [per_page] at a time, the loop ends after exactly
    max (1, ceil (total / per_page)) requests (one request is always made,
    also when there is no hit), given that much fuel, and has accumulated
    all the hits. *)
Theorem search_loop_fetches_all_pages search_url headers hits per_page p
    fuel log :
  serves http search_url headers hits per_page ->
  (1 <= per_page)%nat ->
  start p = 0 ->
  (Nat.max 1 (ceil_div (List.length hits) per_page) <= fuel)%nat ->
  exists log',
    search_loop http fuel search_url headers p None [] log
    = Some (Ok hits, log')
    /\ fetches log'
       = (fetches log + Nat.max 1 (ceil_div (List.length hits) per_page))%nat.
Proof.
  intros Hserves Hpp Hstart Hfuel.
  destruct hits as [|x hits'] eqn:Ehits.
  - rewrite ceil_div_0 in * by exact Hpp. cbn [Nat.max] in *.
    destruct fuel as [|fuel]; [lia|].
    rewrite search_loop_step. cbv zeta.
    destruct (Hserves p) as (data & Hd & Hi); [lia|].
    rewrite Hd, Hi, skipn_nil, firstn_nil. cbn [py_iter List.app List.length].
    rewrite Hstart. cbn. eexists. split; [reflexivity|].
    unfold append_item. rewrite fetches_app. reflexivity.
  - rewrite <- Ehits in *.
    destruct (ceil_div_bounds (List.length hits) per_page Hpp) as (k & Ek & Hlo & Hhi).
    { rewrite Ehits. cbn. lia. }
    rewrite Ek in *. replace (Nat.max 1 (S k)) with (S k) in * by lia.
    apply (search_loop_pages search_url headers hits per_page Hserves Hpp
             k fuel 0%nat p log); lia.
Qed.

End Paging.

(** ** The paging provider *)

Lemma paging_provider_serves hits per_page search_url headers :
  serves (paging_provider hits per_page) search_url headers hits per_page.
Proof.
  intros q Hq. rewrite fetch_data_unfold.
  exists (Parsed (search_page hits per_page (start q))).
  split; reflexivity.
Qed.

Lemma search_database_cap_checked_after_append_witness :
  exists page,
    List.length page = 50%nat
    /\ search_loop (paging_provider (sample_hits 120) 50) 1 scopus_url
         sample_headers sample_params (Some 10) [] []
       = Some (Ok page,
               [Get (mkRequest (Url scopus_url) sample_headers
                       (Some sample_params))])
    /\ search_database (paging_provider (sample_hits 120) 50) (Some "key")
         EmptyString true sample_cwd sample_time 1
         (Some ["sleep"]) None None None None "scopus" (Some 10) false []
       = Some (Ok page,
               [Get (mkRequest (Url scopus_url) sample_headers
                       (Some sample_params));
                MakeOutputDir "/home/u/scripts/../results/search_queries";
                OpenFile "/home/u/scripts/../results/search_queries/scopus_search_20250301_120000.json";
                WriteJson "/home/u/scripts/../results/search_queries/scopus_search_20250301_120000.json"
                  page]).
Proof.
  exists (firstn 50 (sample_hits 120)). split; [reflexivity|].
  destruct (search_database_cap_checked_after_append
              (paging_provider (sample_hits 120) 50) (Some "key") EmptyString
              true sample_cwd sample_time 0
              (Some ["sleep"]) None None None None "scopus" []
              scopus_url sample_params
              (Parsed (search_page (sample_hits 120) 50 0))
              (JArr (firstn 50 (sample_hits 120))) 120 0 50
              (firstn 50 (sample_hits 120)) 10)
    as (Hloop & Hrun & _).
  - reflexivity.
  - reflexivity.
  - reflexivity.
  - reflexivity.
  - cbn. lia.
  - cbn. lia.
  - split; [exact Hloop|exact Hrun].
Defined.

(** C5, as stated, fails when the search has no hit: one request is made,
    and ceil (0 / 50) is 0. *)
Lemma search_database_no_hits_counterexample :
  exists log,
    search_database (paging_provider [] 50) (Some "key") EmptyString
      true sample_cwd sample_time 1
      (Some ["sleep"]) None None None None "scopus" None false []
    = Some (Ok [], log)
    /\ fetches log = 1%nat
    /\ fetches log <> ceil_div 0 50.
Proof.
  eexists. split; [vm_compute; reflexivity|].
  split; [reflexivity|]. discriminate.
Qed.

Lemma search_loop_fetches_all_pages_witness :
  exists log,
    search_loop (paging_provider (sample_hits 120) 50) 3 scopus_url
      sample_headers sample_params None [] []
    = Some (Ok (sample_hits 120), log)
    /\ fetches log = 3%nat
    /\ List.length (sample_hits 120) = 120%nat.
Proof.
  destruct (search_loop_fetches_all_pages
              (paging_provider (sample_hits 120) 50) scopus_url sample_headers
              (sample_hits 120) 50 sample_params 3 []
              (paging_provider_serves (sample_hits 120) 50 scopus_url
                 sample_headers))
    as (log & Hrun & Hcount).
  - lia.
  - reflexivity.
  - vm_compute. lia.
  - exists log. split; [exact Hrun|]. split; [exact Hcount|]. reflexivity.
Defined.

(** ** Metrics Enricher *)



(** On the keys of ranked records, the comparison of pairs is the rank
    order. *)
Lemma tuple_lt_rank a b :
  tuple_lt (key_of_rank a) (key_of_rank b) = Ok (rank_below a b).
Proof.
  destruct a as [[p n]|], b as [[p' n']|]; try reflexivity.
  unfold tuple_lt, key_of_rank, rank_below. cbn.
  destruct (Z.eqb_spec p p'), (Z.eqb_spec n n'), (Z.ltb_spec p p'),
    (Z.ltb_spec n n'); cbn; try reflexivity; lia.
Qed.

Lemma entry_sorter_counted entry :
  counters entry <> None -> entry_sorter entry = Ok (key_of_rank (rank entry)).
Proof.
  unfold rank, counters, entry_sorter. intros H.
  destruct (subscript entry "policy_citation_count") as [[| | p | | |]|];
    try (exfalso; apply H; reflexivity);
    destruct (subscript entry "news_mentions") as [[| | n | | |]|];
    try (exfalso; apply H; reflexivity); reflexivity.
Qed.

Lemma keys_of_counted l :
  Forall (fun entry => counters entry <> None) l ->
  map_result entry_sorter l = Ok (map (fun e => key_of_rank (rank e)) l).
Proof.
  induction 1 as [|e l He _ IH]; [reflexivity|].
  cbn [map_result map]. rewrite (entry_sorter_counted e He), IH. reflexivity.
Qed.

Lemma combine_keyed l :
  combine (map (fun e => key_of_rank (rank e)) l) l = map keyed l.
Proof.
  induction l as [|e l IH]; [reflexivity|]. cbn. rewrite IH. reflexivity.
Qed.



(** Records with a null policy count all bear the key (-inf, -inf): their
    news counts are not consulted and they keep the order they came in. *)
Lemma sorted_reverse_null_policy_ties :
  sorted_reverse entry_sorter
    [counted JNull (JNum 1); counted JNull (JNum 99)]
  = Ok [counted JNull (JNum 1); counted JNull (JNum 99)].
Proof. reflexivity. Qed.



(** C1 against the code: a record without the DOI key is given two null
    counters, and then the body of the loop goes on.  After a record that
    had a DOI, the request is issued again for that earlier DOI and its
    counts overwrite the nulls; when no earlier record had one, the call
    stops on the unbound [article_doi]. *)
Theorem get_plumx_metrics_missing_doi_not_skipped :
  let with_doi :=
    JObj [("prism:doi", JStr "10.1016/j.x.2020.01.001"); ("dc:title", JStr "A")] in
  let without_doi := JObj [("dc:title", JStr "B")] in
  let rq :=
    mkRequest (PlumxUrl (JStr "10.1016/j.x.2020.01.001")) sample_headers None in
  get_plumx_metrics plumx_provider (Some "key") EmptyString
    true sample_cwd sample_time [with_doi; without_doi]
    false []
  = (Ok [JObj [("prism:doi", JStr "10.1016/j.x.2020.01.001");
               ("dc:title", JStr "A");
               ("policy_citation_count", JNum 3); ("news_mentions", JNum 4)];
         JObj [("dc:title", JStr "B");
               ("policy_citation_count", JNum 3); ("news_mentions", JNum 4)]],
     [Get rq; Get rq])
  /\ get_plumx_metrics plumx_provider (Some "key") EmptyString
    true sample_cwd sample_time [without_doi] false []
     = (Raise (UnboundLocalError "article_doi"), []).
Proof.
  split; reflexivity.
Qed.

(** * Further properties of the client *)

(** ** Query parameters *)

(** X1.  Whatever the filters, the parameters [write_query] returns start
    at offset 0, ask for 50 items and the five fixed fields, carry a query
    that is not empty, and carry a date exactly when a non-empty date range
    was given, namely that range. *)
Theorem write_query_parameters keywords subjs author_ids authors date_range p :
  write_query keywords subjs author_ids authors date_range = Ok p ->
  start p = 0 /\ count p = 50
  /\ field p
     = "prism:doi,dc:title,prism:publicationName,prism:coverDate,dc:creator"
  /\ query p <> EmptyString
  /\ (forall d, date p = Some d <-> date_range = Some d /\ d <> EmptyString).
Proof.
  rewrite write_query_unfold. cbv zeta.
  destruct (String.eqb_spec
              (String.concat " AND "
                 (Clause.all keywords subjs author_ids authors)) EmptyString)
    as [E|E]; [discriminate|].
  intros [= <-]. cbn [start count field query date].
  repeat (split; [solve [reflexivity | exact E]|]).
  intros d. destruct date_range as [x|].
  - destruct (String.eqb_spec x EmptyString) as [Ex|Ex].
    + split; [discriminate|]. intros [[= ->] Hd]. contradiction.
    + split; [intros [= ->]; auto|]. intros [[= ->] _]. reflexivity.
  - split; [discriminate|]. intros [H _]. discriminate H.
Qed.

Lemma write_query_parameters_witness :
  exists p,
    write_query None None None (Some ["Fujii"]) (Some "2020-2025") = Ok p
    /\ start p = 0 /\ count p = 50 /\ date p = Some "2020-2025".
Proof.
  eexists. split; [reflexivity|].
  destruct (write_query_parameters None None None (Some ["Fujii"])
              (Some "2020-2025") _ eq_refl) as (Hs & Hc & _ & _ & Hd).
  split; [exact Hs|]. split; [exact Hc|].
  apply Hd. split; [reflexivity|discriminate].
Defined.

(** ** Counts of a document *)

Lemma access_citation_counts_unreadable plumx_response citation_type e :
  fetched_subscript plumx_response "count_categories" = Raise e ->
  access_citation_counts plumx_response citation_type
  = Ok (if (Str.strip (Str.lower citation_type) =? "both")%string
        then [("news", JNull); ("policy", JNull)]
        else [(Str.strip (Str.lower citation_type), JNull)]).
Proof.
  intros H. unfold access_citation_counts. rewrite H.
  destruct (fetched_subscript plumx_response "id_value");
    destruct (_ =? _)%string; reflexivity.
Qed.

(** X2.  A response whose "count_categories" cannot be read (no such key,
    no mapping at all, a response object, [None]) never makes
    [access_citation_counts] raise, whatever the citation type: "both"
    gives the two null counters, any other type gives one null counter
    under its normalised name. *)
Theorem access_citation_counts_no_data plumx_response citation_type e :
  fetched_subscript plumx_response "count_categories" = Raise e ->
  access_citation_counts plumx_response citation_type
  = Ok (if (Str.strip (Str.lower citation_type) =? "both")%string
        then [("news", JNull); ("policy", JNull)]
        else [(Str.strip (Str.lower citation_type), JNull)]).
Proof.
  apply access_citation_counts_unreadable.
Qed.

Lemma access_citation_counts_no_data_witness :
  access_citation_counts Nothing " BOTH"
  = Ok [("news", JNull); ("policy", JNull)]
  /\ access_citation_counts (Parsed (JArr [])) "Policy"
     = Ok [("policy", JNull)].
Proof.
  split.
  - exact (access_citation_counts_no_data Nothing " BOTH" TypeError eq_refl).
  - exact (access_citation_counts_no_data (Parsed (JArr [])) "Policy"
             TypeError eq_refl).
Defined.

(** X3.  Asking for "both" is asking for "news" and then for "policy": the
    same two counters, and the same exception when one of the two lookups
    raises, the news lookup first.  The spelling of the type does not
    matter beyond case and surrounding blanks. *)
Theorem access_citation_counts_both plumx_response both news policy :
  Str.strip (Str.lower both) = "both" ->
  Str.strip (Str.lower news) = "news" ->
  Str.strip (Str.lower policy) = "policy" ->
  access_citation_counts plumx_response both
  = (n <- access_citation_counts plumx_response news ;;
     p <- access_citation_counts plumx_response policy ;;
     Ok (List.app n p)).
Proof.
  intros Hb Hn Hp. unfold access_citation_counts. rewrite Hb, Hn, Hp.
  destruct (fetched_subscript plumx_response "count_categories")
    as [categories|e].
  - cbn -[extract_count].
    destruct (extract_count categories "news" "mention"); [|reflexivity].
    cbn -[extract_count].
    destruct (extract_count categories "policy" "citation"); reflexivity.
  - destruct (fetched_subscript plumx_response "id_value"); reflexivity.
Qed.

Lemma access_citation_counts_both_witness :
  access_citation_counts
    (plumx_document [category "mention" [count_type "NEWS_COUNT" 4];
                     category "citation" [count_type "POLICY_CITED_BY_COUNT" 3]])
    "Both"
  = Ok [("news", JNum 4); ("policy", JNum 3)].
Proof.
  rewrite (access_citation_counts_both _ "Both" " news" "POLICY "
             eq_refl eq_refl eq_refl).
  reflexivity.
Defined.

Lemma scan_types_passed types citation_type rest :
  Forall (other_type citation_type) types ->
  scan_types (List.app types rest) citation_type
  = scan_types rest citation_type.
Proof.
  induction 1 as [|t types (name & Hname & Hno) _ IH]; [reflexivity|].
  cbn [List.app scan_types]. rewrite Hname. cbn [bind lower_method].
  rewrite Hno. exact IH.
Qed.

Lemma scan_categories_passed categories citation_type kind rest :
  Forall (passed_over citation_type kind) categories ->
  scan_categories (List.app categories rest) citation_type kind
  = scan_categories rest citation_type kind.
Proof.
  induction 1 as [|c categories (name & Hname & Hc) _ IH]; [reflexivity|].
  cbn [List.app scan_categories]. rewrite Hname. cbn [bind].
  destruct Hc as [Hother | (Hkind & types & Htypes & Hnone)].
  - rewrite Hother. exact IH.
  - rewrite Hkind, Htypes. cbn [bind py_iter].
    rewrite <- (app_nil_r types), (scan_types_passed types _ [] Hnone).
    cbn [scan_types bind]. exact IH.
Qed.

(** X4.  [extract_count] returns the total of the first count type whose
    lowercased name contains the citation type, inside the first category
    of the right name that has one.  Categories of another name, and
    categories of the right name without such a count type, are passed
    over; what follows the match is not read at all, so nothing there can
    make the call raise. *)
Theorem extract_count_first_match before kind types_before name total
    types_after extra after citation_type :
  Forall (passed_over citation_type kind) before ->
  Forall (other_type citation_type) types_before ->
  Str.contains citation_type (Str.lower name) = true ->
  extract_count
    (JArr (List.app before
             (JObj (("name", JStr kind)
                    :: ("count_types",
                        JArr (List.app types_before
                                (JObj (("name", JStr name)
                                       :: ("total", total) :: extra)
                                 :: types_after)))
                    :: [])
              :: after)))
    citation_type kind
  = Ok total.
Proof.
  intros Hbefore Htypes Hname. unfold extract_count. cbn [py_iter bind].
  rewrite (scan_categories_passed before _ _ _ Hbefore).
  cbn [scan_categories subscript dict_get String.eqb Ascii.eqb Bool.eqb bind
         eq_str].
  rewrite String.eqb_refl. cbn [py_iter bind].
  rewrite (scan_types_passed types_before _ _ Htypes).
  cbn [scan_types subscript dict_get String.eqb Ascii.eqb Bool.eqb bind
         lower_method].
  rewrite Hname. reflexivity.
Qed.

Lemma extract_count_first_match_witness :
  extract_count
    (JArr [category "capture" [count_type "READER_COUNT" 12];
           category "mention" [];
           JObj [("name", JStr "mention");
                 ("count_types",
                  JArr [count_type "BLOG_COUNT" 5;
                        JObj [("name", JStr "News_Count"); ("total", JNum 4)];
                        JNull])];
           JStr "not a category"])
    "news" "mention"
  = Ok (JNum 4).
Proof.
  apply (extract_count_first_match
           [category "capture" [count_type "READER_COUNT" 12];
            category "mention" []]
           "mention" [count_type "BLOG_COUNT" 5] "News_Count" (JNum 4)
           [JNull] [] [JStr "not a category"] "news").
  - constructor; [|constructor; [|constructor]].
    + exists (JStr "capture"). split; [reflexivity|]. left. reflexivity.
    + exists (JStr "mention"). split; [reflexivity|]. right.
      split; [reflexivity|]. exists []. split; [reflexivity|constructor].
  - constructor; [|constructor].
    exists "BLOG_COUNT". split; reflexivity.
  - reflexivity.
Defined.

(** ** The pagination loop, against any provider *)

Lemma sleeps_app log rest :
  sleeps (List.app log rest) = (sleeps log + sleeps rest)%nat.
Proof.
  unfold sleeps. rewrite filter_app, length_app. reflexivity.
Qed.

Lemma page_request_set_start search_url headers p offset e :
  page_request search_url headers (set_start p offset) e ->
  page_request search_url headers p e.
Proof.
  destruct e; cbn; auto.
Qed.

Lemma same_search_refl p : same_search p p.
Proof. repeat split. Qed.

Section Loop.

Variable http : request -> response.

(** X5.  Whatever the provider answers, and however the loop ends (a
    result or an exception), what it adds to the log is requests and pauses
    only: every request goes to the search address with the same headers
    and the same query, fields, count and date, only the offset varying;
    there is exactly one pause less than there are requests, at least one
    request being made; and the last event is a request, so no pause
    follows the last page. *)
Theorem search_loop_events fuel :
  forall search_url headers p max_results all_entries log outcome,
    search_loop http fuel search_url headers p max_results all_entries log
    = Some outcome ->
    exists rest k,
      snd outcome = List.app log rest
      /\ Forall (page_request search_url headers p) rest
      /\ fetches rest = S k /\ sleeps rest = k
      /\ exists before rq, rest = List.app before [Get rq].
Proof.
  induction fuel as [|fuel IH]; intros u h p m all log outcome; [discriminate|].
  rewrite search_loop_step. cbv zeta.
  set (rq := mkRequest (Url u) h (Some p)).
  assert (Hrq : page_request u h p (Get rq)).
  { cbn. repeat split. exists p. split; [reflexivity|apply same_search_refl]. }
  assert (Hstop : forall r, Some (r, append_item log (Get rq)) = Some outcome ->
                            exists rest k,
                              snd outcome = List.app log rest
                              /\ Forall (page_request u h p) rest
                              /\ fetches rest = S k /\ sleeps rest = k
                              /\ exists before rq',
                                   rest = List.app before [Get rq']).
  { intros r [= <-]. exists [Get rq], 0%nat.
    split; [reflexivity|]. split; [constructor; [exact Hrq|constructor]|].
    split; [reflexivity|]. split; [reflexivity|].
    exists [], rq. reflexivity. }
  destruct (fst (fetch_data http (Url u) h (Some p) [])) as [data|e];
    [|apply Hstop].
  destruct (iterate_search_info data) as [[[[entries total] st] per_page]|];
    [|apply Hstop].
  destruct (py_iter entries) as [page|e]; [|apply Hstop].
  destruct (_ >=? _); [apply Hstop|].
  destruct (cap_reached _ _); [apply Hstop|].
  intros H. apply IH in H.
  destruct H as (rest & k & Hlog & Hall & Hf & Hs & before & rq' & Hlast).
  exists (Get rq :: Sleep :: rest), (S k). split; [|split; [|split; [|split]]].
  - rewrite Hlog. unfold append_item. rewrite <- !app_assoc. reflexivity.
  - constructor; [exact Hrq|]. constructor; [exact I|].
    eapply Forall_impl; [|exact Hall].
    intros e. apply page_request_set_start.
  - change (Get rq :: Sleep :: rest) with (List.app [Get rq; Sleep] rest).
    rewrite fetches_app, Hf. reflexivity.
  - change (Get rq :: Sleep :: rest) with (List.app [Get rq; Sleep] rest).
    rewrite sleeps_app, Hs. reflexivity.
  - exists (Get rq :: Sleep :: before), rq'. rewrite Hlast. reflexivity.
Qed.

End Loop.

Lemma search_loop_events_witness :
  exists outcome rest k,
    search_loop (paging_provider (sample_hits 120) 50) 5 scopus_url
      sample_headers sample_params None [] []
    = Some outcome
    /\ snd outcome = rest
    /\ fetches rest = S k /\ sleeps rest = k.
Proof.
  destruct (search_loop_events (paging_provider (sample_hits 120) 50) 5
              scopus_url sample_headers sample_params None [] [] _ eq_refl)
    as (rest & k & Hlog & _ & Hf & Hs & _).
  eexists _, rest, k. split; [reflexivity|]. split; [exact Hlog|].
  split; [exact Hf|exact Hs].
Defined.

Lemma map_result_length {A B : Type} (f : A -> result B) (l : list A) l' :
  map_result f l = Ok l' -> List.length l' = List.length l.
Proof.
  revert l'. induction l as [|x l IH]; intros l'; cbn [map_result].
  - intros [= <-]. reflexivity.
  - destruct (f x) as [y|e]; [|discriminate]. cbn [bind].
    destruct (map_result f l) as [ys|e]; [|discriminate]. cbn [bind].
    intros [= <-]. cbn [List.length]. f_equal. apply IH. reflexivity.
Qed.

Section Orchestration.

Variable http : request -> response.
Variable api_key : option string.
Variable inst_token : string.
Variable ipython : bool.
Variable cwd : string.
Variable clock : list event -> string -> string.

(** X6.  A database name that normalises to none of "scopus",
    "sciencedirect" and "scidir" leaves the search address unassigned: the
    call raises without issuing any request or writing any file, and as
    soon as one filter is non-empty the exception is the unbound
    [search_url] (with no filter at all it is the empty-query error). *)
Theorem search_database_unknown_provider fuel keywords date_range authors
    subjs author_ids database_name max_results save_to_csv log :
  Str.strip (Str.lower database_name) <> "scopus" ->
  Str.strip (Str.lower database_name) <> "sciencedirect" ->
  Str.strip (Str.lower database_name) <> "scidir" ->
  exists e,
    search_database http api_key inst_token ipython cwd clock fuel keywords date_range authors
      subjs author_ids database_name max_results save_to_csv log
    = Some (Raise e, log)
    /\ (truthy keywords || truthy subjs || truthy author_ids || truthy authors
        = true ->
        e = UnboundLocalError "search_url").
Proof.
  intros H1 H2 H3. unfold search_database, prepare_search.
  assert (search_url_of (Str.strip (Str.lower database_name)) = None) as ->.
  { unfold search_url_of. apply String.eqb_neq in H1, H2, H3.
    rewrite H1, H2, H3. reflexivity. }
  unfold reject_for_scidir.
  destruct (truthy author_ids) eqn:Ha; [eexists; split; reflexivity|].
  destruct (truthy subjs) eqn:Hs; [eexists; split; reflexivity|].
  cbn [bind].
  destruct (write_query keywords subjs author_ids authors date_range)
    as [p|e] eqn:Hq.
  - eexists. split; reflexivity.
  - exists e. split; [reflexivity|]. intros Hf.
    destruct (write_query_ok keywords subjs author_ids authors date_range)
      as (p & Hp & _).
    + rewrite Ha, Hs. exact Hf.
    + congruence.
Qed.

(** X7.  When the body of a page is no mapping with the key
    "search-results" (an error document, a response object, nothing at
    all), the call raises TypeError after that one request: nothing is
    retried and no file is written. *)
Theorem search_database_unreadable_page fuel keywords date_range authors
    subjs author_ids database_name max_results save_to_csv log search_url p
    data e :
  prepare_search keywords date_range authors subjs author_ids
    (Str.strip (Str.lower database_name)) = Ok (search_url, p) ->
  fst (fetch_data http (Url search_url)
         (write_headers api_key inst_token "application/json") (Some p) [])
  = Ok data ->
  fetched_subscript data "search-results" = Raise e ->
  search_database http api_key inst_token ipython cwd clock (S fuel) keywords date_range authors
    subjs author_ids database_name max_results save_to_csv log
  = Some (Raise TypeError,
          append_item log
            (Get (mkRequest (Url search_url)
                    (write_headers api_key inst_token "application/json")
                    (Some p)))).
Proof.
  intros Hprep Hdata Hbody. unfold search_database.
  rewrite Hprep, search_loop_step. cbv zeta. rewrite Hdata.
  unfold iterate_search_info. rewrite Hbody. reflexivity.
Qed.

(** X8.  When the first page is empty and reports no hit beyond its
    offset, a call that was asked for a CSV file returns no list.  Under
    IPython it makes the output directory, writes the JSON file with the
    empty list, opens the CSV file and then raises IndexError on the first
    entry it needs for the header: the CSV file is left empty.  Elsewhere
    [filepath_to_output] raises after the one request, and no file is
    made. *)
Theorem search_database_csv_without_hits fuel keywords date_range authors
    subjs author_ids database_name max_results log search_url p data entries
    total offset per_page :
  prepare_search keywords date_range authors subjs author_ids
    (Str.strip (Str.lower database_name)) = Ok (search_url, p) ->
  fst (fetch_data http (Url search_url)
         (write_headers api_key inst_token "application/json") (Some p) [])
  = Ok data ->
  iterate_search_info data = Some (entries, total, offset, per_page) ->
  py_iter entries = Ok [] ->
  total <= offset ->
  let headers := write_headers api_key inst_token "application/json" in
  let rq := mkRequest (Url search_url) headers (Some p) in
  let output_dir :=
    path_join (path_join (path_join cwd "..") "results") "search_queries" in
  let timestamp :=
    clock (List.app log [Get rq; MakeOutputDir output_dir]) "%Y%m%d_%H%M%S" in
  let json_path :=
    (output_dir ++ "/" ++ Str.strip (Str.lower database_name) ++ "_search_"
       ++ timestamp ++ ".json")%string in
  let csv_path :=
    (output_dir ++ "/" ++ Str.strip (Str.lower database_name) ++ "_search_"
       ++ timestamp ++ ".csv")%string in
  search_database http api_key inst_token ipython cwd clock (S fuel) keywords
    date_range authors subjs author_ids database_name max_results true log
  = Some (if ipython
          then (Raise IndexError,
                List.app log
                  [Get rq; MakeOutputDir output_dir; OpenFile json_path;
                   WriteJson json_path []; OpenFile csv_path])
          else (Raise (UnboundLocalError "__file__"), List.app log [Get rq])).
Proof.
  intros Hprep Hdata Hinfo Hpage Htotal headers rq output_dir timestamp
    json_path csv_path.
  unfold search_database.
  rewrite Hprep, search_loop_step. cbv zeta.
  rewrite Hdata, Hinfo, Hpage. cbn [List.app List.length Z.of_nat].
  destruct (Z.geb_spec (offset + 0) total) as [G|G]; [|lia].
  rewrite save_search_unfold. unfold append_item. destruct ipython.
  - rewrite filepath_to_output_ipython. cbv zeta. rewrite write_csv_unfold.
    rewrite <- !app_assoc. reflexivity.
  - rewrite filepath_to_output_script. reflexivity.
Qed.

(** X9.  When the call returns a list, it ran under IPython, and its last
    events are the output directory made, the JSON file opened and written
    with exactly that list (the file is named after the normalised database
    name and the time), and, only when a CSV file was asked for, the CSV
    file of the same name opened and written: the header from the keys of
    the first entry, then one row per entry returned.  No request comes
    after them. *)
Theorem search_database_files fuel keywords date_range authors subjs
    author_ids database_name max_results save_to_csv log all_entries log' :
  search_database http api_key inst_token ipython cwd clock fuel keywords
    date_range authors subjs author_ids database_name max_results save_to_csv
    log
  = Some (Ok all_entries, log') ->
  exists before after,
    let output_dir :=
      path_join (path_join (path_join cwd "..") "results") "search_queries" in
    let timestamp :=
      clock (List.app before [MakeOutputDir output_dir]) "%Y%m%d_%H%M%S" in
    let json_path :=
      (output_dir ++ "/" ++ Str.strip (Str.lower database_name) ++ "_search_"
         ++ timestamp ++ ".json")%string in
    let csv_path :=
      (output_dir ++ "/" ++ Str.strip (Str.lower database_name) ++ "_search_"
         ++ timestamp ++ ".csv")%string in
    ipython = true
    /\ log' = List.app before
                (MakeOutputDir output_dir :: OpenFile json_path
                 :: WriteJson json_path all_entries :: after)
    /\ fetches before = fetches log'
    /\ if save_to_csv
       then exists first others header rows,
           all_entries = first :: others
           /\ keys_method first = Ok header
           /\ map_result values_method all_entries = Ok rows
           /\ after = [OpenFile csv_path; WriteRow csv_path header;
                       WriteRows csv_path rows]
           /\ List.length rows = List.length all_entries
       else after = [].
Proof.
  unfold search_database.
  destruct (prepare_search _ _ _ _ _ _) as [[u p]|e]; [|discriminate].
  destruct (search_loop _ _ _ _ _ _ _ _) as [[[all|e] l1]|]; try discriminate.
  rewrite save_search_unfold.
  destruct ipython;
    [rewrite filepath_to_output_ipython
    |rewrite filepath_to_output_script; discriminate].
  cbv zeta. destruct save_to_csv.
  - rewrite write_csv_unfold.
    destruct all as [|x all]; [discriminate|].
    destruct (keys_method x) as [header|e] eqn:Hkeys; [|discriminate].
    destruct (map_result values_method (x :: all)) as [rows|e] eqn:Hrows;
      [|discriminate].
    intros [= <- <-]. exists l1. eexists. split; [reflexivity|].
    split; [|split].
    + rewrite <- app_assoc. reflexivity.
    + rewrite !fetches_app. cbn. lia.
    + exists x, all, header, rows. split; [reflexivity|].
      split; [exact Hkeys|]. split; [exact Hrows|]. split; [reflexivity|].
      apply (map_result_length _ _ _ Hrows).
  - intros [= <- <-]. exists l1, []. split; [reflexivity|].
    split; [reflexivity|]. split; [|reflexivity].
    rewrite fetches_app. cbn. lia.
Qed.

(** With a cap, from offset [s], with the hits before [s] accumulated and
    the cap not yet reached. *)
Lemma search_loop_capped_pages search_url headers hits per_page m :
  serves http search_url headers hits per_page ->
  (1 <= per_page)%nat ->
  0 < m ->
  forall k fuel s q log,
    start q = Z.of_nat s ->
    (k * per_page < Nat.min (List.length hits) (Z.to_nat m) - s)%nat ->
    (Nat.min (List.length hits) (Z.to_nat m) - s <= S k * per_page)%nat ->
    (S k <= fuel)%nat ->
    exists log',
      search_loop http fuel search_url headers q (Some m) (firstn s hits) log
      = Some (Ok (firstn (s + S k * per_page) hits), log')
      /\ fetches log' = (fetches log + S k)%nat.
Proof.
  intros Hserves Hpp Hm.
  induction k as [|k IH]; intros fuel s q log Hq Hlo Hhi Hfuel;
    (destruct fuel as [|fuel]; [lia|]);
    rewrite search_loop_step; cbv zeta;
    destruct (Hserves q) as (data & Hd & Hi); try lia;
    rewrite Hd, Hi; cbn [py_iter]; rewrite Hq, Nat2Z.id;
    set (page := firstn per_page (skipn s hits));
    assert (Hlen : List.length page
                   = Nat.min per_page (List.length hits - s))
      by (unfold page; rewrite length_firstn, length_skipn; reflexivity);
    assert (Hall : List.app (firstn s hits) page = firstn (s + per_page) hits)
      by (symmetry; apply firstn_plus);
    rewrite Hall;
    assert (Hacc : List.length (firstn (s + per_page) hits)
                   = Nat.min (s + per_page) (List.length hits))
      by apply length_firstn;
    unfold cap_reached; rewrite Hacc;
    (destruct (Z.eqb_spec m 0) as [Z0|Z0]; [lia|]); cbn [negb andb].
  - replace (s + 1 * per_page)%nat with (s + per_page)%nat by lia.
    destruct (Z.geb_spec (Z.of_nat s + Z.of_nat (List.length page))
                (Z.of_nat (List.length hits))) as [G|G].
    + eexists. split; [reflexivity|].
      unfold append_item. rewrite fetches_app. reflexivity.
    + destruct (Z.geb_spec
                  (Z.of_nat (Nat.min (s + per_page) (List.length hits))) m)
        as [C|C]; [|cbn in *; lia].
      eexists. split; [reflexivity|].
      unfold append_item. rewrite fetches_app. reflexivity.
  - destruct (Z.geb_spec (Z.of_nat s + Z.of_nat (List.length page))
                (Z.of_nat (List.length hits))) as [G|G]; [cbn in *; lia|].
    destruct (Z.geb_spec
                (Z.of_nat (Nat.min (s + per_page) (List.length hits))) m)
      as [C|C]; [cbn in *; lia|].
    destruct (IH fuel (s + per_page)%nat
                (set_start q (Z.of_nat s + Z.of_nat (List.length page)))
                (append_item
                   (append_item log
                      (Get (mkRequest (Url search_url) headers (Some q))))
                   Sleep))
      as (log' & Hrun & Hcount); cbn in *; try lia.
    exists log'. split.
    + rewrite Hrun.
      replace (s + per_page + (per_page + k * per_page))%nat
        with (s + (per_page + (per_page + k * per_page)))%nat by lia.
      reflexivity.
    + rewrite Hcount. unfold append_item. rewrite !fetches_app. cbn. lia.
Qed.

(** X10.  With a cap [m] of at least 1, against a provider that pages
    through at least one hit, the loop reads whole pages until the cap or
    the total is reached: it makes ceil (min (total, m) / per_page)
    requests and returns the first that many pages of hits.  So at least
    min (total, m) entries come back, and fewer than m + per_page: the cap
    is overshot by less than one page. *)
Theorem search_loop_capped search_url headers hits per_page m p fuel log :
  serves http search_url headers hits per_page ->
  (1 <= per_page)%nat ->
  0 < m ->
  (1 <= List.length hits)%nat ->
  start p = 0 ->
  let pages := ceil_div (Nat.min (List.length hits) (Z.to_nat m)) per_page in
  (pages <= fuel)%nat ->
  exists log',
    search_loop http fuel search_url headers p (Some m) [] log
    = Some (Ok (firstn (pages * per_page) hits), log')
    /\ fetches log' = (fetches log + pages)%nat
    /\ (Nat.min (List.length hits) (Z.to_nat m)
        <= List.length (firstn (pages * per_page) hits)
        < Z.to_nat m + per_page)%nat.
Proof.
  intros Hserves Hpp Hm Hhits Hstart pages Hfuel.
  destruct (ceil_div_bounds (Nat.min (List.length hits) (Z.to_nat m)) per_page
              Hpp) as (k & Ek & Hlo & Hhi); [lia|].
  fold pages in Ek. rewrite Ek in *.
  destruct (search_loop_capped_pages search_url headers hits per_page m
              Hserves Hpp Hm k fuel 0%nat p log) as (log' & Hrun & Hcount);
    try lia.
  exists log'. split; [exact Hrun|]. split; [exact Hcount|].
  rewrite length_firstn. cbn [Nat.mul] in *. lia.
Qed.

End Orchestration.

Lemma search_database_unknown_provider_witness :
  search_database (paging_provider (sample_hits 3) 50) (Some "key")
    EmptyString
      true sample_cwd sample_time 4
      (Some ["sleep"]) None None None None "PubMed" (Some 50)
    false []
  = Some (Raise (UnboundLocalError "search_url"), []).
Proof.
  destruct (search_database_unknown_provider
              (paging_provider (sample_hits 3) 50) (Some "key") EmptyString
                true sample_cwd sample_time 4
              (Some ["sleep"]) None None None None "PubMed" (Some 50) false [])
    as (e & He & Hu); try (vm_compute; discriminate).
  rewrite He, (Hu eq_refl). reflexivity.
Defined.

Lemma search_database_unreadable_page_witness :
  search_database refusing_provider (Some "wrong") EmptyString
    true sample_cwd sample_time 1
    (Some ["sleep"]) None None None None "scopus" (Some 50) true []
  = Some (Raise TypeError,
          [Get (mkRequest (Url scopus_url)
                  (write_headers (Some "wrong") EmptyString "application/json")
                  (Some sample_params))]).
Proof.
  exact (search_database_unreadable_page refusing_provider (Some "wrong")
           EmptyString
             true sample_cwd sample_time 0
             (Some ["sleep"]) None None None None "scopus"
           (Some 50) true [] scopus_url sample_params (Parsed error_document)
           (KeyError "search-results") eq_refl eq_refl eq_refl).
Defined.

Lemma search_database_csv_without_hits_witness :
  search_database (paging_provider [] 50) (Some "key") EmptyString true
    sample_cwd sample_time 1
    (Some ["sleep"]) None None None None "scopus" (Some 50) true []
  = Some (Raise IndexError,
          [Get (mkRequest (Url scopus_url) sample_headers (Some sample_params));
           MakeOutputDir "/home/u/scripts/../results/search_queries";
           OpenFile "/home/u/scripts/../results/search_queries/scopus_search_20250301_120000.json";
           WriteJson "/home/u/scripts/../results/search_queries/scopus_search_20250301_120000.json"
             [];
           OpenFile "/home/u/scripts/../results/search_queries/scopus_search_20250301_120000.csv"])
  /\ search_database (paging_provider [] 50) (Some "key") EmptyString false
       sample_cwd sample_time 1
       (Some ["sleep"]) None None None None "scopus" (Some 50) true []
     = Some (Raise (UnboundLocalError "__file__"),
             [Get (mkRequest (Url scopus_url) sample_headers
                     (Some sample_params))]).
Proof.
  split.
  - refine (search_database_csv_without_hits (paging_provider [] 50)
              (Some "key") EmptyString true sample_cwd sample_time 0
              (Some ["sleep"]) None None None None
              "scopus" (Some 50) [] scopus_url sample_params
              (Parsed (search_page [] 50 0)) (JArr []) 0 0 50
              eq_refl eq_refl eq_refl eq_refl _).
    lia.
  - refine (search_database_csv_without_hits (paging_provider [] 50)
              (Some "key") EmptyString false sample_cwd sample_time 0
              (Some ["sleep"]) None None None None
              "scopus" (Some 50) [] scopus_url sample_params
              (Parsed (search_page [] 50 0)) (JArr []) 0 0 50
              eq_refl eq_refl eq_refl eq_refl _).
    lia.
Defined.

Lemma search_database_files_witness :
  exists all_entries log before header rows,
    search_database (paging_provider (sample_hits 3) 50) (Some "key")
      EmptyString true sample_cwd sample_time 1
      (Some ["sleep"]) None None None None "scopus" (Some 50) true []
    = Some (Ok all_entries, log)
    /\ log = List.app before
               [MakeOutputDir "/home/u/scripts/../results/search_queries";
                OpenFile "/home/u/scripts/../results/search_queries/scopus_search_20250301_120000.json";
                WriteJson "/home/u/scripts/../results/search_queries/scopus_search_20250301_120000.json"
                  all_entries;
                OpenFile "/home/u/scripts/../results/search_queries/scopus_search_20250301_120000.csv";
                WriteRow "/home/u/scripts/../results/search_queries/scopus_search_20250301_120000.csv"
                  header;
                WriteRows "/home/u/scripts/../results/search_queries/scopus_search_20250301_120000.csv"
                  rows]
    /\ List.length rows = 3%nat.
Proof.
  destruct (search_database (paging_provider (sample_hits 3) 50) (Some "key")
              EmptyString true sample_cwd sample_time 1
              (Some ["sleep"]) None None None None "scopus" (Some 50) true [])
    as [[[all_entries|e] log]|] eqn:Hrun;
    [|exfalso; vm_compute in Hrun; discriminate Hrun..].
  destruct (search_database_files (paging_provider (sample_hits 3) 50)
              (Some "key") EmptyString true sample_cwd sample_time 1
              (Some ["sleep"]) None None None None
              "scopus" (Some 50) true [] all_entries log Hrun)
    as (before & after & _ & Hlog & _ & first & others & header & rows
        & Hall & _ & _ & -> & Hrows).
  exists all_entries, log, before, header, rows.
  split; [reflexivity|]. split; [exact Hlog|].
  rewrite Hrows. vm_compute in Hrun. injection Hrun as <- _. reflexivity.
Defined.

Lemma search_loop_capped_witness :
  exists log,
    search_loop (paging_provider (sample_hits 120) 50) 2 scopus_url
      sample_headers sample_params (Some 60) [] []
    = Some (Ok (firstn 100 (sample_hits 120)), log)
    /\ fetches log = 2%nat.
Proof.
  destruct (search_loop_capped (paging_provider (sample_hits 120) 50)
              scopus_url sample_headers (sample_hits 120) 50 60 sample_params
              2 []
              (paging_provider_serves (sample_hits 120) 50 scopus_url
                 sample_headers))
    as (log & Hrun & Hcount & _).
  - lia.
  - lia.
  - vm_compute. lia.
  - reflexivity.
  - vm_compute. lia.
  - exists log. split; [exact Hrun|exact Hcount].
Defined.

(** ** Paging numbers sent as text *)

Lemma digits_value_acc d : forall p,
  digits_value (NilEmpty.string_of_uint d) (Z.pos p) true
  = Some (Z.pos (Pos.of_uint_acc d p)).
Proof.
  induction d; intros p; cbn [NilEmpty.string_of_uint digits_value];
    try reflexivity;
    match goal with
    | |- context [digit_of ?c] =>
        let v := eval vm_compute in (digit_of c) in
        change (digit_of c) with v
    end; cbv iota beta;
    match goal with
    | |- digits_value _ ?a true = _ =>
        match goal with
        | |- _ = Some (Z.pos (Pos.of_uint_acc _ ?q)) => idtac
        end
    end.
  all: cbn [Pos.of_uint_acc].
  all: match goal with
       | |- digits_value _ ?a true = Some (Z.pos (Pos.of_uint_acc _ ?q)) =>
           replace a with (Z.pos q) by lia
       end; apply IHd.
Qed.

Lemma digits_value_uint d :
  digits_value (NilEmpty.string_of_uint d) 0 true = Some (Z.of_uint d).
Proof.
  unfold Z.of_uint.
  induction d; cbn [NilEmpty.string_of_uint digits_value Pos.of_uint];
    try reflexivity;
    match goal with
    | |- context [digit_of ?c] =>
        let v := eval vm_compute in (digit_of c) in
        change (digit_of c) with v
    end; cbv iota beta; cbn [Z.mul Z.add]; try exact IHd;
    cbn [Z.of_N]; apply digits_value_acc.
Qed.

Lemma digits_value_start d b acc :
  d <> Decimal.Nil ->
  digits_value (NilEmpty.string_of_uint d) acc b
  = digits_value (NilEmpty.string_of_uint d) acc true.
Proof.
  destruct d; intros H; try contradiction; reflexivity.
Qed.

Lemma rstrip_uint d :
  int_rstrip (NilEmpty.string_of_uint d) = NilEmpty.string_of_uint d.
Proof.
  induction d; cbn [NilEmpty.string_of_uint int_rstrip]; try reflexivity;
    rewrite IHd; destruct (NilEmpty.string_of_uint d); reflexivity.
Qed.

Lemma lstrip_uint d :
  int_lstrip (NilEmpty.string_of_uint d) = NilEmpty.string_of_uint d.
Proof. destruct d; reflexivity. Qed.

Lemma digits_value_text d :
  digits_value (NilZero.string_of_uint d) 0 false = Some (Z.of_uint d).
Proof.
  destruct d; try reflexivity;
    match goal with
    | |- _ = Some (Z.of_uint ?u) =>
        exact (eq_trans (digits_value_start u false 0 ltac:(discriminate))
                 (digits_value_uint u))
    end.
Qed.

Lemma strip_text d :
  int_rstrip (int_lstrip (NilZero.string_of_uint d))
  = NilZero.string_of_uint d.
Proof.
  destruct d; try reflexivity;
    unfold NilZero.string_of_uint;
    rewrite lstrip_uint; apply rstrip_uint.
Qed.

Lemma text_nonempty d : exists c s, NilZero.string_of_uint d = String c s.
Proof. destruct d; cbn; eauto. Qed.

Lemma digits_within_limit_text d :
  (count_digits (NilZero.string_of_uint d) <= int_max_str_digits)%nat ->
  digits_within_limit (NilZero.string_of_uint d) = Some (Z.of_uint d).
Proof.
  intros H. unfold digits_within_limit. rewrite digits_value_text.
  destruct (Nat.ltb_spec int_max_str_digits
              (count_digits (NilZero.string_of_uint d))); [lia|reflexivity].
Qed.

(** Decimal text in its plain form, of no more digits than [int] admits,
    is read as the number it writes. *)
Lemma int_of_string_of_Z n :
  (count_digits (Str.of_Z n) <= int_max_str_digits)%nat ->
  int_of_string (Str.of_Z n) = Some n.
Proof.
  intros Hlimit. rewrite <- (DecimalZ.of_to n) at 2. unfold Str.of_Z in *.
  destruct (Z.to_int n) as [d|d]; cbn [NilZero.string_of_int Z.of_int] in *.
  - pose proof (digits_within_limit_text d Hlimit) as H.
    unfold int_of_string. rewrite strip_text.
    destruct d; try reflexivity; exact H.
  - change (count_digits (String "-" (NilZero.string_of_uint d)))
      with (count_digits (NilZero.string_of_uint d)) in Hlimit.
    unfold int_of_string.
    change (int_lstrip (String "-" (NilZero.string_of_uint d)))
      with (String "-" (NilZero.string_of_uint d)).
    cbn [int_rstrip].
    assert (Hr : int_rstrip (NilZero.string_of_uint d)
                 = NilZero.string_of_uint d).
    { destruct d; try reflexivity; apply rstrip_uint. }
    rewrite Hr. destruct (text_nonempty d) as (c & s & E). rewrite E.
    rewrite <- E. rewrite (digits_within_limit_text d Hlimit). reflexivity.
Qed.

Lemma digits_over_limit_text s :
  (int_max_str_digits < count_digits s)%nat ->
  digits_within_limit s = None.
Proof.
  intros H. unfold digits_within_limit.
  destruct (digits_value s 0 false); [|reflexivity].
  destruct (Nat.ltb_spec int_max_str_digits (count_digits s));
    [reflexivity|lia].
Qed.

(** Over the limit, [int] refuses the text. *)
Lemma int_of_string_over_limit n :
  (int_max_str_digits < count_digits (Str.of_Z n))%nat ->
  int_of_string (Str.of_Z n) = None.
Proof.
  unfold Str.of_Z.
  destruct (Z.to_int n) as [d|d]; cbn [NilZero.string_of_int]; intros Hlimit.
  - unfold int_of_string. rewrite strip_text.
    pose proof (digits_over_limit_text _ Hlimit) as H.
    destruct d; try exact H; reflexivity.
  - change (count_digits (String "-" (NilZero.string_of_uint d)))
      with (count_digits (NilZero.string_of_uint d)) in Hlimit.
    unfold int_of_string.
    change (int_lstrip (String "-" (NilZero.string_of_uint d)))
      with (String "-" (NilZero.string_of_uint d)).
    cbn [int_rstrip].
    assert (Hr : int_rstrip (NilZero.string_of_uint d)
                 = NilZero.string_of_uint d).
    { destruct d; try reflexivity; apply rstrip_uint. }
    rewrite Hr. destruct (text_nonempty d) as (c & s & E). rewrite E.
    rewrite <- E. rewrite (digits_over_limit_text _ Hlimit). reflexivity.
Qed.

(** X11.  The three paging numbers are read from decimal text, as the
    search endpoints send them, exactly as from numbers: text in plain
    decimal form (an optional minus sign, then the digits) of at most 4300
    digits is read as the number it writes, and the entries are handed on
    as they are.  A total of more digits is refused by [int], and the page
    is given up as unreadable. *)
Theorem iterate_search_info_text total offset per_page entries :
  ((count_digits (Str.of_Z total) <= int_max_str_digits)%nat ->
   (count_digits (Str.of_Z offset) <= int_max_str_digits)%nat ->
   (count_digits (Str.of_Z per_page) <= int_max_str_digits)%nat ->
   iterate_search_info
     (Parsed (search_page_text total offset per_page entries))
   = Some (entries, total, offset, per_page))
  /\ ((int_max_str_digits < count_digits (Str.of_Z total))%nat ->
      iterate_search_info
        (Parsed (search_page_text total offset per_page entries))
      = None).
Proof.
  split.
  - intros Ht Ho Hp. unfold iterate_search_info, search_page_text.
    cbn [fetched_subscript subscript get_method dict_get String.eqb Ascii.eqb
           Bool.eqb bind py_int].
    rewrite (int_of_string_of_Z total Ht), (int_of_string_of_Z offset Ho),
      (int_of_string_of_Z per_page Hp).
    reflexivity.
  - intros Ht. unfold iterate_search_info, search_page_text.
    cbn [fetched_subscript subscript get_method dict_get String.eqb Ascii.eqb
           Bool.eqb bind py_int].
    rewrite (int_of_string_over_limit total Ht). reflexivity.
Qed.

Lemma iterate_search_info_text_witness :
  iterate_search_info
    (Parsed (JObj [("search-results",
                    JObj [("opensearch:totalResults", JStr "120");
                          ("opensearch:startIndex", JStr "50");
                          ("opensearch:itemsPerPage", JStr "-1");
                          ("entry", JNull)])]))
  = Some (JNull, 120, 50, -1)
  /\ iterate_search_info
       (Parsed (search_page_text (10 ^ 4300) 0 50 JNull))
     = None.
Proof.
  split.
  - apply (proj1 (iterate_search_info_text 120 50 (-1) JNull));
      vm_compute; lia.
  - apply (proj2 (iterate_search_info_text (10 ^ 4300) 0 50 JNull)).
    apply Nat.ltb_lt. vm_compute. reflexivity.
Defined.

(** ** The enrichment loop *)

Lemma set_nth_middle {A : Type} (pre : list A) (x y : A) (post : list A) :
  set_nth (List.length pre) y (List.app pre (x :: post))
  = List.app pre (y :: post).
Proof.
  induction pre as [|z pre IH]; [reflexivity|].
  cbn [List.length List.app set_nth]. rewrite IH. reflexivity.
Qed.

Lemma nth_error_middle {A : Type} (pre : list A) (x : A) (post : list A) :
  nth_error (List.app pre (x :: post)) (List.length pre) = Some x.
Proof.
  induction pre as [|z pre IH]; [reflexivity|]. exact IH.
Qed.

Lemma dict_set_has kv key v :
  existsb (fun p => (fst p =? key)%string) (dict_set kv key v) = true.
Proof.
  induction kv as [|[k w] kv IH]; cbn [dict_set existsb fst].
  - rewrite String.eqb_refl. reflexivity.
  - destruct (String.eqb_spec k key) as [->|Hk]; cbn [existsb fst].
    + rewrite String.eqb_refl. reflexivity.
    + rewrite IH. apply orb_true_r.
Qed.

Lemma dict_set_keeps kv key key' v :
  existsb (fun p => (fst p =? key)%string) kv = true ->
  existsb (fun p => (fst p =? key)%string) (dict_set kv key' v) = true.
Proof.
  induction kv as [|[k w] kv IH]; cbn [dict_set existsb fst]; [discriminate|].
  intros H. destruct (String.eqb_spec k key') as [->|Hk]; cbn [existsb fst].
  - exact H.
  - destruct (k =? key)%string; [reflexivity|]. apply IH, H.
Qed.

Lemma with_counters_has_both kv policy news :
  has_both_counters (with_counters kv policy news) = Ok true.
Proof.
  unfold has_both_counters, with_counters. cbn [contains_key bind].
  rewrite (dict_set_keeps _ "policy_citation_count" "news_mentions"),
    dict_set_has by apply dict_set_has.
  reflexivity.
Qed.

Lemma insert_desc_perm {A : Type} (x : (sort_key * sort_key) * A) l l' :
  insert_desc x l = Ok l' -> Permutation (x :: l) l'.
Proof.
  revert l'. induction l as [|y l IH]; intros l'; cbn [insert_desc].
  - intros [= <-]. reflexivity.
  - destruct (tuple_lt (fst x) (fst y)) as [[|]|e]; cbn [bind];
      [|intros [= <-]; reflexivity|discriminate].
    destruct (insert_desc x l) as [r|e]; [|discriminate]. cbn [bind].
    intros [= <-]. rewrite perm_swap. apply perm_skip, IH. reflexivity.
Qed.

Lemma sort_desc_perm {A : Type} (l : list ((sort_key * sort_key) * A)) l' :
  sort_desc l = Ok l' -> Permutation l l'.
Proof.
  revert l'. induction l as [|x l IH]; intros l'; cbn [sort_desc].
  - intros [= <-]. constructor.
  - destruct (sort_desc l) as [s|e]; [|discriminate]. cbn [bind].
    intros H. apply insert_desc_perm in H. rewrite <- H.
    apply perm_skip, IH. reflexivity.
Qed.

Lemma map_snd_combine {A B : Type} (keys : list A) (l : list B) :
  List.length keys = List.length l -> map snd (combine keys l) = l.
Proof.
  revert l. induction keys as [|k keys IH]; intros [|x l]; cbn;
    try discriminate; [reflexivity|].
  intros [= H]. rewrite (IH _ H). reflexivity.
Qed.

(** When the sort returns, it returns a rearrangement of its input. *)
Lemma sorted_reverse_perm key l l' :
  sorted_reverse key l = Ok l' -> Permutation l l'.
Proof.
  unfold sorted_reverse.
  destruct (map_result key l) as [keys|e] eqn:Hk; [|discriminate].
  cbn [bind].
  destruct (sort_desc (combine keys l)) as [s|e] eqn:Hs; [|discriminate].
  cbn [bind]. intros [= <-].
  rewrite <- (map_snd_combine keys l) at 1
    by apply (map_result_length _ _ _ Hk).
  apply Permutation_map, sort_desc_perm, Hs.
Qed.

Lemma filter_result_all {A : Type} (f : A -> result bool) (l : list A) :
  Forall (fun x => f x = Ok true) l -> filter_result f l = Ok l.
Proof.
  induction 1 as [|x l Hx _ IH]; [reflexivity|].
  cbn [filter_result]. rewrite Hx, IH. reflexivity.
Qed.

Section Enrichment.

Variable http : request -> response.
Variable api_key : option string.
Variable inst_token : string.
Variable ipython : bool.
Variable cwd : string.
Variable clock : list event -> string -> string.

(** One turn on a record that has a DOI. *)
Lemma metrics_step_with_doi pre kv doi post article_doi log :
  dict_get kv "prism:doi" = Some doi ->
  metrics_step http api_key inst_token (List.length pre)
    (List.app pre (JObj kv :: post), article_doi) log
  = match plumx_lookup http api_key inst_token doi with
    | Ok (policy, news) =>
        (Ok (List.app pre (with_counters kv policy news :: post), Some doi),
         append_item log (Get (plumx_request api_key inst_token doi)))
    | Raise e =>
        (Raise e, append_item log (Get (plumx_request api_key inst_token doi)))
    end.
Proof.
  intros Hdoi. unfold metrics_step, plumx_lookup, bind_io, lift, ret.
  rewrite nth_error_middle.
  replace (subscript (JObj kv) "prism:doi") with (Ok doi : result json)
    by (cbn [subscript]; rewrite Hdoi; reflexivity).
  rewrite fetch_data_log.
  destruct (fst (fetch_data http (PlumxUrl doi)
                   (write_headers api_key inst_token "application/json")
                   None [])) as [my_request|e]; [|reflexivity].
  cbn [bind].
  destruct (access_citation_counts my_request "both") as [counts|e];
    [|reflexivity].
  cbn [bind].
  destruct (subscript (JObj counts) "policy") as [policy|e]; [|reflexivity].
  cbn [bind]. rewrite nth_error_middle. cbn [set_item].
  rewrite set_nth_middle.
  destruct (subscript (JObj counts) "news") as [news|e]; [|reflexivity].
  cbn [bind]. rewrite set_nth_middle. reflexivity.
Qed.

Lemma metrics_loop_with_dois todo :
  forall pre article_doi log l article_doi' log',
    Forall (fun e => doi_of e <> None) todo ->
    metrics_loop http api_key inst_token
      (seq (List.length pre) (List.length todo))
      (List.app pre todo, article_doi) log
    = (Ok (l, article_doi'), log') ->
    exists todo',
      l = List.app pre todo'
      /\ Forall2 (enriched http api_key inst_token) todo todo'
      /\ log' = List.app log (plumx_requests api_key inst_token todo).
Proof.
  induction todo as [|e todo IH]; intros pre d log l d' log' Hdois.
  - cbn. intros [= <- <- <-]. exists []. rewrite !app_nil_r.
    repeat split. constructor.
  - inversion Hdois as [|? ? He Htodo]; subst.
    destruct e as [| | | | |kv]; try (exfalso; apply He; reflexivity).
    cbn [doi_of] in He.
    destruct (dict_get kv "prism:doi") as [doi|] eqn:Hdoi;
      [|exfalso; apply He; reflexivity].
    cbn [List.length seq metrics_loop]. unfold bind_io at 1.
    rewrite (metrics_step_with_doi pre kv doi todo d log Hdoi).
    destruct (plumx_lookup http api_key inst_token doi) as [[policy news]|err]
      eqn:Hlookup; [|discriminate].
    replace (List.app pre (with_counters kv policy news :: todo))
      with (List.app (List.app pre [with_counters kv policy news]) todo)
      by (rewrite <- app_assoc; reflexivity).
    replace (S (List.length pre))
      with (List.length (List.app pre [with_counters kv policy news]))
      by (rewrite length_app; cbn; lia).
    intros Hrun. apply IH in Hrun; [|exact Htodo].
    destruct Hrun as (todo' & -> & Hall & ->).
    exists (with_counters kv policy news :: todo'). split; [|split].
    + rewrite <- app_assoc. reflexivity.
    + constructor; [|exact Hall].
      exists kv, doi, policy, news. repeat split; assumption.
    + unfold append_item, plumx_requests. cbn [map doi_of]. rewrite Hdoi.
      rewrite <- app_assoc. reflexivity.
Qed.

(** X12.  When every record has a DOI and the call returns, no record has
    been lost or invented: the list returned is a rearrangement of the
    input records, each with the two counters of its own DOI set and its
    other fields untouched; and exactly one request per record was issued,
    in input order, each for that record's DOI. *)
Theorem get_plumx_metrics_enriches entries log l log' :
  Forall (fun e => doi_of e <> None) entries ->
  get_plumx_metrics http api_key inst_token ipython cwd clock
    entries false log = (Ok l, log') ->
  exists enriched_entries,
    Forall2 (enriched http api_key inst_token) entries enriched_entries
    /\ Permutation enriched_entries l
    /\ log' = List.app log (plumx_requests api_key inst_token entries).
Proof.
  intros Hdois. unfold get_plumx_metrics. unfold bind_io at 1.
  destruct (metrics_loop http api_key inst_token
              (seq 0 (List.length entries)) (entries, None) log)
    as [[[done d]|e] log1] eqn:Hloop; [|discriminate].
  apply (metrics_loop_with_dois entries [] None log) in Hloop; [|exact Hdois].
  destruct Hloop as (todo' & -> & Hall & ->). cbn [List.app fst].
  assert (Hkeep : filter_result has_both_counters todo' = Ok todo').
  { apply filter_result_all.
    clear -Hall. induction Hall as [|e e' ? ? (kv & doi & p & n & _ & _ & _ & ->)];
      constructor; [apply with_counters_has_both|assumption]. }
  unfold bind_io, lift, save_metrics, ret. rewrite Hkeep.
  destruct (sorted_reverse entry_sorter todo') as [s|e] eqn:Hsort;
    [|discriminate].
  intros [= <- <-]. exists todo'. split; [exact Hall|]. split; [|reflexivity].
  apply (sorted_reverse_perm _ _ _ Hsort).
Qed.

End Enrichment.

Lemma get_plumx_metrics_enriches_witness :
  exists l log,
    get_plumx_metrics plumx_provider (Some "key") EmptyString
      true sample_cwd sample_time
      [JObj [("prism:doi", JStr "10.1/a"); ("dc:title", JStr "A")];
       JObj [("dc:title", JStr "B"); ("prism:doi", JStr "10.1/b")]]
      false []
    = (Ok l, log)
    /\ List.length l = 2%nat
    /\ log = [Get (plumx_request (Some "key") EmptyString (JStr "10.1/a"));
              Get (plumx_request (Some "key") EmptyString (JStr "10.1/b"))].
Proof.
  assert (Hdois : Forall (fun e => doi_of e <> None)
                    [JObj [("prism:doi", JStr "10.1/a"); ("dc:title", JStr "A")];
                     JObj [("dc:title", JStr "B"); ("prism:doi", JStr "10.1/b")]])
    by (repeat constructor; discriminate).
  destruct (get_plumx_metrics_enriches plumx_provider (Some "key") EmptyString
    true sample_cwd sample_time
              _ [] _ _ Hdois eq_refl)
    as (enriched_entries & Hall & Hperm & Hlog).
  eexists _, _. split; [reflexivity|]. split; [|exact Hlog].
  rewrite <- (Permutation_length Hperm).
  symmetry. apply (Forall2_length Hall).
Defined.

Lemma dict_get_set_same kv key v :
  dict_get (dict_set kv key v) key = Some v.
Proof.
  induction kv as [|[k w] kv IH]; cbn [dict_set dict_get].
  - rewrite String.eqb_refl. reflexivity.
  - destruct (String.eqb_spec k key) as [->|Hk]; cbn [dict_get].
    + rewrite String.eqb_refl. reflexivity.
    + apply String.eqb_neq in Hk. rewrite Hk. exact IH.
Qed.

Lemma dict_get_set_other kv key key' v :
  key <> key' ->
  dict_get (dict_set kv key' v) key = dict_get kv key.
Proof.
  intros Hne.
  induction kv as [|[k w] kv IH]; cbn [dict_set dict_get].
  - destruct (String.eqb_spec key' key) as [->|_]; [contradiction|reflexivity].
  - destruct (String.eqb_spec k key') as [->|Hk]; cbn [dict_get].
    + destruct (String.eqb_spec key' key) as [->|_];
        [contradiction|reflexivity].
    + rewrite IH. reflexivity.
Qed.

Lemma counters_null_marked kv news :
  counters (with_counters kv JNull news) = Some None.
Proof.
  unfold counters, with_counters. cbn [subscript].
  rewrite dict_get_set_other by discriminate.
  rewrite !dict_get_set_same. reflexivity.
Qed.

Lemma sort_desc_all_null l :
  Forall (fun e => counters e = Some None) l ->
  sort_desc (map keyed l) = Ok (map keyed l).
Proof.
  induction 1 as [|e l He Hl IH]; [reflexivity|].
  cbn [map sort_desc]. rewrite IH. cbn [bind].
  destruct Hl as [|y l Hy _]; [reflexivity|].
  cbn [map insert_desc]. unfold keyed at 1 2. cbn [fst].
  rewrite tuple_lt_rank. unfold rank. rewrite He, Hy. reflexivity.
Qed.

(** Records whose policy count is null all tie: the sort hands them back
    in the order they came in. *)
Lemma sorted_reverse_all_null l :
  Forall (fun e => counters e = Some None) l ->
  sorted_reverse entry_sorter l = Ok l.
Proof.
  intros H. unfold sorted_reverse.
  assert (Hc : Forall (fun e => counters e <> None) l).
  { eapply Forall_impl; [|exact H]. intros e He. rewrite He. discriminate. }
  rewrite (keys_of_counted l Hc). cbn [bind].
  rewrite combine_keyed, (sort_desc_all_null l H). cbn [bind].
  rewrite map_map. cbn [keyed snd]. rewrite map_id. reflexivity.
Qed.

Section NoData.

Variable http : request -> response.
Variable api_key : option string.
Variable inst_token : string.
Variable ipython : bool.
Variable cwd : string.
Variable clock : list event -> string -> string.

Lemma metrics_loop_runs todo :
  forall todo' pre article_doi log,
    Forall2 (enriched http api_key inst_token) todo todo' ->
    exists article_doi',
      metrics_loop http api_key inst_token
        (seq (List.length pre) (List.length todo))
        (List.app pre todo, article_doi) log
      = (Ok (List.app pre todo', article_doi'),
         List.app log (plumx_requests api_key inst_token todo)).
Proof.
  induction todo as [|e todo IH]; intros todo' pre d log Hall;
    inversion Hall as [|? e' ? rest (kv & doi & p & n & -> & Hdoi & Hl & ->) Hrest];
    subst.
  - exists d. cbn. rewrite !app_nil_r. reflexivity.
  - cbn [List.length seq metrics_loop]. unfold bind_io at 1.
    rewrite (metrics_step_with_doi http api_key inst_token pre kv doi todo d
               log Hdoi), Hl.
    replace (List.app pre (with_counters kv p n :: todo))
      with (List.app (List.app pre [with_counters kv p n]) todo)
      by (rewrite <- app_assoc; reflexivity).
    replace (S (List.length pre))
      with (List.length (List.app pre [with_counters kv p n]))
      by (rewrite length_app; cbn; lia).
    destruct (IH rest (List.app pre [with_counters kv p n]) (Some doi)
                (append_item log (Get (plumx_request api_key inst_token doi)))
                Hrest) as (d' & ->).
    exists d'. unfold append_item, plumx_requests. cbn [map doi_of].
    rewrite Hdoi, <- !app_assoc. reflexivity.
Qed.

(** X13.  When the provider has no category data for any record (each has
    a DOI), the call returns: every record comes back with both counters
    null, in the order it came in, after one request per record. *)
Theorem get_plumx_metrics_no_data entries log :
  Forall (no_data http api_key inst_token) entries ->
  get_plumx_metrics http api_key inst_token ipython cwd clock entries false log
  = (Ok (map null_marked entries),
     List.app log (plumx_requests api_key inst_token entries)).
Proof.
  intros H.
  assert (Hall : Forall2 (enriched http api_key inst_token) entries
                   (map null_marked entries)).
  { induction H as [|e l (doi & data & err & Hdoi & Hdata & Hno) _ IH];
      cbn [map]; constructor; [|exact IH].
    destruct e as [| | | | |kv]; try discriminate Hdoi.
    exists kv, doi, JNull, JNull. repeat split; [exact Hdoi|].
    unfold plumx_lookup. rewrite Hdata. cbn [bind].
    rewrite (access_citation_counts_unreadable data "both" err Hno).
    reflexivity. }
  unfold get_plumx_metrics. unfold bind_io at 1.
  destruct (metrics_loop_runs entries (map null_marked entries) [] None log
              Hall) as (d & Hrun).
  cbn [List.app List.length] in Hrun. rewrite Hrun. cbn [fst].
  assert (Hobj : Forall (fun e' => exists kv, e' = with_counters kv JNull JNull)
                   (map null_marked entries)).
  { clear -H. induction H as [|e l (doi & _ & _ & Hdoi & _) _ IH];
      cbn [map]; constructor; [|exact IH].
    destruct e as [| | | | |kv]; try discriminate Hdoi.
    exists kv. reflexivity. }
  unfold bind_io, lift, save_metrics, ret.
  rewrite filter_result_all, sorted_reverse_all_null; [reflexivity| |].
  - eapply Forall_impl; [|exact Hobj]. intros e' (kv & ->).
    apply counters_null_marked.
  - eapply Forall_impl; [|exact Hobj]. intros e' (kv & ->).
    apply with_counters_has_both.
Qed.

(** X14.  With the CSV file asked for, an empty input issues no request
    and returns nothing: under IPython the output directory is made, the
    CSV file is opened and IndexError is raised on the first record needed
    for the header, so the file is left empty; elsewhere
    [filepath_to_output] raises before anything is made.  And whenever the
    call returns, it ran under IPython, the list is not empty and the last
    events are the output directory made and the one CSV file opened and
    written: the header from the keys of the first record returned, then
    one row per record returned. *)
Theorem get_plumx_metrics_csv entries log :
  let output_dir :=
    path_join (path_join (path_join cwd "..") "results") "search_queries" in
  let csv_path (before : list event) :=
    (output_dir ++ "/plumx_output_"
       ++ clock (List.app before [MakeOutputDir output_dir]) "%Y%m%d_%H%M%S"
       ++ ".csv")%string in
  get_plumx_metrics http api_key inst_token ipython cwd clock [] true log
  = (if ipython
     then (Raise IndexError,
           List.app log [MakeOutputDir output_dir; OpenFile (csv_path log)])
     else (Raise (UnboundLocalError "__file__"), log))
  /\ forall l log',
      get_plumx_metrics http api_key inst_token ipython cwd clock entries true
        log
      = (Ok l, log') ->
      exists first rest header rows before,
        ipython = true
        /\ l = first :: rest
        /\ keys_method first = Ok header
        /\ map_result values_method l = Ok rows
        /\ List.length rows = List.length l
        /\ log' = List.app before
                    [MakeOutputDir output_dir; OpenFile (csv_path before);
                     WriteRow (csv_path before) header;
                     WriteRows (csv_path before) rows]
        /\ fetches before = fetches log'.
Proof.
  intros output_dir csv_path. split.
  - unfold get_plumx_metrics. unfold bind_io at 1.
    cbn [List.length seq metrics_loop ret fst].
    unfold bind_io, lift.
    cbn [filter_result sorted_reverse map_result bind combine sort_desc map].
    rewrite save_metrics_unfold. destruct ipython.
    + rewrite filepath_to_output_ipython. cbv zeta. rewrite write_csv_unfold.
      rewrite <- app_assoc. reflexivity.
    + rewrite filepath_to_output_script. reflexivity.
  - intros l log'.
    unfold get_plumx_metrics. unfold bind_io at 1.
    destruct (metrics_loop _ _ _ _ _ _) as [[[done d]|e] log1];
      [|discriminate].
    unfold bind_io, lift. cbn [fst].
    destruct (filter_result has_both_counters done) as [kept|e];
      [|discriminate].
    destruct (sorted_reverse entry_sorter kept) as [sorted|e];
      [|discriminate].
    rewrite save_metrics_unfold.
    destruct ipython;
      [rewrite filepath_to_output_ipython
      |rewrite filepath_to_output_script; discriminate].
    cbv zeta. rewrite write_csv_unfold.
    destruct sorted as [|first rest]; [discriminate|].
    destruct (keys_method first) as [header|e] eqn:Hkeys; [|discriminate].
    destruct (map_result values_method (first :: rest)) as [rows|e] eqn:Hrows;
      [|discriminate].
    intros [= <- <-].
    exists first, rest, header, rows, log1.
    split; [reflexivity|]. split; [reflexivity|]. split; [exact Hkeys|].
    split; [exact Hrows|].
    split; [apply (map_result_length _ _ _ Hrows)|].
    split; [rewrite <- app_assoc; reflexivity|].
    rewrite !fetches_app. cbn. lia.
Qed.

End NoData.

Lemma get_plumx_metrics_no_data_witness :
  get_plumx_metrics refusing_provider (Some "key") EmptyString
    true sample_cwd sample_time
    [JObj [("prism:doi", JStr "10.1/b"); ("dc:title", JStr "B")];
     JObj [("prism:doi", JStr "10.1/a")]]
    false []
  = (Ok [JObj [("prism:doi", JStr "10.1/b"); ("dc:title", JStr "B");
               ("policy_citation_count", JNull); ("news_mentions", JNull)];
         JObj [("prism:doi", JStr "10.1/a");
               ("policy_citation_count", JNull); ("news_mentions", JNull)]],
     [Get (plumx_request (Some "key") EmptyString (JStr "10.1/b"));
      Get (plumx_request (Some "key") EmptyString (JStr "10.1/a"))]).
Proof.
  apply (get_plumx_metrics_no_data refusing_provider (Some "key") EmptyString
    true sample_cwd sample_time
           [JObj [("prism:doi", JStr "10.1/b"); ("dc:title", JStr "B")];
            JObj [("prism:doi", JStr "10.1/a")]] []).
  repeat constructor;
    eexists _, (Parsed error_document), (KeyError "count_categories");
    repeat split.
Defined.

Lemma get_plumx_metrics_csv_witness :
  exists l log header rows before,
    get_plumx_metrics plumx_provider (Some "key") EmptyString true sample_cwd
      sample_time [JObj [("prism:doi", JStr "10.1/a")]] true []
    = (Ok l, log)
    /\ log = List.app before
               [MakeOutputDir "/home/u/scripts/../results/search_queries";
                OpenFile "/home/u/scripts/../results/search_queries/plumx_output_20250301_120000.csv";
                WriteRow "/home/u/scripts/../results/search_queries/plumx_output_20250301_120000.csv"
                  header;
                WriteRows "/home/u/scripts/../results/search_queries/plumx_output_20250301_120000.csv"
                  rows]
    /\ List.length rows = List.length l.
Proof.
  destruct (get_plumx_metrics plumx_provider (Some "key") EmptyString true
              sample_cwd sample_time [JObj [("prism:doi", JStr "10.1/a")]]
              true [])
    as [[l|e] log] eqn:Hrun; [|exfalso; vm_compute in Hrun; discriminate Hrun].
  destruct (proj2 (get_plumx_metrics_csv plumx_provider (Some "key")
                     EmptyString true sample_cwd sample_time
                     [JObj [("prism:doi", JStr "10.1/a")]] [])
              l log Hrun)
    as (first & rest & header & rows & before & _ & Hl & Hh & Hr & Hlen & Hlog
        & _).
  exists l, log, header, rows, before.
  split; [reflexivity|]. split; [exact Hlog|exact Hlen].
Defined.

(** ** Object Retrieval *)

Lemma ltb_total (x y : string) :
  String.ltb x y = false -> x <> y -> String.ltb y x = true.
Proof.
  unfold String.ltb. intros Hlt Hne.
  rewrite String.compare_antisym.
  destruct (String.compare x y) eqn:E; cbn; try reflexivity; try discriminate.
  apply String.compare_eq_iff in E. contradiction.
Qed.

Lemma insert_unique_In s x l :
  In s (insert_unique x l) <-> s = x \/ In s l.
Proof.
  induction l as [|y l IH]; cbn [insert_unique].
  - cbn. intuition.
  - destruct (String.eqb_spec x y) as [->|Hne].
    + cbn. intuition.
    + destruct (String.ltb x y); cbn [In] in *; rewrite ?IH; intuition.
Qed.

Lemma sorted_set_In s l : In s (sorted_set l) <-> In s l.
Proof.
  induction l as [|x l IH]; cbn [sorted_set fold_right]; [reflexivity|].
  fold (sorted_set l). rewrite insert_unique_In, IH. cbn. intuition.
Qed.

Lemma insert_unique_HdRel a x l :
  String.ltb a x = true ->
  HdRel (fun a b => String.ltb a b = true) a l ->
  HdRel (fun a b => String.ltb a b = true) a (insert_unique x l).
Proof.
  intros Hax Hal. destruct l as [|y l]; cbn [insert_unique].
  - constructor. exact Hax.
  - destruct (x =? y)%string; [exact Hal|].
    destruct (String.ltb x y); constructor; [exact Hax|].
    inversion Hal; assumption.
Qed.

Lemma insert_unique_increasing x l :
  increasing l -> increasing (insert_unique x l).
Proof.
  unfold increasing.
  induction l as [|y l IH]; intros Hl; cbn [insert_unique].
  - repeat constructor.
  - destruct (String.eqb_spec x y) as [->|Hne]; [exact Hl|].
    destruct (String.ltb x y) eqn:Hxy.
    + constructor; [exact Hl|]. constructor. exact Hxy.
    + inversion Hl as [|? ? Hs Hh]; subst.
      constructor; [apply IH, Hs|].
      apply insert_unique_HdRel; [|exact Hh].
      apply ltb_total; [exact Hxy|exact Hne].
Qed.

Lemma sorted_set_increasing l : increasing (sorted_set l).
Proof.
  induction l as [|x l IH]; [constructor|].
  apply insert_unique_increasing, IH.
Qed.

Lemma graphic_refs_of objects refs :
  Forall2 (fun obj ref => subscript obj "@ref" = Ok (JStr ref)) objects refs ->
  exists marks,
    map_result graphic_ref objects = Ok marks
    /\ somes marks = filter (Str.contains "gr") refs.
Proof.
  induction 1 as [|obj ref objects refs Href _ (marks & Hm & Hs)].
  - exists []. split; reflexivity.
  - cbn [map_result]. unfold graphic_ref at 1. rewrite Href.
    cbn [bind contains_key]. rewrite Hm. cbn [filter].
    destruct (Str.contains "gr" ref); cbn [bind].
    + exists (Some ref :: marks). split; [reflexivity|].
      cbn [somes]. rewrite Hs. reflexivity.
    + exists (None :: marks). split; [reflexivity|]. exact Hs.
Qed.

(** X15.  From objects whose "@ref" is a string, the graphics selected are
    exactly the references that contain "gr", each once, in strictly
    increasing order. *)
Theorem select_graphics_sorted_refs objects refs :
  Forall2 (fun obj ref => subscript obj "@ref" = Ok (JStr ref)) objects refs ->
  exists graphics,
    select_graphics (JArr objects) = Ok graphics
    /\ increasing graphics
    /\ forall s, In s graphics <-> In s refs /\ Str.contains "gr" s = true.
Proof.
  intros H. destruct (graphic_refs_of objects refs H) as (marks & Hm & Hs).
  exists (sorted_set (filter (Str.contains "gr") refs)).
  split; [|split].
  - unfold select_graphics. cbn [py_iter bind]. rewrite Hm. cbn [bind].
    rewrite Hs. reflexivity.
  - apply sorted_set_increasing.
  - intros s. rewrite sorted_set_In. apply filter_In.
Qed.

Lemma select_graphics_sorted_refs_witness :
  select_graphics
    (JArr [object_reference "gr2" "IMAGE" "a";
           object_reference "fig1" "IMAGE" "b";
           object_reference "gr1" "IMAGE" "c";
           object_reference "gr2" "IMAGE-THUMBNAIL" "d"])
  = Ok ["gr1"; "gr2"].
Proof.
  destruct (select_graphics_sorted_refs
              [object_reference "gr2" "IMAGE" "a";
               object_reference "fig1" "IMAGE" "b";
               object_reference "gr1" "IMAGE" "c";
               object_reference "gr2" "IMAGE-THUMBNAIL" "d"]
              ["gr2"; "fig1"; "gr1"; "gr2"])
    as (graphics & Hg & _ & _).
  - repeat constructor.
  - rewrite Hg. f_equal. vm_compute in Hg. injection Hg as <-. reflexivity.
Defined.

Lemma net_requests_app a b :
  net_requests (List.app a b) = List.app (net_requests a) (net_requests b).
Proof.
  induction a as [|[[]| | |] a IH]; cbn [List.app net_requests];
    rewrite ?IH; reflexivity.
Qed.

Lemma sound_writes_opened b :
  sound_writes None b = true -> forall opened, sound_writes opened b = true.
Proof.
  destruct b as [|[e|p|p|p r] b]; cbn [sound_writes]; auto.
  discriminate.
Qed.

Lemma sound_writes_app a b :
  forall opened,
    sound_writes opened a = true -> sound_writes None b = true ->
    sound_writes opened (List.app a b) = true.
Proof.
  induction a as [|[e|p|p|p r] a IH]; intros opened Ha Hb;
    cbn [List.app sound_writes] in *.
  - apply sound_writes_opened, Hb.
  - apply IH; assumption.
  - apply IH; assumption.
  - apply IH; assumption.
  - apply andb_true_iff in Ha. destruct Ha as [Ha1 Ha2].
    rewrite Ha1. apply IH; assumption.
Qed.

Section Objects.

Variable http : request -> response.
Variable api_key : option string.
Variable inst_token : string.
Variable render : json -> string.
Variable clock : list object_event -> string -> string.
Variable ipython : bool.
Variable cwd : string.
Variable listing : list json -> list json.

Lemma fetch_log url headers log :
  fetch http url headers log
  = (fst (fetch_data http url headers None []),
     append_item log (Net (Get (mkRequest url headers None)))).
Proof.
  unfold fetch. rewrite fetch_data_unfold. reflexivity.
Qed.

Lemma fetch_data_raw url headers r :
  fst (fetch_data http url headers None []) = Ok (Raw r) ->
  r = http (mkRequest url headers None) /\ is_binary r = true.
Proof.
  rewrite fetch_data_unfold. cbv zeta. cbn [fst]. unfold is_binary.
  destruct (Str.contains "image" _ || Str.contains "pdf" _) eqn:Hb.
  - intros [= <-]. split; [reflexivity|exact Hb].
  - destruct (Str.contains "json" _).
    + destruct (json_method _); discriminate.
    + destruct (Str.contains "xml" _); discriminate.
Qed.

Lemma fetch_data_binary url headers :
  is_binary (http (mkRequest url headers None)) = true ->
  fst (fetch_data http url headers None [])
  = Ok (Raw (http (mkRequest url headers None))).
Proof.
  rewrite fetch_data_unfold. cbv zeta. cbn [fst]. unfold is_binary.
  intros ->. reflexivity.
Qed.

Lemma fetch_data_not_binary url headers :
  is_binary (http (mkRequest url headers None)) = false ->
  forall r, fst (fetch_data http url headers None []) <> Ok (Raw r).
Proof.
  intros Hb r H. apply fetch_data_raw in H. destruct H as [-> H].
  congruence.
Qed.

(** One turn over a graphic: the request, then at most the file. *)
Lemma retrieve_graphic_trace article_doi object_retrieval_url dir headers gr
    log :
  exists files,
    retrieve_graphic http clock article_doi object_retrieval_url dir headers
      gr log
    = (Ok tt,
       List.app log
         (Net (Get (mkRequest
                      (Url (object_retrieval_url ++ "/ref/" ++ gr ++ "/high"))
                      headers None)) :: files))
    /\ net_requests files = []
    /\ sound_writes None files = true.
Proof.
  unfold retrieve_graphic, otry, obind. rewrite fetch_log.
  destruct (fst (fetch_data http _ headers None [])) as [data|e] eqn:Hdata.
  - unfold now, olift.
    destruct (replace_method article_doi "/" ".") as [doi|e].
    + unfold save_binary_file, obind, oemit, oraise, append_item.
      destruct data as [r| |].
      * apply fetch_data_raw in Hdata. destruct Hdata as [_ Hb].
        eexists. rewrite <- !app_assoc. split; [reflexivity|].
        split; [reflexivity|]. cbn. rewrite String.eqb_refl, Hb. reflexivity.
      * eexists. rewrite <- !app_assoc. split; [reflexivity|].
        split; reflexivity.
      * eexists. rewrite <- !app_assoc. split; [reflexivity|].
        split; reflexivity.
    + exists []. unfold oret, append_item. repeat split.
  - exists []. unfold oret, append_item. repeat split.
Qed.

Lemma retrieve_graphics_trace article_doi object_retrieval_url dir headers
    graphics :
  forall log,
    exists added,
      retrieve_graphics http clock article_doi object_retrieval_url dir
        headers graphics log
      = (Ok tt, List.app log added)
      /\ net_requests added
         = map (fun gr =>
                  mkRequest
                    (Url (object_retrieval_url ++ "/ref/" ++ gr ++ "/high"))
                    headers None)
               graphics
      /\ sound_writes None added = true.
Proof.
  induction graphics as [|gr graphics IH]; intros log.
  - exists []. cbn. rewrite app_nil_r. repeat split.
  - cbn [retrieve_graphics]. unfold obind at 1.
    destruct (retrieve_graphic_trace article_doi object_retrieval_url dir
                headers gr log) as (files & -> & Hnet & Hsound).
    destruct (IH (List.app log
                    (Net (Get (mkRequest
                                 (Url (object_retrieval_url ++ "/ref/" ++ gr
                                       ++ "/high")) headers None)) :: files)))
      as (added & -> & Hreq & Hs).
    eexists. rewrite <- app_assoc. split; [reflexivity|]. split.
    + cbn [List.app net_requests map]. rewrite net_requests_app, Hnet, Hreq.
      reflexivity.
    + cbn [List.app sound_writes]. apply sound_writes_app; assumption.
Qed.

(** One turn over a manuscript. *)
Lemma retrieve_manuscript_trace dir headers man_url log :
  exists done added,
    retrieve_manuscript http clock dir headers man_url log
    = (Ok done, List.app log added)
    /\ sound_writes None added = true
    /\ match man_url with
       | JStr address =>
           net_requests added = [mkRequest (Url address) headers None]
           /\ done = is_binary (http (mkRequest (Url address) headers None))
       | _ => added = [] /\ done = false
       end.
Proof.
  unfold retrieve_manuscript, otry, obind.
  destruct man_url as [| | |address| |];
    try (exists false, []; unfold oraise, oret; rewrite app_nil_r;
         repeat split; fail).
  rewrite fetch_log.
  destruct (is_binary (http (mkRequest (Url address) headers None))) eqn:Hb.
  - rewrite (fetch_data_binary _ _ Hb).
    unfold now, save_binary_file, obind, oemit, oret, append_item.
    exists true. eexists. rewrite <- !app_assoc. split; [reflexivity|].
    cbn. rewrite String.eqb_refl, Hb. repeat split.
  - pose proof (fetch_data_not_binary _ _ Hb) as Hno.
    destruct (fst (fetch_data http (Url address) headers None []))
      as [[r| |]|e].
    + exfalso. apply (Hno r). reflexivity.
    + unfold now, save_binary_file, obind, oemit, oraise, oret, append_item.
      exists false. eexists. rewrite <- !app_assoc. split; [reflexivity|].
      repeat split.
    + unfold now, save_binary_file, obind, oemit, oraise, oret, append_item.
      exists false. eexists. rewrite <- !app_assoc. split; [reflexivity|].
      repeat split.
    + unfold oret, append_item. exists false. eexists.
      split; [reflexivity|]. repeat split.
Qed.

Lemma retrieve_manuscripts_trace dir headers man_urls :
  forall log,
    exists added,
      retrieve_manuscripts http clock dir headers man_urls log
      = (Ok tt, List.app log added)
      /\ sound_writes None added = true.
Proof.
  induction man_urls as [|u man_urls IH]; intros log.
  - exists []. cbn. rewrite app_nil_r. split; reflexivity.
  - cbn [retrieve_manuscripts]. unfold obind at 1.
    destruct (retrieve_manuscript_trace dir headers u log)
      as (done & added & -> & Hs & _).
    destruct done.
    + destruct (IH (List.app log added)) as (more & -> & Hm).
      eexists. rewrite <- app_assoc. split; [reflexivity|].
      apply sound_writes_app; assumption.
    + exists added. split; [reflexivity|exact Hs].
Qed.

(** X16.  The manuscripts are fetched in the order listed until one fails,
    and a download succeeds exactly when the answer is declared as an image
    or a PDF: after addresses that are so answered, one that is not still
    gets its request, and no request is made for any address after it. *)
Theorem retrieve_manuscripts_stop_at_failure dir headers good bad rest log :
  Forall (fun address =>
            is_binary (http (mkRequest (Url address) headers None)) = true)
         good ->
  is_binary (http (mkRequest (Url bad) headers None)) = false ->
  exists added,
    retrieve_manuscripts http clock dir headers
      (map JStr (List.app good (bad :: rest))) log
    = (Ok tt, List.app log added)
    /\ net_requests added
       = map (fun address => mkRequest (Url address) headers None)
           (List.app good [bad]).
Proof.
  intros Hgood Hbad. revert log.
  induction Hgood as [|g good Hg _ IH]; intros log;
    cbn [List.app map retrieve_manuscripts]; unfold obind at 1.
  - destruct (retrieve_manuscript_trace dir headers (JStr bad) log)
      as (done & added & -> & _ & Hreq & ->).
    rewrite Hbad. exists added. split; [reflexivity|exact Hreq].
  - destruct (retrieve_manuscript_trace dir headers (JStr g) log)
      as (done & added & -> & _ & Hreq & ->).
    rewrite Hg. destruct (IH (List.app log added)) as (more & -> & Hmore).
    eexists. rewrite <- app_assoc. split; [reflexivity|].
    rewrite net_requests_app, Hreq, Hmore. reflexivity.
Qed.

End Objects.

Section ObjectRetrieval.

Variable http : request -> response.
Variable api_key : option string.
Variable inst_token : string.
Variable render : json -> string.
Variable clock : list object_event -> string -> string.
Variable ipython : bool.
Variable cwd : string.
Variable listing : list json -> list json.

(** X17.  Whatever the article, the provider and the flags, and however
    the call ends, content is only ever written to the file opened just
    before, and only the content of an answer declared as an image or a
    PDF: a JSON answer (an error document, say) is never written into a
    graphic or a manuscript file. *)
Theorem retrieve_article_graphics_writes article_dictionary save_manuscript
    log :
  exists r added,
    retrieve_article_graphics http api_key inst_token render clock ipython
      cwd listing article_dictionary save_manuscript log
    = (r, List.app log added)
    /\ sound_writes None added = true.
Proof.
  unfold retrieve_article_graphics, obind at 1, olift.
  destruct (get_method article_dictionary "prism:doi") as [doi|e];
    [|exists (Raise e), []; rewrite app_nil_r; split; reflexivity].
  destruct (py_truthy doi); cbn [negb];
    [|exists (Ok tt), []; unfold oret; rewrite app_nil_r; split; reflexivity].
  unfold obind at 1, otry, obind at 1. rewrite fetch_log.
  destruct (fst (fetch_data http _ _ None [])) as [data|e];
    [|eexists (Ok tt), _; unfold oret, append_item; split; reflexivity].
  unfold oret at 1.
  destruct (match (choices <- fetched_subscript data "choices" ;;
                   subscript choices "choice") with
            | Ok choice =>
                (Parsed choice,
                 match select_graphics choice with
                 | Ok graphics => Some graphics
                 | Raise _ => None
                 end)
            | Raise _ => (data, None)
            end) as [object_data graphics].
  unfold obind at 1, olift, filepath_to_output.
  destruct ipython; cbn [bind];
    [|eexists (Raise _), _; unfold append_item; split; reflexivity].
  unfold obind at 1, oemit at 1.
  set (dir := path_join _ "graphic_renderings").
  set (mdir := path_join _ "author_manuscripts").
  set (headers := headers_set _ "Accept" (Some "*/*")).
  set (url := append "https://api.elsevier.com/content/object/doi/" _).
  set (log1 := append_item (append_item log _) (MakeDirs dir)).
  assert (Hfirst : exists added1,
             log1 = List.app log added1 /\ sound_writes None added1 = true).
  { eexists. unfold log1, append_item. rewrite <- app_assoc.
    split; reflexivity. }
  destruct Hfirst as (added1 & Hlog1 & Hs1).
  unfold obind at 1.
  assert (Hdirs : exists added2,
             (if save_manuscript then oemit (MakeDirs mdir) else oret tt) log1
             = (Ok tt, List.app log added2)
             /\ sound_writes None added2 = true).
  { destruct save_manuscript; unfold oemit, oret, append_item.
    - exists (List.app added1 [MakeDirs mdir]). rewrite Hlog1, app_assoc.
      split; [reflexivity|]. apply sound_writes_app; [exact Hs1|reflexivity].
    - exists added1. rewrite Hlog1. split; [reflexivity|exact Hs1]. }
  destruct Hdirs as (added2 & -> & Hs2).
  unfold obind at 1.
  assert (Hgraphics : exists added3,
             (if truthy graphics
              then retrieve_graphics http clock doi url dir headers
                     (items graphics)
              else oret tt) (List.app log added2)
             = (Ok tt, List.app log added3)
             /\ sound_writes None added3 = true).
  { destruct (truthy graphics).
    - destruct (retrieve_graphics_trace http clock doi url dir headers
                  (items graphics) (List.app log added2))
        as (more & -> & _ & Hm).
      exists (List.app added2 more). rewrite app_assoc.
      split; [reflexivity|]. apply sound_writes_app; assumption.
    - exists added2. split; [reflexivity|exact Hs2]. }
  destruct Hgraphics as (added3 & -> & Hs3).
  destruct save_manuscript;
    [|exists (Ok tt), added3; split; [reflexivity|exact Hs3]].
  destruct (truthy _);
    [|exists (Ok tt), added3; split; [reflexivity|exact Hs3]].
  destruct (retrieve_manuscripts_trace http clock mdir headers
              (items
                 match
                   (objects <- objects_of object_data ;;
                    addresses <- map_result manuscript_url objects ;;
                    Ok (listing (somes addresses)))
                 with
                 | Ok man_urls => Some man_urls
                 | Raise _ => None
                 end)
              (List.app log added3)) as (more & -> & Hm).
  exists (Ok tt), (List.app added3 more). rewrite app_assoc.
  split; [reflexivity|]. apply sound_writes_app; assumption.
Qed.

Lemma replace_char_clean a b s :
  a <> b -> Str.contains (String a EmptyString) (replace_char a b s) = false.
Proof.
  intros Hab. induction s as [|c s IH]; [reflexivity|].
  cbn [replace_char Str.contains String.prefix]. rewrite IH.
  destruct (Ascii.eqb_spec c a) as [->|Hc].
  - destruct (Ascii.ascii_dec a b) as [E|_]; [contradiction|reflexivity].
  - destruct (Ascii.ascii_dec a c) as [E|_]; [congruence|reflexivity].
Qed.

(** X18.  A graphic whose request is answered is given a file in the
    graphics directory, named from the DOI with every slash turned into a
    dot (so the DOI part holds no slash), the reference and the date read
    after the request; the content is written when the answer is a
    response object, and otherwise the file is left as opened, empty.  The
    turn itself never raises. *)
Theorem retrieve_graphic_file doi object_retrieval_url dir headers gr log data :
  let rq :=
    mkRequest (Url (object_retrieval_url ++ "/ref/" ++ gr ++ "/high"))
      headers None in
  let date := clock (append_item log (Net (Get rq))) "%Y%m%d" in
  let name :=
    replace_char "/" "." doi ++ "_" ++ gr ++ "_" ++ date ++ ".jpg" in
  fst (fetch_data http (rq_url rq) headers None []) = Ok data ->
  retrieve_graphic http clock (JStr doi) object_retrieval_url dir headers gr
    log
  = (Ok tt,
     List.app log
       (Net (Get rq) :: CreateFile (path_join dir name)
        :: match data with
           | Raw r => [WriteBytes (path_join dir name) r]
           | Parsed _ | Nothing => []
           end))
  /\ Str.contains "/" (replace_char "/" "." doi) = false.
Proof.
  intros rq date name Hdata. split; [|apply replace_char_clean; discriminate].
  unfold retrieve_graphic, otry, obind. rewrite fetch_log.
  cbn [rq_url rq] in Hdata. rewrite Hdata.
  unfold now, olift, replace_method, save_binary_file, obind, oemit, oraise,
    oret, append_item.
  destruct data; rewrite <- !app_assoc; reflexivity.
Qed.

(** X19.  Under IPython, for an article with a DOI whose index is answered
    and lists its choices, and with no manuscript asked for, the call
    returns having issued the request for the index and then one request
    per graphic selected, in their sorted order, each for the high
    resolution rendering and accepting any content type, whatever became of
    the graphics before it. *)
Theorem retrieve_article_graphics_requests article_dictionary doi data
    choices choice graphics log :
  ipython = true ->
  get_method article_dictionary "prism:doi" = Ok doi ->
  py_truthy doi = true ->
  fst (fetch_data http (Url (object_url render doi))
         (write_headers api_key inst_token "application/json") None [])
  = Ok data ->
  fetched_subscript data "choices" = Ok choices ->
  subscript choices "choice" = Ok choice ->
  select_graphics choice = Ok graphics ->
  exists added,
    retrieve_article_graphics http api_key inst_token render clock ipython
      cwd listing article_dictionary false log
    = (Ok tt, List.app log added)
    /\ net_requests added
       = index_request api_key inst_token (object_url render doi)
         :: map (graphic_request api_key inst_token (object_url render doi))
              graphics.
Proof.
  intros Hipy Hdoi Htruthy Hdata Hchoices Hchoice Hgraphics.
  unfold retrieve_article_graphics, obind at 1, olift. rewrite Hdoi, Htruthy.
  cbn [negb]. unfold obind at 1, otry, obind at 1. rewrite fetch_log.
  fold (object_url render doi). rewrite Hdata. unfold oret at 1.
  rewrite Hchoices. cbn [bind]. rewrite Hchoice, Hgraphics.
  unfold obind at 1, olift, filepath_to_output. rewrite Hipy. cbn [bind].
  unfold obind at 1, oemit at 1. unfold obind at 1, oret at 1.
  unfold obind at 1.
  set (dir := path_join _ "graphic_renderings").
  set (headers := headers_set _ "Accept" (Some "*/*")).
  set (log1 := append_item (append_item log _) (MakeDirs dir)).
  destruct graphics as [|gr graphics]; cbn [truthy items].
  - unfold oret. exists [Net (Get (index_request api_key inst_token
                                     (object_url render doi))); MakeDirs dir].
    unfold log1, append_item. rewrite <- app_assoc. split; reflexivity.
  - destruct (retrieve_graphics_trace http clock doi (object_url render doi)
                dir headers (gr :: graphics) log1)
      as (more & -> & Hreq & _).
    unfold oret.
    exists (List.app [Net (Get (index_request api_key inst_token
                                  (object_url render doi))); MakeDirs dir]
              more).
    split.
    + unfold log1, append_item. rewrite <- !app_assoc. reflexivity.
    + rewrite net_requests_app, Hreq. reflexivity.
Qed.

(** X20.  Nothing is created, directory or file, in three cases: the
    article has no DOI, or a null, empty or zero one (no request is made
    either); the request for the index raises (the call returns after that
    one request); the code does not run under IPython, where the output
    directory cannot be resolved ([__file__] is read unbound: the call
    raises after the one request). *)
Theorem retrieve_article_graphics_nothing_created article_dictionary
    save_manuscript log doi :
  get_method article_dictionary "prism:doi" = Ok doi ->
  let run :=
    retrieve_article_graphics http api_key inst_token render clock ipython
      cwd listing article_dictionary save_manuscript log in
  let index :=
    Net (Get (index_request api_key inst_token (object_url render doi))) in
  (py_truthy doi = false -> run = (Ok tt, log))
  /\ (py_truthy doi = true ->
      forall e,
        fst (fetch_data http (Url (object_url render doi))
               (write_headers api_key inst_token "application/json") None [])
        = Raise e ->
        run = (Ok tt, append_item log index))
  /\ (py_truthy doi = true ->
      forall data,
        fst (fetch_data http (Url (object_url render doi))
               (write_headers api_key inst_token "application/json") None [])
        = Ok data ->
        ipython = false ->
        run = (Raise (UnboundLocalError "__file__"), append_item log index)).
Proof.
  intros Hdoi run index. unfold run, index.
  split; [|split].
  - intros Ht.
    unfold retrieve_article_graphics, obind at 1, olift. rewrite Hdoi, Ht.
    reflexivity.
  - intros Ht e He.
    unfold retrieve_article_graphics, obind at 1, olift. rewrite Hdoi, Ht.
    cbn [negb].
    unfold obind at 1, otry, obind at 1. rewrite fetch_log.
    fold (object_url render doi). rewrite He. reflexivity.
  - intros Ht data Hdata Hipy.
    unfold retrieve_article_graphics, obind at 1, olift. rewrite Hdoi, Ht.
    cbn [negb].
    unfold obind at 1, otry, obind at 1. rewrite fetch_log.
    fold (object_url render doi). rewrite Hdata. unfold oret at 1.
    destruct (match (choices <- fetched_subscript data "choices" ;;
                     subscript choices "choice") with
              | Ok choice =>
                  (Parsed choice,
                   match select_graphics choice with
                   | Ok graphics => Some graphics
                   | Raise _ => None
                   end)
              | Raise _ => (data, None)
              end) as [object_data graphics].
    unfold obind at 1, olift, filepath_to_output. rewrite Hipy. reflexivity.
Qed.

End ObjectRetrieval.

Lemma retrieve_manuscripts_stop_at_failure_witness :
  exists added,
    retrieve_manuscripts object_provider sample_clock "/tmp/manuscripts"
      star_headers
      [JStr "https://x/am.pdf"; JStr "https://x/index"; JStr "https://x/am.pdf"]
      []
    = (Ok tt, added)
    /\ net_requests added
       = [mkRequest (Url "https://x/am.pdf") star_headers None;
          mkRequest (Url "https://x/index") star_headers None].
Proof.
  destruct (retrieve_manuscripts_stop_at_failure object_provider sample_clock
              "/tmp/manuscripts" star_headers ["https://x/am.pdf"]
              "https://x/index" ["https://x/am.pdf"] [])
    as (added & Hrun & Hreq).
  - repeat constructor.
  - reflexivity.
  - exists added. split; [exact Hrun|exact Hreq].
Defined.

Lemma retrieve_graphic_file_witness :
  retrieve_graphic object_provider sample_clock
    (JStr "10.1016/j.x.2020.01.001") sample_object_url "/tmp/graphics"
    star_headers "gr2" []
  = (Ok tt,
     [Net (Get (graphic_request (Some "key") EmptyString sample_object_url
                  "gr2"));
      CreateFile "/tmp/graphics/10.1016.j.x.2020.01.001_gr2_20250301.jpg"]).
Proof.
  exact (proj1 (retrieve_graphic_file object_provider sample_clock
                  "10.1016/j.x.2020.01.001" sample_object_url "/tmp/graphics"
                  star_headers "gr2" [] (Parsed error_document) eq_refl)).
Defined.

Lemma retrieve_article_graphics_requests_witness :
  exists added,
    retrieve_article_graphics object_provider (Some "key") EmptyString
      sample_render sample_clock true "/home/u/scripts" (fun l => l)
      sample_article false []
    = (Ok tt, added)
    /\ net_requests added
       = [index_request (Some "key") EmptyString sample_object_url;
          graphic_request (Some "key") EmptyString sample_object_url "gr1";
          graphic_request (Some "key") EmptyString sample_object_url "gr2"].
Proof.
  destruct (retrieve_article_graphics_requests object_provider (Some "key")
              EmptyString sample_render sample_clock true "/home/u/scripts"
              (fun l => l) sample_article (JStr "10.1016/j.x.2020.01.001")
              (Parsed object_index) _ _ ["gr1"; "gr2"] []
              eq_refl eq_refl eq_refl eq_refl eq_refl eq_refl eq_refl)
    as (added & Hrun & Hreq).
  exists added. split; [exact Hrun|exact Hreq].
Defined.

Lemma retrieve_article_graphics_nothing_created_witness :
  retrieve_article_graphics object_provider (Some "key") EmptyString
    sample_render sample_clock true "/home/u/scripts" (fun l => l)
    (JObj [("dc:title", JStr "On sleep")]) true []
  = (Ok tt, [])
  /\ retrieve_article_graphics object_provider (Some "key") EmptyString
       sample_render sample_clock false "/home/u/scripts" (fun l => l)
       sample_article true []
     = (Raise (UnboundLocalError "__file__"),
        [Net (Get (index_request (Some "key") EmptyString sample_object_url))]).
Proof.
  split.
  - exact (proj1 (retrieve_article_graphics_nothing_created object_provider
                    (Some "key") EmptyString sample_render sample_clock true
                    "/home/u/scripts" (fun l => l)
                    (JObj [("dc:title", JStr "On sleep")]) true [] JNull
                    eq_refl) eq_refl).
  - exact (proj2 (proj2 (retrieve_article_graphics_nothing_created
                           object_provider (Some "key") EmptyString
                           sample_render sample_clock false "/home/u/scripts"
                           (fun l => l) sample_article true []
                           (JStr "10.1016/j.x.2020.01.001") eq_refl))
             eq_refl (Parsed object_index) eq_refl eq_refl).
Defined.

(** ** Order among equals *)

Lemma same_rank_below r a b :
  same_rank r a = true -> same_rank r b = true ->
  rank_below (rank a) (rank b) = false.
Proof.
  unfold same_rank.
  destruct r as [[p n]|], (rank a) as [[p1 n1]|], (rank b) as [[p2 n2]|];
    try discriminate; try reflexivity.
  intros H1 H2. apply andb_true_iff in H1, H2.
  destruct H1 as [H1 H1'], H2 as [H2 H2'].
  apply Z.eqb_eq in H1, H1', H2, H2'. subst. cbn.
  rewrite !Z.ltb_irrefl, andb_false_r. reflexivity.
Qed.

Lemma insert_desc_stable e l :
  exists l',
    insert_desc (keyed e) (map keyed l) = Ok (map keyed l')
    /\ forall r, filter (same_rank r) l' = filter (same_rank r) (e :: l).
Proof.
  induction l as [|y l (l' & Hins & Hst)].
  - exists [e]. split; reflexivity.
  - cbn [map insert_desc]. unfold keyed at 1 2. cbn [fst].
    rewrite tuple_lt_rank. cbn [bind].
    destruct (rank_below (rank e) (rank y)) eqn:E.
    + fold (keyed e). rewrite Hins. exists (y :: l').
      split; [reflexivity|]. intros r. cbn [filter]. rewrite Hst.
      cbn [filter].
      destruct (same_rank r e) eqn:He, (same_rank r y) eqn:Hy;
        try reflexivity.
      rewrite (same_rank_below r e y He Hy) in E. discriminate.
    + exists (e :: y :: l). split; reflexivity.
Qed.

Lemma sort_desc_stable l :
  exists l',
    sort_desc (map keyed l) = Ok (map keyed l')
    /\ forall r, filter (same_rank r) l' = filter (same_rank r) l.
Proof.
  induction l as [|e l (s & Hs & Hst)].
  - exists []. split; reflexivity.
  - cbn [map sort_desc]. rewrite Hs. cbn [bind].
    destruct (insert_desc_stable e s) as (l' & Hins & Hst').
    exists l'. split; [exact Hins|]. intros r. rewrite Hst'.
    cbn [filter]. rewrite Hst. reflexivity.
Qed.

(** X21.  The sort is stable: among the records of any one rank (the same
    policy and news counts, or a null policy count), the order of the
    input is kept. *)
Theorem sorted_reverse_stable l :
  Forall (fun entry => counters entry <> None) l ->
  exists l',
    sorted_reverse entry_sorter l = Ok l'
    /\ forall r, filter (same_rank r) l' = filter (same_rank r) l.
Proof.
  intros H. unfold sorted_reverse. rewrite (keys_of_counted l H).
  cbn [bind]. rewrite combine_keyed.
  destruct (sort_desc_stable l) as (l' & Hs & Hst).
  rewrite Hs. cbn [bind]. exists l'. split; [|exact Hst].
  rewrite map_map. cbn [keyed snd]. rewrite map_id. reflexivity.
Qed.

Lemma sorted_reverse_stable_witness :
  exists l',
    sorted_reverse entry_sorter
      [JObj [("t", JStr "a"); ("policy_citation_count", JNum 1);
             ("news_mentions", JNum 2)];
       counted (JNum 9) (JNum 0);
       JObj [("t", JStr "b"); ("policy_citation_count", JNum 1);
             ("news_mentions", JNum 2)]]
    = Ok l'
    /\ filter (same_rank (Some (1, 2))) l'
       = [JObj [("t", JStr "a"); ("policy_citation_count", JNum 1);
                ("news_mentions", JNum 2)];
          JObj [("t", JStr "b"); ("policy_citation_count", JNum 1);
                ("news_mentions", JNum 2)]].
Proof.
  destruct (sorted_reverse_stable
              [JObj [("t", JStr "a"); ("policy_citation_count", JNum 1);
                     ("news_mentions", JNum 2)];
               counted (JNum 9) (JNum 0);
               JObj [("t", JStr "b"); ("policy_citation_count", JNum 1);
                     ("news_mentions", JNum 2)]])
    as (l' & Hs & Hst).
  - repeat constructor; discriminate.
  - exists l'. split; [exact Hs|]. rewrite Hst. reflexivity.
Defined.

(** ** Caps and providers that stall *)

Section Stalling.

Variable http : request -> response.

(** X22.  A cap of 0 is no cap: the loop runs exactly as it does with
    [max_results = None], whatever the provider. *)
Theorem search_loop_cap_zero fuel :
  forall search_url headers p all_entries log,
    search_loop http fuel search_url headers p (Some 0) all_entries log
    = search_loop http fuel search_url headers p None all_entries log.
Proof.
  induction fuel as [|fuel IH]; intros u h p all log; [reflexivity|].
  rewrite !search_loop_step. cbv zeta.
  destruct (fst (fetch_data http (Url u) h (Some p) [])) as [data|e];
    [|reflexivity].
  destruct (iterate_search_info data) as [[[[entries total] st] per_page]|];
    [|reflexivity].
  destruct (py_iter entries) as [page|e]; [|reflexivity].
  destruct (_ >=? _); [reflexivity|].
  cbn [cap_reached Z.eqb negb andb]. apply IH.
Qed.

(** X23.  The loop has no guard on progress: when the provider keeps
    answering with an empty page below the total it reports, the loop never
    ends, with no cap or with any cap of at least 1 (the cap counts
    entries, and none arrive): no amount of fuel yields an outcome. *)
Theorem search_loop_stalls search_url headers max_results :
  stalling http search_url headers ->
  (max_results = None \/ exists m, max_results = Some m /\ 0 < m) ->
  forall fuel p log,
    search_loop http fuel search_url headers p max_results [] log = None.
Proof.
  intros Hstall Hcap.
  induction fuel as [|fuel IH]; intros p log; [reflexivity|].
  rewrite search_loop_step. cbv zeta.
  destruct (Hstall p) as (data & entries & total & offset & pp
                          & Hd & Hi & Hpage & Hlt).
  rewrite Hd, Hi, Hpage. cbn [List.app List.length Z.of_nat].
  destruct (Z.geb_spec (offset + 0) total) as [G|G]; [lia|].
  assert (cap_reached max_results [] = false) as ->.
  { destruct Hcap as [->|(m & -> & Hm)]; [reflexivity|].
    unfold cap_reached. cbn [List.length Z.of_nat].
    destruct (Z.geb_spec 0 m); [lia|]. apply andb_false_r. }
  apply IH.
Qed.

End Stalling.

Lemma stalling_provider_stalls search_url headers :
  stalling stalling_provider search_url headers.
Proof.
  intros q. rewrite fetch_data_unfold.
  exists (Parsed (JObj [("search-results",
                         JObj [("opensearch:totalResults", JStr "7");
                               ("opensearch:startIndex", JStr "0");
                               ("opensearch:itemsPerPage", JStr "0");
                               ("entry", JArr [])])])),
    (JArr []), 7, 0, 0.
  split; [reflexivity|]. split; [reflexivity|]. split; [reflexivity|lia].
Qed.

Lemma search_loop_stalls_witness :
  search_loop stalling_provider 40 scopus_url sample_headers sample_params
    (Some 10) [] []
  = None.
Proof.
  apply (search_loop_stalls stalling_provider scopus_url sample_headers
           (Some 10) (stalling_provider_stalls scopus_url sample_headers)).
  right. exists 10. split; [reflexivity|lia].
Defined.
